(** * The deploy orchestrator of [src/deploy.ts], embedded in Rocq.

    The [Deployer] class talks to the outside world through awaited calls:
    the API client, the injected effects bundle (clack prompts, file
    system, persisted deploy config), the clock and child processes.  The
    embedding keeps the code's control flow and makes the outside world an
    explicit value:

    - an [Env] record holds one oracle per external call; an oracle gets
      the number of interactions that happened before it (so that a polled
      endpoint can answer differently over time) and the call's arguments;
    - the interactions of a run are recorded in a [Trace], in order;
    - a method of [Deployer] is a function in the monad [M], which threads
      the trace and propagates thrown errors; [while (true)] loops take a
      fuel argument.  *)

From Stdlib Require Import ZArith String Ascii List Bool Lia DecimalString Permutation.
Import ListNotations.

Local Open Scope string_scope.
Local Open Scope Z_scope.
Set Warnings "-register-all".

(** ** JavaScript values and string operations used by the code *)

Module Js.

(** Truthiness of a [string | null] value: [null] and [""] are falsy. *)
Definition truthy (v : option string) : bool :=
  match v with
  | Some s => negb (s =? "")%string
  | None => false
  end.

(** [`${v}`] for a [string | null] value. *)
Definition show_nullable (v : option string) : string :=
  match v with
  | Some s => s
  | None => "null"
  end.

Definition string_of_Z (z : Z) : string := NilZero.string_of_int (Z.to_int z).

(** [s.replace(/suf$/, "")] for a literal suffix. *)
Fixpoint stripSuffix (suf s : string) : string :=
  if (s =? suf)%string then ""
  else match s with
       | EmptyString => EmptyString
       | String c r => String c (stripSuffix suf r)
       end.

(** [s.replace(/^pre/, "")] for a literal prefix. *)
Definition stripPrefix (pre s : string) : string :=
  if prefix pre s
  then substring (String.length pre) (String.length s - String.length pre)%nat s
  else s.

(** [s.split(sep)] where the separator is any one character satisfying [sep]. *)
Fixpoint splitBy (sep : ascii -> bool) (s : string) : list string :=
  match s with
  | EmptyString => [EmptyString]
  | String c r =>
      if sep c then EmptyString :: splitBy sep r
      else match splitBy sep r with
           | [] => [String c EmptyString]
           | w :: ws => String c w :: ws
           end
  end.

Definition split (sep : ascii) : string -> list string := splitBy (Ascii.eqb sep).

(** The ASCII part of the regular expression class [\s]. *)
Definition isSpace (c : ascii) : bool :=
  let n := nat_of_ascii c in
  ((9 <=? n) && (n <=? 13))%nat || (n =? 32)%nat.

(** [s.includes(needle)], also the test of an unanchored literal regex. *)
Fixpoint includes (needle s : string) : bool :=
  prefix needle s ||
  match s with
  | EmptyString => false
  | String _ r => includes needle r
  end.

(** [s.slice(0, n)]: a negative [n] counts from the end. *)
Definition slice0 (s : string) (n : Z) : string :=
  let len := Z.of_nat (String.length s) in
  let stop := if n <? 0 then Z.max (len + n) 0 else Z.min n len in
  substring 0 (Z.to_nat stop) s.

(** The character class [[a-z0-9-]]. *)
Definition slugChar (c : ascii) : bool :=
  let n := nat_of_ascii c in
  ((97 <=? n) && (n <=? 122))%nat || ((48 <=? n) && (n <=? 57))%nat || (n =? 45)%nat.

Fixpoint allChars (p : ascii -> bool) (s : string) : bool :=
  match s with
  | EmptyString => true
  | String c r => p c && allChars p r
  end.

(** [s.match(/^[a-z0-9-]+$/)] is not null. *)
Definition matchSlug (s : string) : bool :=
  negb (s =? "")%string && allChars slugChar s.

(** [s.match(/^@?[a-z0-9-]+$/)] is not null. *)
Definition matchLogin (s : string) : bool :=
  match s with
  | String "@" r => matchSlug r
  | _ => matchSlug s
  end.

(** [join] of [node:path/posix], for segments that need no normalisation:
    the segments separated by a slash. *)
Definition join (a b : string) : string := a ++ "/" ++ b.

(** A JavaScript number that is an integer or one of the infinities; the
    modification times and ages the code compares are such numbers. *)
Inductive Num := NegInfinity | Finite (z : Z) | Infinity.

(** [a > b] *)
Definition gt (a b : Num) : bool :=
  match a, b with
  | NegInfinity, _ => false
  | _, Infinity => false
  | Finite x, Finite y => y <? x
  | Finite _, NegInfinity => true
  | Infinity, _ => true
  end.

(** [a < b] *)
Definition lt (a b : Num) : bool := gt b a.

(** [now - b] for a finite [now]. *)
Definition minus (now : Z) (b : Num) : Num :=
  match b with
  | NegInfinity => Infinity
  | Finite y => Finite (now - y)
  | Infinity => NegInfinity
  end.

(** [Math.round(a / d)] for a positive integer [d]: halves round up. *)
Definition roundDiv (a : Num) (d : Z) : Num :=
  match a with
  | Finite x => Finite ((2 * x + d) / (2 * d))
  | other => other
  end.

Definition show (a : Num) : string :=
  match a with
  | NegInfinity => "-Infinity"
  | Finite x => string_of_Z x
  | Infinity => "Infinity"
  end.

End Js.

(** ** Errors *)

(** Modelled from the spec: [error.js] is not part of the sources.  The
    error taxonomy of the orchestrator: a transport error carries an HTTP
    status code (and, for a structured API error, the machine-readable
    codes of its [details.errors]); a [CliError] is the user-facing
    operational error with its optional cause, print flag and exit code; a
    missing-file condition; and any other JavaScript [Error]. *)
Inductive Error :=
| HttpError (statusCode : Z) (message : string) (errorCodes : list string)
| CliError (message : string) (cause : option Error) (print : option bool) (exitCode : option Z)
| Enoent (path : string)
| JsError (message : string).

Definition isHttpError (e : Error) : bool :=
  match e with HttpError _ _ _ => true | _ => false end.

Definition statusCode_is (e : Error) (code : Z) : bool :=
  match e with HttpError c _ _ => c =? code | _ => false end.

Definition isApiError_with (code : string) (e : Error) : bool :=
  match e with
  | HttpError _ _ codes => existsb (String.eqb code) codes
  | _ => false
  end.

Definition isEnoent (e : Error) : bool :=
  match e with Enoent _ => true | _ => false end.

Definition error_message (e : Error) : string :=
  match e with
  | HttpError _ m _ => m
  | CliError m _ _ _ => m
  | Enoent p => "ENOENT: no such file or directory, " ++ p
  | JsError m => m
  end.

(** [CliError.match(error, {message: /text/})] *)
Definition CliError_match (text : string) (e : Error) : bool :=
  match e with
  | CliError m _ _ _ => Js.includes text m
  | _ => false
  end.

(** [new CliError(message)] *)
Definition cliError (message : string) : Error := CliError message None None None.

(** [new CliError("User canceled deploy", {print: false, exitCode: 0})] *)
Definition userCanceled (message : string) : Error :=
  CliError message None (Some false) (Some 0).

(** ** Data model *)

Record WorkspaceRef := { ws_id : string; ws_login : string }.

Record WorkspaceResponse := {
  w_id : string;
  w_login : string;
  w_name : string;
  w_role : string
}.

Definition workspaceRef (w : WorkspaceResponse) : WorkspaceRef :=
  {| ws_id := w_id w; ws_login := w_login w |}.

Record ProjectSource := {
  src_provider : string;
  src_provider_id : string;
  src_url : string;
  src_branch : string
}.

Record GetProjectResponse := {
  p_id : string;
  p_slug : string;
  p_title : string;
  p_owner : WorkspaceRef;
  p_latestCreatedDeployId : option string;
  p_build_environment_id : option string;
  p_source : option ProjectSource
}.

Record GitHubRepository := {
  gh_provider : string;
  gh_provider_id : string;
  gh_url : string
}.

Inductive GitHubQuery :=
| ByName (ownerName repoName : string)
| ByProviderId (providerId : string).

Record GetDeployResponse := {
  d_id : string;
  d_status : string;
  d_url : string
}.

Record DeployConfig := {
  projectId : option string;
  projectSlug : option string;
  workspaceLogin : option string;
  continuousDeployment : option bool
}.

(** The tagged union [DeployTargetInfo]: [create: true] or [create: false]. *)
Inductive DeployTargetInfo :=
| Create (workspace : WorkspaceRef) (slug title accessLevel : string)
| Existing (workspace : WorkspaceRef) (project : GetProjectResponse).

Definition is_create (t : DeployTargetInfo) : bool :=
  match t with Create _ _ _ _ => true | Existing _ _ => false end.

Record DeployManifestFile := {
  mf_path : string;
  mf_size : Z;
  mf_hash : string
}.

Record FileInstruction := {
  fi_path : string;
  fi_status : string;
  fi_detail : option string
}.

Record ManifestResponse := {
  mr_status : string;
  mr_detail : option string;
  mr_files : list FileInstruction
}.

Record Stats := { mtimeMs : Z; size : Z }.

Inductive Force := ForceBuild | ForceDeploy.

Record DeployOptions := {
  config_root : string;
  config_output : string;
  config_title : option string;
  deployConfigPath : option string;
  message : option string;
  deployPollInterval : option Z;
  force : option Force;
  maxConcurrency : option Z;
  deployId : option string
}.

(** What a prompt gives back: a value, or clack's cancel symbol. *)
Inductive Answer (A : Type) := Answered (a : A) | Canceled.
Arguments Answered {A} a.
Arguments Canceled {A}.

(** ** Interactions with the outside world *)

Inductive LogLevel := Info | Warn | LogError | Step.

Inductive Event :=
| EvDateNow
| EvSleep (ms : Z)
| EvExistsSync (path : string)
| EvExec (command : string)
| EvVisitFiles (root : string)
| EvStat (path : string)
| EvReadFile (path : string)
| EvReadCacheFile (path : string)
| EvBuild
| EvGetDeployConfig
| EvSetDeployConfig (c : DeployConfig)
| EvConfirm (question : string) (initialValue : option bool)
| EvText (question : string)
| EvSelect (question : string)
| EvLog (level : LogLevel) (text : string)
| EvConsoleLog (text : string)
| EvOutro (text : string)
| EvSpinnerStart (text : string)
| EvSpinnerMessage (text : string)
| EvSpinnerStop (text : string)
| EvRateLimiterWait
| EvGetProject (login slug : string)
| EvPostProject (slug title workspaceId accessLevel : string)
| EvPostProjectBuild (projectId : string)
| EvGetGitHubRepository (q : GitHubQuery)
| EvPostProjectEnvironment (projectId : string) (source : ProjectSource)
| EvGetWorkspaceProjects (login : string)
| EvGetDeploy (deployId : string)
| EvPostDeploy (projectId message : string)
| EvPostDeployManifest (deployId : string) (files : list DeployManifestFile)
| EvPostDeployFile (deployId fullPath path : string)
| EvPostDeployUploaded (deployId : string) (buildManifest : option string)
| EvTelemetry (record : string).

Definition Trace := list Event.

(** How an awaited call settles. *)
Inductive Reply (A : Type) := Resolves (a : A) | Rejects (e : Error).
Arguments Resolves {A} a.
Arguments Rejects {A} e.

(** The outside world.  The first argument of an oracle is the number of
    interactions that came before the call. *)
Record Env := {
  (* deployOptions and the authenticated user *)
  options : DeployOptions;
  currentUser_workspaces : list WorkspaceResponse;
  (* tty and constants read from the process *)
  isTty : bool;
  outputColumns : Z;
  OBSERVABLE_UI_ORIGIN : string;
  link : string -> string;
  bold : string -> string;
  faint : string -> string;
  yellow : string -> string;
  wrapAnsi : string -> Z -> string;
  slugify : string -> string;
  formatUser : WorkspaceResponse -> string;
  toLocaleString_sv : Z -> string;
  sha512_base64 : string -> string;
  (* clock, processes, file system *)
  Date_now_at : nat -> Z;
  existsSync_at : nat -> string -> bool;
  exec_at : nat -> string -> Reply string;
  visitFiles_at : nat -> string -> Reply (list string);
  stat_at : nat -> string -> Reply Stats;
  readFile_at : nat -> string -> Reply string;
  readCacheFile_at : nat -> string -> string -> Reply string;
  JSON_parse : string -> Reply string;
  build_at : nat -> Reply unit;
  getDeployConfig_at : nat -> Reply DeployConfig;
  setDeployConfig_at : nat -> DeployConfig -> Reply unit;
  (* clack prompts *)
  confirm_at : nat -> string -> Answer bool;
  text_at : nat -> string -> Answer string;
  selectWorkspace_at : nat -> Answer WorkspaceResponse;
  selectProject_at : nat -> Answer (option string);
  selectAccessLevel_at : nat -> Answer string;
  (* API client *)
  getProject_at : nat -> string -> string -> Reply GetProjectResponse;
  postProject_at : nat -> string -> string -> string -> string -> Reply GetProjectResponse;
  postProjectBuild_at : nat -> string -> Reply unit;
  getGitHubRepository_at : nat -> GitHubQuery -> Reply (option GitHubRepository);
  postProjectEnvironment_at : nat -> string -> ProjectSource -> Reply bool;
  getWorkspaceProjects_at : nat -> string -> Reply (list GetProjectResponse);
  getDeploy_at : nat -> string -> Reply GetDeployResponse;
  postDeploy_at : nat -> string -> string -> Reply string;
  postDeployManifest_at : nat -> string -> list DeployManifestFile -> Reply ManifestResponse;
  postDeployFile_at : nat -> string -> string -> string -> Reply unit;
  postDeployUploaded_at : nat -> string -> option string -> Reply unit
}.

(** ** The monad of the orchestrator's methods *)

Inductive Outcome (A : Type) :=
| Ret (a : A)
| Throw (e : Error)
| OutOfFuel.
Arguments Ret {A} a.
Arguments Throw {A} e.
Arguments OutOfFuel {A}.

Definition M (A : Type) : Type := Trace -> Outcome A * Trace.

Definition ret {A} (a : A) : M A := fun h => (Ret a, h).

Definition throw {A} (e : Error) : M A := fun h => (Throw e, h).

Definition outOfFuel {A} : M A := fun h => (OutOfFuel, h).

Definition bind {A B} (m : M A) (k : A -> M B) : M B :=
  fun h =>
    match m h with
    | (Ret a, h') => k a h'
    | (Throw e, h') => (Throw e, h')
    | (OutOfFuel, h') => (OutOfFuel, h')
    end.

(** [try { m } catch (error) { handler error }] *)
Definition tryCatch {A} (m : M A) (handler : Error -> M A) : M A :=
  fun h =>
    match m h with
    | (Throw e, h') => handler e h'
    | other => other
    end.

(** An awaited call: it is recorded, then it resolves or rejects. *)
Definition await {A} (ev : Event) (reply : nat -> Reply A) : M A :=
  fun h =>
    (match reply (List.length h) with
     | Resolves a => Ret a
     | Rejects e => Throw e
     end, (h ++ [ev])%list).

(** A call that cannot fail. *)
Definition perform {A} (ev : Event) (answer : nat -> A) : M A :=
  fun h => (Ret (answer (List.length h)), (h ++ [ev])%list).

Definition emit (ev : Event) : M unit := perform ev (fun _ => tt).

Definition liftReply {A} (r : Reply A) : M A :=
  match r with
  | Resolves a => ret a
  | Rejects e => throw e
  end.

Declare Scope deploy_scope.
Delimit Scope deploy_scope with deploy.
Notation "x <- m ;; k" := (bind m (fun x => k))
  (at level 61, m at next level, right associativity) : deploy_scope.
Notation "m ;; k" := (bind m (fun _ => k))
  (at level 61, right associativity) : deploy_scope.
Local Open Scope deploy_scope.

(** The events a run added to the trace it started from. *)
Definition count_events (p : Event -> bool) (t : Trace) : nat :=
  List.length (filter p t).

(** ** Constants of [deploy.ts] *)

Definition DEPLOY_POLL_MAX_MS : Z := 1000 * 60 * 5.
Definition DEPLOY_POLL_INTERVAL_MS : Z := 1000 * 5.
Definition BUILD_AGE_WARNING_MS : Z := 1000 * 60 * 5.

(** The number of files above which uploads wait on the rate limiter. *)
Definition RATE_LIMIT_THRESHOLD : nat := 300.

Definition newline : ascii := "010"%char.

(** One parsed line of [git remote -v]; a field is [None] where the
    destructured array element is [undefined]. *)
Record Remote := { ownerName : option string; repoName : option string }.

Fixpoint mapReply {A B} (f : A -> Reply B) (l : list A) : Reply (list B) :=
  match l with
  | [] => Resolves []
  | a :: rest =>
      match f a with
      | Rejects e => Rejects e
      | Resolves b =>
          match mapReply f rest with
          | Rejects e => Rejects e
          | Resolves bs => Resolves (b :: bs)
          end
      end
  end.

(** [new URL(url).pathname.slice(1)] for a URL on [https://github.com/]
    whose path needs no normalisation: what follows the host's slash, up to
    a query or fragment. *)
Definition githubPathname (url : string) : string :=
  let rest := Js.stripPrefix "https://github.com/" url in
  match Js.splitBy (fun c => Ascii.eqb c "?" || Ascii.eqb c "#") rest with
  | p :: _ => p
  | [] => rest
  end.

(** The callback of [.map] in [getGitHubRemote]. *)
Definition parseRemote (d : string) : Reply (option Remote) :=
  match nth_error (Js.splitBy Js.isSpace d) 1 with
  | None => Rejects (JsError "Cannot read properties of undefined (reading 'startsWith')")
  | Some url =>
      if prefix "https://github.com/" url then
        let parts := Js.split "/" (Js.stripSuffix ".git" (githubPathname url)) in
        Resolves (Some {| ownerName := nth_error parts 0; repoName := nth_error parts 1 |})
      else if prefix "git@github.com:" url then
        let parts := Js.split "/" (Js.stripSuffix ".git" (Js.stripPrefix "git@github.com:" url)) in
        Resolves (Some {| ownerName := nth_error parts 0; repoName := nth_error parts 1 |})
      else Resolves None
  end.

(** What [validateGitHubLink] learns about the checkout before it looks at
    the project's source: [ownerName], [repoName], [branch] (the output of
    [git rev-parse --abbrev-ref HEAD]) and [localRepo]. *)
Record LocalRepository := {
  local_owner : string;
  local_repo : string;
  local_branch : string;
  local_github : option GitHubRepository
}.

(** The predicate of [.find] in [getGitHubRemote]. *)
Definition usableRemote (d : option Remote) : bool :=
  match d with
  | Some r => Js.truthy (ownerName r) && Js.truthy (repoName r)
  | None => false
  end.

Section Deployer.

Variable env : Env.

(** *** The external calls *)

Definition Date_now : M Z := perform EvDateNow (Date_now_at env).

(** [await new Promise((resolve) => setTimeout(resolve, ms))] *)
Definition sleep (ms : Z) : M unit := emit (EvSleep ms).

Definition existsSync (path : string) : M bool :=
  perform (EvExistsSync path) (fun t => existsSync_at env t path).

(** [(await promisify(exec)(command)).stdout] *)
Definition exec (command : string) : M string :=
  await (EvExec command) (fun t => exec_at env t command).

Definition visitFiles (root : string) : M (list string) :=
  await (EvVisitFiles root) (fun t => visitFiles_at env t root).

Definition stat (path : string) : M Stats :=
  await (EvStat path) (fun t => stat_at env t path).

Definition readFile (path : string) : M string :=
  await (EvReadFile path) (fun t => readFile_at env t path).

Definition build : M unit := await EvBuild (build_at env).

Definition getDeployConfig : M DeployConfig :=
  await EvGetDeployConfig (getDeployConfig_at env).

Definition setDeployConfig (c : DeployConfig) : M unit :=
  await (EvSetDeployConfig c) (fun t => setDeployConfig_at env t c).

Definition confirm (question : string) (initialValue : option bool) : M (Answer bool) :=
  perform (EvConfirm question initialValue) (fun t => confirm_at env t question).

Definition text (question : string) : M (Answer string) :=
  perform (EvText question) (fun t => text_at env t question).

Definition log (level : LogLevel) (msg : string) : M unit := emit (EvLog level msg).

Definition getProject (login slug : string) : M GetProjectResponse :=
  await (EvGetProject login slug) (fun t => getProject_at env t login slug).

Definition postProject (slug title workspaceId accessLevel : string) : M GetProjectResponse :=
  await (EvPostProject slug title workspaceId accessLevel)
        (fun t => postProject_at env t slug title workspaceId accessLevel).

Definition postProjectBuild (id : string) : M unit :=
  await (EvPostProjectBuild id) (fun t => postProjectBuild_at env t id).

Definition getGitHubRepository (q : GitHubQuery) : M (option GitHubRepository) :=
  await (EvGetGitHubRepository q) (fun t => getGitHubRepository_at env t q).

Definition postProjectEnvironment (id : string) (source : ProjectSource) : M bool :=
  await (EvPostProjectEnvironment id source) (fun t => postProjectEnvironment_at env t id source).

Definition getWorkspaceProjects (login : string) : M (list GetProjectResponse) :=
  await (EvGetWorkspaceProjects login) (fun t => getWorkspaceProjects_at env t login).

Definition getDeploy (id : string) : M GetDeployResponse :=
  await (EvGetDeploy id) (fun t => getDeploy_at env t id).

Definition postDeploy (id msg : string) : M string :=
  await (EvPostDeploy id msg) (fun t => postDeploy_at env t id msg).

Definition postDeployManifest (id : string) (files : list DeployManifestFile) : M ManifestResponse :=
  await (EvPostDeployManifest id files) (fun t => postDeployManifest_at env t id files).

Definition postDeployFile (id fullPath path : string) : M unit :=
  await (EvPostDeployFile id fullPath path) (fun t => postDeployFile_at env t id fullPath path).

(** [deployPollInterval: pollInterval = DEPLOY_POLL_INTERVAL_MS] *)
Definition pollInterval : Z :=
  match deployPollInterval (options env) with
  | Some ms => ms
  | None => DEPLOY_POLL_INTERVAL_MS
  end.

(** *** [settingsUrl] *)

Definition settingsUrl (deployTarget : DeployTargetInfo) : Reply string :=
  match deployTarget with
  | Create _ _ _ _ => Rejects (JsError "Incorrect deploy target state")
  | Existing workspace project =>
      Resolves (OBSERVABLE_UI_ORIGIN env ++ "projects/@" ++ ws_login workspace
                ++ "/" ++ p_slug project)
  end.

(** *** [getGitHubRemote] *)

Definition getGitHubRemote : M (string * string) :=
  stdout <- exec "git remote -v" ;;
  let lines := filter (fun d => negb (d =? "")%string) (Js.split newline stdout) in
  remotes <- liftReply (mapReply parseRemote lines) ;;
  match find usableRemote remotes with
  | Some (Some {| ownerName := Some owner; repoName := Some repo |}) => ret (owner, repo)
  | _ => throw (cliError "No GitHub remote found.")
  end.

(** *** [Deployer.cloudBuild] *)

Fixpoint cloudBuild_loop (fuel : nat) (workspace : WorkspaceRef) (project : GetProjectResponse)
         (pollExpiration : Z) : M (option string) :=
  match fuel with
  | O => outOfFuel
  | S fuel' =>
      now <- Date_now ;;
      if now >? pollExpiration then
        emit (EvSpinnerStop "Requesting deploy timed out.") ;;
        throw (cliError "Requesting deploy failed")
      else
        polled <- getProject (ws_login workspace) (p_slug project) ;;
        let latestCreatedDeployId := p_latestCreatedDeployId polled in
        if negb (match latestCreatedDeployId, p_latestCreatedDeployId project with
                 | Some a, Some b => (a =? b)%string
                 | None, None => true
                 | _, _ => false
                 end)
        then
          url <- liftReply (settingsUrl (Existing workspace project)) ;;
          emit (EvSpinnerStop ("Deploy started. Watch logs: "
                               ++ link env (url ++ "/deploys/"
                                            ++ Js.show_nullable latestCreatedDeployId))) ;;
          ret latestCreatedDeployId
        else
          sleep pollInterval ;;
          cloudBuild_loop fuel' workspace project pollExpiration
  end.

Definition cloudBuild (fuel : nat) (deployTarget : DeployTargetInfo) : M (option string) :=
  match deployTarget with
  | Create _ _ _ _ => throw (JsError "Incorrect deploy target state")
  | Existing workspace project =>
      postProjectBuild (p_id project) ;;
      emit (EvSpinnerStart "Requesting deploy") ;;
      now <- Date_now ;;
      let pollExpiration := now + DEPLOY_POLL_MAX_MS in
      cloudBuild_loop fuel workspace project pollExpiration
  end.

(** *** [Deployer.validateGitHubLink] *)

(** The loop [while (!localRepo)] that waits for the repository to be
    authorized. *)
Fixpoint authorizationPoll (fuel : nat) (owner repo : string) (pollExpiration : Z)
  : M GitHubRepository :=
  match fuel with
  | O => outOfFuel
  | S fuel' =>
      sleep 2000 ;;
      now <- Date_now ;;
      if now >? pollExpiration then
        emit (EvSpinnerStop "Waiting for repository to be authorized timed out.") ;;
        throw (cliError "Repository authorization failed")
      else
        localRepo <- getGitHubRepository (ByName owner repo) ;;
        match localRepo with
        | Some r => emit (EvSpinnerStop "Repository authorized.") ;; ret r
        | None => authorizationPoll fuel' owner repo pollExpiration
        end
  end.

Definition settingsLink (deployTarget : DeployTargetInfo) : M string :=
  url <- liftReply (settingsUrl deployTarget) ;;
  ret (link env (url ++ "/settings")).

(** Lines 286-291: the git checkout the command runs in, and what the
    server knows of its GitHub repository. *)
Definition readLocalRepository : M LocalRepository :=
  isGit <- existsSync ".git" ;;
  if negb isGit then throw (cliError "Not at root of a git repository.")
  else
    remote <- getGitHubRemote ;;
    let '(owner, repo) := remote in
    branch <- exec "git rev-parse --abbrev-ref HEAD" ;;
    localRepo <- getGitHubRepository (ByName owner repo) ;;
    ret {| local_owner := owner; local_repo := repo; local_branch := branch;
           local_github := localRepo |}.

(** Lines 297-326: [if (deployTarget.project.source)]. *)
Definition checkConfiguredSource (deployTarget : DeployTargetInfo) (source : ProjectSource)
           (branch : string) (localRepo : option GitHubRepository) : M unit :=
  if match localRepo with
     | Some r => negb (src_provider_id source =? gh_provider_id r)%string
     | None => false
     end
  then
    where_ <- settingsLink deployTarget ;;
    throw (cliError ("Configured repository does not match local repository; check build settings on " ++ where_))
  else if match localRepo with
          | Some _ => negb (src_branch source =? branch)%string
          | None => false
          end
  then
    where_ <- settingsLink deployTarget ;;
    throw (cliError ("Configured branch does not match local branch; check build settings on " ++ where_))
  else
    remoteAuthedRepo <- getGitHubRepository (ByProviderId (src_provider_id source)) ;;
    match remoteAuthedRepo with
    | None =>
        emit (EvConsoleLog (src_provider_id source ++ " null")) ;;
        where_ <- settingsLink deployTarget ;;
        throw (cliError ("Cannot access configured repository; check build settings on " ++ where_))
    | Some _ => ret tt
    end.

(** Lines 328-366: no source is configured yet. *)
Definition configureSource (fuel : nat) (project : GetProjectResponse) (local : LocalRepository)
  : M unit :=
  let owner := local_owner local in
  let repo := local_repo local in
  authorized <-
    match local_github local with
    | Some r => ret r
    | None =>
        if negb (isTty env) then
          throw (cliError "Cannot access repository for continuous deployment and cannot request access in non-interactive mode")
        else
          let authUrl := OBSERVABLE_UI_ORIGIN env ++ "auth-github?owner=" ++ owner
                         ++ "&repo=" ++ repo in
          log Info ("Authorize Observable to access the " ++ bold env repo
                    ++ " repository: " ++ link env authUrl) ;;
          emit (EvSpinnerStart "Waiting for repository to be authorized") ;;
          now <- Date_now ;;
          authorizationPoll fuel owner repo (now + DEPLOY_POLL_MAX_MS)
    end ;;
  response <- postProjectEnvironment (p_id project)
                {| src_provider := gh_provider authorized;
                   src_provider_id := gh_provider_id authorized;
                   src_url := gh_url authorized;
                   src_branch := local_branch local |} ;;
  if negb response
  then throw (cliError "Setting source repository for continuous deployment failed")
  else ret tt.

Definition validateGitHubLink (fuel : nat) (deployTarget : DeployTargetInfo) : M unit :=
  match deployTarget with
  | Create _ _ _ _ => throw (JsError "Incorrect deploy target state")
  | Existing workspace project =>
      if negb (Js.truthy (p_build_environment_id project)) then
        throw (cliError "No build environment configured.")
      else
        local <- readLocalRepository ;;
        match p_source project with
        | Some source =>
            checkConfiguredSource deployTarget source (local_branch local) (local_github local)
        | None => configureSource fuel project local
        end
  end.

(** *** [Deployer.checkDeployCreated] *)

Definition checkDeployCreated (deployId : string) : M GetDeployResponse :=
  tryCatch
    (deployInfo <- getDeploy deployId ;;
     if negb (d_status deployInfo =? "created")%string then
       throw (cliError ("Deploy " ++ deployId ++ " has an unexpected status: "
                        ++ d_status deployInfo))
     else ret deployInfo)
    (fun error =>
       if isHttpError error then
         throw (CliError ("Deploy " ++ deployId ++ " not found.") (Some error) None None)
       else throw error).

(** *** [Deployer.pollForProcessingCompletion] *)

(** [`${deployInfo?.status}`] *)
Definition show_status (deployInfo : option GetDeployResponse) : string :=
  match deployInfo with
  | Some d => d_status d
  | None => "undefined"
  end.

Fixpoint pollLoop (fuel : nat) (deployId : string) (pollExpiration : Z)
         (deployInfo : option GetDeployResponse) : M GetDeployResponse :=
  match fuel with
  | O => outOfFuel
  | S fuel' =>
      now <- Date_now ;;
      if now >? pollExpiration then
        emit (EvSpinnerStop "Deploy timed out") ;;
        throw (cliError ("Deploy failed to process on server: status = "
                         ++ show_status deployInfo))
      else
        info <- getDeploy deployId ;;
        let status := d_status info in
        if (status =? "created")%string || (status =? "pending")%string then
          sleep pollInterval ;;
          pollLoop fuel' deployId pollExpiration (Some info)
        else if (status =? "uploaded")%string then
          emit (EvSpinnerStop "Deploy complete") ;;
          ret info
        else if (status =? "failed")%string then
          emit (EvSpinnerStop "Deploy failed") ;;
          throw (cliError "Deploy failed to process on server")
        else if (status =? "canceled")%string then
          emit (EvSpinnerStop "Deploy canceled") ;;
          throw (cliError "Deploy canceled")
        else
          emit (EvSpinnerStop "Unknown status") ;;
          throw (cliError ("Unknown deploy status: " ++ status))
  end.

Definition pollForProcessingCompletion (fuel : nat) (deployId : string) : M GetDeployResponse :=
  emit (EvSpinnerStart "Server processing deploy") ;;
  now <- Date_now ;;
  let pollExpiration := now + DEPLOY_POLL_MAX_MS in
  pollLoop fuel deployId pollExpiration None.

(** *** [Deployer.getUpdatedDeployConfig] *)

Definition deployJsonPath : string :=
  Js.join (Js.join (config_root (options env)) ".observablehq") "deploy.json".

(** The loop [for (const workspace of this.currentUser.workspaces)]: the
    result says whether the app was found, and gives the deploy config
    with the fields the loop assigned. *)
Fixpoint searchWorkspaces (deployConfig : DeployConfig) (id : string)
         (workspaces : list WorkspaceResponse) : M (bool * DeployConfig) :=
  match workspaces with
  | [] => ret (false, deployConfig)
  | workspace :: rest =>
      projects <- getWorkspaceProjects (w_login workspace) ;;
      match find (fun p => (p_id p =? id)%string) projects with
      | Some project =>
          let found := {| projectId := projectId deployConfig;
                          projectSlug := Some (p_slug project);
                          workspaceLogin := Some (w_login workspace);
                          continuousDeployment := continuousDeployment deployConfig |} in
          setDeployConfig found ;;
          ret (true, found)
      | None => searchWorkspaces deployConfig id rest
      end
  end.

Definition invalidLogin (deployConfig : DeployConfig) : bool :=
  match workspaceLogin deployConfig with
  | Some login => negb (login =? "")%string && negb (Js.matchLogin login)
  | None => false
  end.

Definition invalidSlug (deployConfig : DeployConfig) : bool :=
  match projectSlug deployConfig with
  | Some slug => negb (slug =? "")%string && negb (Js.matchSlug slug)
  | None => false
  end.

(** [deployConfig.projectId && (!deployConfig.projectSlug || !deployConfig.workspaceLogin)] *)
Definition needsBackfill (deployConfig : DeployConfig) : bool :=
  Js.truthy (projectId deployConfig)
  && (negb (Js.truthy (projectSlug deployConfig))
      || negb (Js.truthy (workspaceLogin deployConfig))).

(** The body of [getUpdatedDeployConfig]; next to the deploy config it
    gives the final value of the local variable [found], which is [false]
    where the search is not entered. *)
Definition updateDeployConfig : M (bool * DeployConfig) :=
  deployConfig <- getDeployConfig ;;
  if invalidLogin deployConfig then
    throw (cliError ("Found invalid workspace login in " ++ deployJsonPath ++ ": "
                     ++ Js.show_nullable (workspaceLogin deployConfig) ++ "."))
  else if invalidSlug deployConfig then
    throw (cliError ("Found invalid `projectSlug` in " ++ deployJsonPath ++ ": "
                     ++ Js.show_nullable (projectSlug deployConfig) ++ "."))
  else if needsBackfill deployConfig then
    let id := Js.show_nullable (projectId deployConfig) in
    log Warn "The `projectSlug` or `workspaceLogin` is missing from your deploy.json." ;;
    emit (EvSpinnerStart ("Searching for app " ++ id)) ;;
    searched <- searchWorkspaces deployConfig id (currentUser_workspaces env) ;;
    let '(found, updated) := searched in
    (if found
     then emit (EvSpinnerStop ("App " ++ Js.show_nullable (projectSlug updated)
                               ++ " found in workspace @"
                               ++ Js.show_nullable (workspaceLogin updated) ++ "."))
     else emit (EvSpinnerStop ("App " ++ id ++ " not found. Ignoring…"))) ;;
    ret (found, updated)
  else ret (false, deployConfig).

Definition getUpdatedDeployConfig : M DeployConfig :=
  updated <- updateDeployConfig ;;
  ret (snd updated).

(** *** [promptDeployTarget] *)

(** The steps after the app choice: title, slug and access level of a
    new app. *)
Definition promptNewApp (workspace : WorkspaceResponse) : M DeployTargetInfo :=
  title <-
    match config_title (options env) with
    | Some t => ret t
    | None =>
        log Warn "You haven’t configured a title for your app." ;;
        titleChoice <- text "What title do you want to use?" ;;
        match titleChoice with
        | Canceled => throw (userCanceled "User canceled deploy.")
        | Answered t =>
            log Info "You should add this title to your observablehq.config.js file." ;;
            ret t
        end
    end ;;
  projectSlugChoice <- text "What slug do you want to use?" ;;
  match projectSlugChoice with
  | Canceled => throw (userCanceled "User canceled deploy.")
  | Answered slug =>
      accessLevel <- perform (EvSelect "Who is allowed to access your app?")
                             (selectAccessLevel_at env) ;;
      match accessLevel with
      | Canceled => throw (userCanceled "User canceled deploy.")
      | Answered level => ret (Create (workspaceRef workspace) slug title level)
      end
  end.

(** The steps after the workspace is known.  Where the chosen slug names
    none of the listed apps, [find] gives [undefined] and the first read
    of a field of [deployTarget.project], which follows the return with
    no call in between, throws. *)
Definition promptProject (workspace : WorkspaceResponse) : M DeployTargetInfo :=
  existingProjects <-
    tryCatch (getWorkspaceProjects (w_login workspace))
             (fun error =>
                if isHttpError error && statusCode_is error 404 then
                  throw (CliError ("Workspace " ++ w_login workspace ++ " not found.")
                                  (Some error) None None)
                else throw error) ;;
  match existingProjects with
  | _ :: _ =>
      chosenProject <- perform (EvSelect "Which app do you want to use?")
                               (selectProject_at env) ;;
      match chosenProject with
      | Canceled => throw (userCanceled "User canceled deploy.")
      | Answered (Some chosen) =>
          match find (fun p => (p_slug p =? chosen)%string) existingProjects with
          | Some project => ret (Existing (workspaceRef workspace) project)
          | None => throw (JsError "Cannot read properties of undefined (reading 'title')")
          end
      | Answered None => promptNewApp workspace
      end
  | [] =>
      confirmChoice <- confirm "No apps found. Do you want to create a new app?" None ;;
      match confirmChoice with
      | Answered true => promptNewApp workspace
      | Answered false =>
          emit (EvOutro (yellow env "Deploy canceled.")) ;;
          throw (userCanceled "User canceled deploy.")
      | Canceled => throw (userCanceled "User canceled deploy.")
      end
  end.

Definition promptDeployTarget : M DeployTargetInfo :=
  if negb (isTty env) then throw (cliError "Deploy not configured.")
  else
    log Info "To configure deploy, we need to ask you a few questions." ;;
    match currentUser_workspaces env with
    | [] =>
        log LogError "You don’t have any Observable workspaces. Go to https://observablehq.com/team/new to create one." ;;
        throw (CliError "No Observable workspace found." None (Some false) (Some 1))
    | [workspace] =>
        log Step ("Deploying to the " ++ bold env (formatUser env workspace) ++ " workspace.") ;;
        promptProject workspace
    | _ =>
        chosenWorkspace <- perform (EvSelect "Which Observable workspace do you want to use?")
                                   (selectWorkspace_at env) ;;
        match chosenWorkspace with
        | Canceled => throw (userCanceled "User canceled deploy.")
        | Answered workspace => promptProject workspace
        end
    end.

(** *** [Deployer.getDeployTarget] *)

(** The block that asks ["Do you want to continue deploying?"]; the
    code has it in two branches, with one error message each for the
    non-interactive case. *)
Definition confirmOverwrite (nonInteractive : string) : M unit :=
  if isTty env then
    choice <- confirm "Do you want to continue deploying?" None ;;
    match choice with
    | Answered true => ret tt
    | Answered false =>
        emit (EvOutro (yellow env "Deploy canceled.")) ;;
        throw (userCanceled "User canceled deploy")
    | Canceled => throw (userCanceled "User canceled deploy")
    end
  else throw (cliError nonInteractive).

(** Lines 460-480: the project named by the config, unless the server
    answers 404; otherwise the prompts. *)
Definition resolveTarget (deployConfig : DeployConfig) : M DeployTargetInfo :=
  fromConfig <-
    match workspaceLogin deployConfig, projectSlug deployConfig with
    | Some login, Some slug =>
        if negb (login =? "")%string && negb (slug =? "")%string then
          tryCatch
            (project <- getProject login slug ;;
             ret (Some (Existing (p_owner project) project)))
            (fun error =>
               if negb (isHttpError error) || negb (statusCode_is error 404)
               then throw error
               else ret None)
        else ret None
    | _, _ => ret None
    end ;;
  match fromConfig with
  | Some deployTarget => ret deployTarget
  | None => promptDeployTarget
  end.

(** Lines 482-535: the check of the last deployed state. *)
Definition checkLastDeployed (deployConfig : DeployConfig) (deployTarget : DeployTargetInfo)
  : M unit :=
  match deployTarget with
  | Create _ _ _ _ => ret tt
  | Existing workspace project =>
      let targetDescription :=
        p_title project ++ " (" ++ p_slug project ++ ") in the @" ++ ws_login workspace
        ++ " workspace" in
      if Js.truthy (projectId deployConfig)
         && negb (Js.show_nullable (projectId deployConfig) =? p_id project)%string
      then
        log Warn (wrapAnsi env ("The `projectId` in your deploy.json does not match. Continuing will overwrite "
                                ++ bold env targetDescription ++ ".") (outputColumns env)) ;;
        confirmOverwrite "Cancelling deploy due to misconfiguration."
      else if Js.truthy (projectId deployConfig) then
        log Info (wrapAnsi env ("Deploying to " ++ bold env targetDescription ++ ".")
                           (outputColumns env))
      else
        log Warn (wrapAnsi env ("The `projectId` in your deploy.json is missing. Continuing will overwrite "
                                ++ bold env targetDescription ++ ".") (outputColumns env)) ;;
        confirmOverwrite "Running non-interactively, cancelling due to conflict."
  end.

(** Lines 537-567: [if (deployTarget.create)], the only assignment that
    changes the tag.  The result is the workspace and project of the
    [create: false] value that [deployTarget] holds afterwards. *)
Definition createProject (deployTarget : DeployTargetInfo)
  : M (WorkspaceRef * GetProjectResponse) :=
  match deployTarget with
  | Existing workspace project => ret (workspace, project)
  | Create workspace slug title accessLevel =>
      tryCatch
        (project <- postProject slug title (ws_id workspace) accessLevel ;;
         ret (workspace, project))
        (fun error =>
           (if isApiError_with "TOO_MANY_PROJECTS" error then
              log LogError
                  (wrapAnsi env ("The Starter tier can only deploy one app. Upgrade to unlimited apps at "
                                 ++ link env ("https://observablehq.com/team/@"
                                              ++ ws_login workspace ++ "/settings"))
                            (outputColumns env - 4))
            else
              log LogError
                  (wrapAnsi env ("Could not create app: " ++ error_message error)
                            (outputColumns env))) ;;
           emit (EvOutro (yellow env "Deploy canceled")) ;;
           throw (CliError "Error during deploy" (Some error) (Some false) None))
  end.

(** Lines 482-599: what [getDeployTarget] does once [deployTarget] is
    assigned. *)
Definition settleDeployTarget (deployConfig : DeployConfig) (resolved : DeployTargetInfo)
  : M (DeployConfig * DeployTargetInfo) :=
  checkLastDeployed deployConfig resolved ;;
  created <- createProject resolved ;;
  let '(workspace, project) := created in
  continuousDeployment <-
    match continuousDeployment deployConfig with
    | Some b => ret (Some b)
    | None =>
        enable <- confirm (wrapAnsi env ("Do you want to enable continuous deployment? "
                                         ++ faint env "Given a GitHub repository, this builds in the cloud and redeploys whenever you push to the current branch.")
                                    (outputColumns env)) None ;;
        match enable with
        | Canceled => throw (userCanceled "User canceled deploy")
        | Answered b => ret (Some b)
        end
    end ;;
  let newDeployConfig := {| projectId := Some (p_id project);
                            projectSlug := Some (p_slug project);
                            workspaceLogin := Some (ws_login workspace);
                            continuousDeployment := continuousDeployment |} in
  setDeployConfig newDeployConfig ;;
  ret (newDeployConfig, Existing workspace project).

Definition getDeployTarget (deployConfig : DeployConfig)
  : M (DeployConfig * DeployTargetInfo) :=
  resolved <- resolveTarget deployConfig ;;
  settleDeployTarget deployConfig resolved.

(** The first statement of [startNewDeploy]:
    [this.getDeployTarget(await this.getUpdatedDeployConfig())]. *)
Definition resolveDeployTarget : M (DeployConfig * DeployTargetInfo) :=
  deployConfig <- getUpdatedDeployConfig ;;
  getDeployTarget deployConfig.

(** *** [Deployer.createNewDeploy] *)

Definition createNewDeploy (deployTarget : DeployTargetInfo) : M string :=
  match deployTarget with
  | Create _ _ _ _ => throw (JsError "Incorrect deployTarget state")
  | Existing workspace project =>
      msg <-
        match message (options env) with
        | Some m => ret m
        | None =>
            if isTty env then
              input <- text "What changed in this deploy?" ;;
              match input with
              | Canceled => throw (userCanceled "User canceled deploy")
              | Answered m => ret m
              end
            else ret ""
        end ;;
      tryCatch
        (postDeploy (p_id project) msg)
        (fun error =>
           if statusCode_is error 404 then
             throw (CliError ("App " ++ p_slug project ++ " in workspace @"
                              ++ ws_login workspace ++ " not found.")
                             (Some error) None None)
           else if statusCode_is error 403 then
             throw (CliError ("You don't have permission to deploy to " ++ p_slug project
                              ++ " in workspace @" ++ ws_login workspace ++ ".")
                             (Some error) None None)
           else throw error)
  end.

(** *** [formatAge] *)

Definition plural (n : Js.Num) (unit : string) : string :=
  Js.show n ++ " " ++ unit
  ++ (match n with Js.Finite 1 => "" | _ => "s" end) ++ " ago".

Definition formatAge (age : Js.Num) : M string :=
  if Js.lt age (Js.Finite (1000 * 60)) then
    ret (plural (Js.roundDiv age 1000) "second")
  else if Js.lt age (Js.Finite (1000 * 60 * 60)) then
    ret (plural (Js.roundDiv age (1000 * 60)) "minute")
  else if Js.lt age (Js.Finite (1000 * 60 * 60 * 12)) then
    ret (plural (Js.roundDiv age (1000 * 60 * 60)) "hour")
  else
    now <- Date_now ;;
    match age with
    | Js.Finite a => ret ("at " ++ toLocaleString_sv env (now - a))
    | _ => ret "at Invalid Date"
    end.

(** *** [Deployer.findBuildFiles], [findLeastRecentBuildMtimeMs],
    [findMostRecentSourceMtimeMs]

    [visitFiles] is modelled as giving all the paths at once, or
    throwing before the first one. *)

Definition findBuildFiles : M (list string) :=
  let output := config_output (options env) in
  buildFilePaths <-
    tryCatch (visitFiles output)
             (fun error =>
                if isEnoent error then
                  throw (CliError ("No build files found at " ++ output) (Some error) None None)
                else throw error) ;;
  match buildFilePaths with
  | [] => throw (cliError ("No build files found at " ++ output))
  | _ :: _ => ret buildFilePaths
  end.

Fixpoint leastRecent (root : string) (files : list string) (leastRecentMtimeMs : Js.Num)
  : M Js.Num :=
  match files with
  | [] => ret leastRecentMtimeMs
  | file :: rest =>
      st <- stat (Js.join root file) ;;
      leastRecent root rest
                  (if Js.lt (Js.Finite (mtimeMs st)) leastRecentMtimeMs
                   then Js.Finite (mtimeMs st) else leastRecentMtimeMs)
  end.

Fixpoint mostRecent (root : string) (files : list string) (mostRecentMtimeMs : Js.Num)
  : M Js.Num :=
  match files with
  | [] => ret mostRecentMtimeMs
  | file :: rest =>
      st <- stat (Js.join root file) ;;
      mostRecent root rest
                 (if Js.gt (Js.Finite (mtimeMs st)) mostRecentMtimeMs
                  then Js.Finite (mtimeMs st) else mostRecentMtimeMs)
  end.

Definition findLeastRecentBuildMtimeMs : M Js.Num :=
  let output := config_output (options env) in
  files <- visitFiles output ;;
  leastRecent output files Js.Infinity.

Definition findMostRecentSourceMtimeMs : M Js.Num :=
  let root := config_root (options env) in
  files <- visitFiles root ;;
  mostRecentMtimeMs <- mostRecent root files Js.NegInfinity ;;
  let cachePath := Js.join root ".observablehq/cache" in
  tryCatch
    (cacheStat <- stat cachePath ;;
     ret (if Js.gt (Js.Finite (mtimeMs cacheStat)) mostRecentMtimeMs
          then Js.Finite (mtimeMs cacheStat) else mostRecentMtimeMs))
    (fun error => if negb (isEnoent error) then throw error else ret mostRecentMtimeMs).

(** *** [Deployer.getBuildFilePaths] *)

(** Lines 683-704, entered when [!doBuild && !this.deployOptions.force
    && this.effects.isTty]: the result is the new value of [doBuild]. *)
Definition askToRebuild : M bool :=
  leastRecentBuildMtimeMs <- findLeastRecentBuildMtimeMs ;;
  mostRecentSourceMtimeMs <- findMostRecentSourceMtimeMs ;;
  now <- Date_now ;;
  let buildAge := Js.minus now leastRecentBuildMtimeMs in
  initialValue <-
    (if Js.gt mostRecentSourceMtimeMs leastRecentBuildMtimeMs then
       age <- formatAge buildAge ;;
       log Warn (wrapAnsi env ("Your source files have changed since you built " ++ age ++ ".")
                          (outputColumns env)) ;;
       ret true
     else
       age <- formatAge buildAge ;;
       log Info (wrapAnsi env ("You built this app " ++ age ++ ".") (outputColumns env)) ;;
       ret (Js.gt buildAge (Js.Finite BUILD_AGE_WARNING_MS))) ;;
  choice <- confirm "Would you like to build again before deploying?" (Some initialValue) ;;
  match choice with
  | Canceled => throw (userCanceled "User canceled deploy")
  | Answered b => ret b
  end.

Definition is_forceBuild (f : option Force) : bool :=
  match f with Some ForceBuild => true | _ => false end.

Definition is_unforced (f : option Force) : bool :=
  match f with None => true | Some _ => false end.

Definition getBuildFilePaths : M (list string) :=
  let force := force (options env) in
  found <-
    tryCatch
      (buildFilePaths <- findBuildFiles ;;
       ret (is_forceBuild force, Some buildFilePaths))
      (fun error =>
         if CliError_match "No build files found" error then
           match force with
           | Some ForceDeploy => throw (cliError "No build files found.")
           | None =>
               (if isTty env then
                  choice <- confirm "No build files found. Do you want to build the app now?" None ;;
                  match choice with
                  | Answered true => ret tt
                  | _ => throw (userCanceled "User canceled deploy")
                  end
                else ret tt) ;;
               ret (true, None)
           | Some ForceBuild => ret (is_forceBuild force, None)
           end
         else throw error) ;;
  let '(doBuild0, buildFilePaths0) := found in
  doBuild <-
    (if negb doBuild0 && is_unforced force && isTty env
     then askToRebuild
     else ret doBuild0) ;;
  buildFilePaths <-
    (if doBuild then
       log Step "Building app" ;;
       build ;;
       rebuilt <- findBuildFiles ;;
       ret (Some rebuilt)
     else ret buildFilePaths0) ;;
  match buildFilePaths with
  | None => throw (JsError "No build files found.")
  | Some paths => ret paths
  end.

(** *** [Deployer.uploadFiles] *)

(** Modelled from the spec: [concurrency.js] is not part of the sources.
    The ConcurrencyRunner runs the work over all items with a maximum
    number in flight and surfaces the first error.  The model is the
    schedule with one task in flight: the items in order, each with its
    index, stopping at the first failure. *)
Fixpoint runAllFrom {A B} (index : nat) (worker : A -> nat -> M B) (tasks : list A)
  : M (list B) :=
  match tasks with
  | [] => ret []
  | task :: rest =>
      b <- worker task index ;;
      bs <- runAllFrom (S index) worker rest ;;
      ret (b :: bs)
  end.

Definition runAllWithConcurrencyLimit {A B} (tasks : list A) (worker : A -> nat -> M B)
           (maxConcurrency : option Z) : M (list B) :=
  runAllFrom 0 worker tasks.

Definition show_nat (n : nat) : string := Js.string_of_Z (Z.of_nat n).

(** The worker of the first [runAllWithConcurrencyLimit]: size and hash
    of one build file. *)
Definition hashFile (path : string) (_ : nat) : M DeployManifestFile :=
  let fullPath := Js.join (config_output (options env)) path in
  statInfo <- stat fullPath ;;
  content <- readFile fullPath ;;
  ret {| mf_path := path; mf_size := size statInfo; mf_hash := sha512_base64 env content |}.

(** Lines 780-795: up to the server's answer to the manifest. *)
Definition sendManifest (deployId : string) (buildFilePaths : list string) : M ManifestResponse :=
  emit (EvSpinnerStart "") ;;
  emit (EvSpinnerMessage "Hashing local files") ;;
  manifestFileInfo <- runAllWithConcurrencyLimit buildFilePaths hashFile None ;;
  emit (EvSpinnerMessage "Sending file manifest to server") ;;
  postDeployManifest deployId manifestFileInfo.

Definition fileErrors (instructions : ManifestResponse) : list FileInstruction :=
  filter (fun i => (fi_status i =? "error")%string) (mr_files instructions).

Definition filesToUpload (instructions : ManifestResponse) : list string :=
  map fi_path (filter (fun i => (fi_status i =? "upload")%string) (mr_files instructions)).

Definition describeFileError (i : FileInstruction) : string :=
  "  - " ++ fi_path i ++ " - "
  ++ (if Js.truthy (fi_detail i) then "(" ++ Js.show_nullable (fi_detail i) ++ ")"
      else "no details").

(** [filesToUpload.length <= 300 ? async () => {} : () => rateLimiter.wait()] *)
Definition rateLimited (toUpload : list string) : bool :=
  negb (List.length toUpload <=? RATE_LIMIT_THRESHOLD)%nat.

Definition waitForRateLimit (toUpload : list string) : M unit :=
  if rateLimited toUpload then emit EvRateLimiterWait else ret tt.

(** [`${i + 1} / ${filesToUpload.length} ${faint("uploading")} ${path.slice(0, columns - 17)}`] *)
Definition progressMessage (toUpload : list string) (path : string) (i : nat) : string :=
  show_nat (i + 1) ++ " / " ++ show_nat (List.length toUpload) ++ " "
  ++ faint env "uploading" ++ " " ++ Js.slice0 path (outputColumns env - 17).

(** The worker of the second [runAllWithConcurrencyLimit]. *)
Definition uploadFile (deployId : string) (toUpload : list string) (path : string) (i : nat)
  : M unit :=
  waitForRateLimit toUpload ;;
  emit (EvSpinnerMessage (progressMessage toUpload path i)) ;;
  postDeployFile deployId (Js.join (config_output (options env)) path) path.

Definition rejectionMessage (instructions : ManifestResponse) : string :=
  "Server rejected deploy manifest"
  ++ (if Js.truthy (mr_detail instructions)
      then ": " ++ Js.show_nullable (mr_detail instructions) else "").

(** Lines 796-834: what [uploadFiles] does with the server's answer. *)
Definition followInstructions (deployId : string) (buildFilePaths : list string)
           (instructions : ManifestResponse) : M unit :=
  let errors := fileErrors instructions in
  (match errors with
   | [] => ret tt
   | _ :: _ =>
       log LogError ("The server rejected some files from the upload:"
                     ++ String newline (String newline "")
                     ++ String.concat (String newline "") (map describeFileError errors))
   end) ;;
  if (mr_status instructions =? "error")%string || negb (List.length errors =? 0)%nat then
    throw (cliError (rejectionMessage instructions))
  else
    let toUpload := filesToUpload instructions in
    runAllWithConcurrencyLimit toUpload (uploadFile deployId toUpload)
                               (maxConcurrency (options env)) ;;
    emit (EvSpinnerStop (show_nat (List.length toUpload) ++ " uploaded, "
                         ++ Js.string_of_Z (Z.of_nat (List.length buildFilePaths)
                                            - Z.of_nat (List.length toUpload))
                         ++ " unchanged, " ++ show_nat (List.length buildFilePaths)
                         ++ " total.")).

Definition uploadFiles (deployId : string) (buildFilePaths : list string) : M unit :=
  instructions <- sendManifest deployId buildFilePaths ;;
  followInstructions deployId buildFilePaths instructions.

(** *** [Deployer.markDeployUploaded] *)

Definition markDeployUploaded (deployId : string) : M unit :=
  buildManifest <-
    tryCatch
      (source <- await (EvReadCacheFile "_build.json")
                       (fun t => readCacheFile_at env t (config_root (options env)) "_build.json") ;;
       parsed <- liftReply (JSON_parse env source) ;;
       emit (EvTelemetry "buildManifest: found") ;;
       ret (Some parsed))
      (fun error =>
         (if isEnoent error then emit (EvTelemetry "buildManifest: missing")
          else
            emit (EvTelemetry "buildManifest: error") ;;
            log Warn ("Could not read build manifest: " ++ error_message error)) ;;
         ret None) ;;
  await (EvPostDeployUploaded deployId buildManifest)
        (fun t => postDeployUploaded_at env t deployId buildManifest).

(** *** [Deployer.startNewDeploy] and [Deployer.continueExistingDeploy] *)

Definition startNewDeploy (fuel : nat) : M GetDeployResponse :=
  resolved <- resolveDeployTarget ;;
  let '(deployConfig, deployTarget) := resolved in
  deployId <-
    (if match continuousDeployment deployConfig with Some true => true | _ => false end then
       validateGitHubLink fuel deployTarget ;;
       started <- cloudBuild fuel deployTarget ;;
       ret (Js.show_nullable started)
     else
       buildFilePaths <- getBuildFilePaths ;;
       created <- createNewDeploy deployTarget ;;
       uploadFiles created buildFilePaths ;;
       markDeployUploaded created ;;
       ret created) ;;
  pollForProcessingCompletion fuel deployId.

Definition continueExistingDeploy (fuel : nat) : M GetDeployResponse :=
  match deployId (options env) with
  | None => throw (JsError "invalid deploy options")
  | Some id =>
      if (id =? "")%string then throw (JsError "invalid deploy options")
      else
        checkDeployCreated id ;;
        buildFilePaths <- getBuildFilePaths ;;
        uploadFiles id buildFilePaths ;;
        markDeployUploaded id ;;
        pollForProcessingCompletion fuel id
  end.

End Deployer.

(** ** Scripted worlds

    A scripted world answers the [n]-th interaction of a run with the
    [n]-th entry of a transcript, in the manner of the mocks of the
    repository's tests; an entry of the wrong kind, or a transcript that
    has run out, rejects the call. *)

Inductive Scripted :=
| Silent
| Clock (now : Z)
| Flag (b : bool)
| Text (r : Reply string)
| Files (r : Reply (list string))
| Stat (r : Reply Stats)
| Done (r : Reply unit)
| Config (r : Reply DeployConfig)
| Confirmed (a : Answer bool)
| Typed (a : Answer string)
| PickedWorkspace (a : Answer WorkspaceResponse)
| Picked (a : Answer (option string))
| Project (r : Reply GetProjectResponse)
| Projects (r : Reply (list GetProjectResponse))
| Repository (r : Reply (option GitHubRepository))
| Accepted (r : Reply bool)
| Deploy (r : Reply GetDeployResponse)
| Manifest (r : Reply ManifestResponse).

Definition unexpected {A} : Reply A := Rejects (JsError "unexpected call").

Definition scripted (opts : DeployOptions) (workspaces : list WorkspaceResponse) (tty : bool)
           (script : list Scripted) : Env :=
  let at_ (t : nat) := nth t script Silent in
  {| options := opts;
     currentUser_workspaces := workspaces;
     isTty := tty;
     outputColumns := 80;
     OBSERVABLE_UI_ORIGIN := "https://observablehq.com/";
     link := fun s => s;
     bold := fun s => s;
     faint := fun s => s;
     yellow := fun s => s;
     wrapAnsi := fun s _ => s;
     slugify := fun s => s;
     formatUser := fun w => "@" ++ w_login w;
     toLocaleString_sv := Js.string_of_Z;
     sha512_base64 := fun s => "sha512:" ++ s;
     Date_now_at := fun t => match at_ t with Clock z => z | _ => 0 end;
     existsSync_at := fun t _ => match at_ t with Flag b => b | _ => false end;
     exec_at := fun t _ => match at_ t with Text r => r | _ => unexpected end;
     visitFiles_at := fun t _ => match at_ t with Files r => r | _ => unexpected end;
     stat_at := fun t _ => match at_ t with Stat r => r | _ => unexpected end;
     readFile_at := fun t _ => match at_ t with Text r => r | _ => unexpected end;
     readCacheFile_at := fun t _ _ => match at_ t with Text r => r | _ => unexpected end;
     JSON_parse := fun s => Resolves s;
     build_at := fun t => match at_ t with Done r => r | _ => unexpected end;
     getDeployConfig_at := fun t => match at_ t with Config r => r | _ => unexpected end;
     setDeployConfig_at := fun t _ => match at_ t with Done r => r | _ => unexpected end;
     confirm_at := fun t _ => match at_ t with Confirmed a => a | _ => Canceled end;
     text_at := fun t _ => match at_ t with Typed a => a | _ => Canceled end;
     selectWorkspace_at := fun t => match at_ t with PickedWorkspace a => a | _ => Canceled end;
     selectProject_at := fun t => match at_ t with Picked a => a | _ => Canceled end;
     selectAccessLevel_at := fun t => match at_ t with Typed a => a | _ => Canceled end;
     getProject_at := fun t _ _ => match at_ t with Project r => r | _ => unexpected end;
     postProject_at := fun t _ _ _ _ => match at_ t with Project r => r | _ => unexpected end;
     postProjectBuild_at := fun t _ => match at_ t with Done r => r | _ => unexpected end;
     getGitHubRepository_at := fun t _ => match at_ t with Repository r => r | _ => unexpected end;
     postProjectEnvironment_at := fun t _ _ => match at_ t with Accepted r => r | _ => unexpected end;
     getWorkspaceProjects_at := fun t _ => match at_ t with Projects r => r | _ => unexpected end;
     getDeploy_at := fun t _ => match at_ t with Deploy r => r | _ => unexpected end;
     postDeploy_at := fun t _ _ => match at_ t with Text r => r | _ => unexpected end;
     postDeployManifest_at := fun t _ _ => match at_ t with Manifest r => r | _ => unexpected end;
     postDeployFile_at := fun t _ _ _ => match at_ t with Done r => r | _ => unexpected end;
     postDeployUploaded_at := fun t _ _ => match at_ t with Done r => r | _ => unexpected end |}.

Definition defaultOptions : DeployOptions :=
  {| config_root := "src";
     config_output := "dist";
     config_title := Some "My App";
     deployConfigPath := None;
     message := Some "";
     deployPollInterval := None;
     force := None;
     maxConcurrency := None;
     deployId := None |}.

Definition mockWorkspace : WorkspaceResponse :=
  {| w_id := "0000000000000001"; w_login := "mock-user-ws";
     w_name := "Mock User's Workspace"; w_role := "owner" |}.

Definition mockSource : ProjectSource :=
  {| src_provider := "github"; src_provider_id := "123:456";
     src_url := "https://github.com/observablehq/framework"; src_branch := "main" |}.

Definition mockProject (source : option ProjectSource) : GetProjectResponse :=
  {| p_id := "P1"; p_slug := "my-app"; p_title := "My App";
     p_owner := workspaceRef mockWorkspace;
     p_latestCreatedDeployId := Some "D0";
     p_build_environment_id := Some "env1";
     p_source := source |}.

Definition mockRepository : GitHubRepository :=
  {| gh_provider := "github"; gh_provider_id := "123:456";
     gh_url := "https://github.com/observablehq/framework" |}.

Definition mockDeploy (status : string) : GetDeployResponse :=
  {| d_id := "D1"; d_status := status; d_url := "https://mock.observablehq.cloud/my-app" |}.

Definition tab : ascii := "009"%char.

(** One line of [git remote -v] for an HTTPS remote. *)
Definition mockRemotes : string :=
  "origin" ++ String tab "https://github.com/observablehq/framework.git (fetch)"
  ++ String newline "".

(** ** Vocabulary of the statements, and the worlds of the examples *)

Local Open Scope list_scope.

Definition world_deploy_fetch (r : Reply GetDeployResponse) : Env :=
  scripted defaultOptions [mockWorkspace] true [Deploy r].

(** A persisted [projectSlug] that does not match [^[a-z0-9-]+$]. *)
Definition slug_mismatch (c : DeployConfig) : Prop :=
  exists s, projectSlug c = Some s /\ Js.matchSlug s = false.

Definition world_config (c : DeployConfig) : Env :=
  scripted defaultOptions [mockWorkspace] true [Config (Resolves c)].

Definition config_with_empty_slug : DeployConfig :=
  {| projectId := None; projectSlug := Some EmptyString; workspaceLogin := None;
     continuousDeployment := Some false |}.

Definition config_with_bad_slug : DeployConfig :=
  {| projectId := Some "P1"; projectSlug := Some "My_App"; workspaceLogin := Some "@mock-user-ws";
     continuousDeployment := Some false |}.

Definition is_setDeployConfig (ev : Event) : bool :=
  match ev with EvSetDeployConfig _ => true | _ => false end.

Definition is_postProject (ev : Event) : bool :=
  match ev with EvPostProject _ _ _ _ => true | _ => false end.

Definition is_postDeployFile (ev : Event) : bool :=
  match ev with EvPostDeployFile _ _ _ => true | _ => false end.

Definition is_buildTrigger (ev : Event) : bool :=
  match ev with EvPostProjectBuild _ => true | _ => false end.

Definition is_rateLimiterWait (ev : Event) : bool :=
  match ev with EvRateLimiterWait => true | _ => false end.

Definition world_create_app : Env :=
  scripted defaultOptions [mockWorkspace] true
           [Project (Resolves (mockProject None)); Done (Resolves tt)].

Definition config_unset : DeployConfig :=
  {| projectId := None; projectSlug := None; workspaceLogin := None;
     continuousDeployment := Some false |}.

Definition mockCreate : DeployTargetInfo :=
  Create (workspaceRef mockWorkspace) "my-app" "My App" "private".

(** The search of [getUpdatedDeployConfig] writes the config when it
    finds the app, and only then. *)
Definition writes_if_found (o : Outcome (bool * DeployConfig)) (evs : Trace) : Prop :=
  forall found c, o = Ret (found, c) ->
                  count_events is_setDeployConfig evs = (if found then 1 else 0)%nat.

Definition config_legacy : DeployConfig :=
  {| projectId := Some "P1"; projectSlug := None; workspaceLogin := None;
     continuousDeployment := Some false |}.

(** A deploy.json with a [projectId] only; the search finds the app in the
    user's workspace. *)
Definition world_legacy_config : Env :=
  scripted defaultOptions [mockWorkspace] true
           [Config (Resolves config_legacy);
            Silent; Silent;
            Projects (Resolves [mockProject None]);
            Done (Resolves tt);
            Silent;
            Project (Resolves (mockProject None));
            Silent;
            Done (Resolves tt)].

Definition config_resolved : DeployConfig :=
  {| projectId := Some "P1"; projectSlug := Some "my-app";
     workspaceLogin := Some "mock-user-ws"; continuousDeployment := Some false |}.

(** A fresh project: no persisted config, the user creates an app in the
    only workspace, which has no apps yet. *)
Definition world_new_app : Env :=
  scripted defaultOptions [mockWorkspace] true
           [Config (Resolves config_unset);
            Silent; Silent;
            Projects (Resolves []);
            Confirmed (Answered true);
            Typed (Answered "my-app");
            Typed (Answered "private");
            Project (Resolves (mockProject None));
            Done (Resolves tt)].

(** [link(`${settingsUrl(deployTarget)}/settings`)] for an [Existing] target. *)
Definition settingsPage (env : Env) (workspace : WorkspaceRef) (project : GetProjectResponse)
  : string :=
  link env ((OBSERVABLE_UI_ORIGIN env ++ "projects/@" ++ ws_login workspace ++ "/"
             ++ p_slug project) ++ "/settings")%string.

(** The call that looks the configured repository up by its provider id. *)
Definition lookupConfigured (source : ProjectSource) : Event :=
  EvGetGitHubRepository (ByProviderId (src_provider_id source)).

Definition accessOf (env : Env) (source : ProjectSource) (h : Trace)
  : Reply (option GitHubRepository) :=
  getGitHubRepository_at env (List.length h) (ByProviderId (src_provider_id source)).

(** The checkout is on the branch [feature-x]; the server does not know
    the repository by owner and name, and can access the configured one. *)
Definition world_unknown_local : Env :=
  scripted defaultOptions [mockWorkspace] true
           [Flag true;
            Text (Resolves mockRemotes);
            Text (Resolves "feature-x");
            Repository (Resolves None);
            Repository (Resolves (Some mockRepository))].

Definition local_unknown : LocalRepository :=
  {| local_owner := "observablehq"; local_repo := "framework"; local_branch := "feature-x";
     local_github := None |}.

Definition trace_local : Trace :=
  [EvExistsSync ".git"; EvExec "git remote -v"; EvExec "git rev-parse --abbrev-ref HEAD";
   EvGetGitHubRepository (ByName "observablehq" "framework")].




Definition config_continuous : DeployConfig :=
  {| projectId := Some "P1"; projectSlug := Some "my-app";
     workspaceLogin := Some "mock-user-ws"; continuousDeployment := Some true |}.

(** A continuous-deployment project configured for [main], deployed from
    a checkout on [feature-x] whose repository the server knows. *)
Definition world_deploy_from_feature_branch : Env :=
  scripted defaultOptions [mockWorkspace] true
           [Config (Resolves config_continuous);
            Project (Resolves (mockProject (Some mockSource)));
            Silent;
            Done (Resolves tt);
            Flag true;
            Text (Resolves mockRemotes);
            Text (Resolves "feature-x");
            Repository (Resolves (Some mockRepository))].

(** The paths of the files a trace uploads, in order. *)
Definition posted (t : Trace) : list string :=
  flat_map (fun ev => match ev with EvPostDeployFile _ _ path => [path] | _ => [] end) t.

(** The server rejected the manifest: the response status is [error], or
    some file instruction has the status [error]. *)
Definition rejected (instructions : ManifestResponse) : bool :=
  (mr_status instructions =? "error")%string
  || existsb (fun i => (fi_status i =? "error")%string) (mr_files instructions).

(** The interactions of one upload task: the wait on the rate limiter
    when there are more than 300 files to upload, the progress message,
    the upload. *)
Definition uploadEvents (env : Env) (deployId : string) (toUpload : list string)
           (task : nat * string) : Trace :=
  (if (300 <? List.length toUpload)%nat then [EvRateLimiterWait] else [])
  ++ [EvSpinnerMessage (progressMessage env toUpload (snd task) (fst task));
      EvPostDeployFile deployId (Js.join (config_output (options env)) (snd task)) (snd task)].

(** The tasks of [runAllWithConcurrencyLimit]: the items with their index. *)
Definition indexed (from : nat) (files : list string) : list (nat * string) :=
  combine (seq from (List.length files)) files.

Definition mockFile (status : string) (path : string) : FileInstruction :=
  {| fi_path := path; fi_status := status; fi_detail := None |}.

Definition manifest_accepted : ManifestResponse :=
  {| mr_status := "ok"; mr_detail := None;
     mr_files := [mockFile "upload" "index.html"; mockFile "skip" "style.css";
                  mockFile "upload" "data.csv"] |}.

Definition manifest_rejected : ManifestResponse :=
  {| mr_status := "error"; mr_detail := Some "quota exceeded";
     mr_files := [mockFile "upload" "index.html"] |}.

Definition mockStats : Stats := {| mtimeMs := 1700000000000; size := 42 |}.

(** Three build files are hashed, the manifest is sent, and the two
    uploads the server asks for succeed. *)
Definition world_upload (answer : ManifestResponse) : Env :=
  scripted defaultOptions [mockWorkspace] true
           [Silent; Silent;
            Stat (Resolves mockStats); Text (Resolves "<html>");
            Stat (Resolves mockStats); Text (Resolves "body {}");
            Stat (Resolves mockStats); Text (Resolves "a,b");
            Silent;
            Manifest (Resolves answer);
            Silent; Done (Resolves tt);
            Silent; Done (Resolves tt)].

Definition mockBuildFiles : list string := ["index.html"; "style.css"; "data.csv"].

(** The server asks for [n] files; every interaction of the upload phase
    succeeds. *)
Definition manifest_of (n : nat) : ManifestResponse :=
  {| mr_status := "ok"; mr_detail := None;
     mr_files := map (fun i => mockFile "upload" ("file" ++ show_nat i)%string) (seq 0 n) |}.

Definition world_uploading : Env :=
  scripted defaultOptions [mockWorkspace] true
           (concat (repeat [Done (Resolves tt); Done (Resolves tt); Done (Resolves tt)] 301)).

(** The build is triggered; the project still shows the deploy [D0] at
    the first poll, and the clock has passed the deadline at the second. *)
Definition world_build_never_starts : Env :=
  scripted defaultOptions [mockWorkspace] true
           [Done (Resolves tt); Silent; Clock 1000;
            Clock 2000; Project (Resolves (mockProject (Some mockSource))); Silent;
            Clock 400000].

(** The deploy is still [pending] at the first poll, and the clock has
    passed the deadline at the second. *)
Definition world_processing_stalls : Env :=
  scripted defaultOptions [mockWorkspace] true
           [Silent; Clock 1000;
            Clock 2000; Deploy (Resolves (mockDeploy "pending")); Silent;
            Clock 400000].

(** The clock jumps past the deadline before the first iteration. *)
Definition world_clock_jumps : Env :=
  scripted defaultOptions [mockWorkspace] true [Silent; Clock 1000; Clock 400000].

Definition is_confirm (ev : Event) : bool :=
  match ev with EvConfirm _ _ => true | _ => false end.

Definition rebuildQuestion : string := "Would you like to build again before deploying?".

(** No kind of call: [quiet nothing m] only says that [m] adds events to
    the trace. *)
Definition nothing (ev : Event) : bool := false.

(** An interactive session with a build whose only file was written at
    [100000]; the only source file was written at [sourceMtimeMs], there is
    no cache directory, and the clock reads [now]. *)
Definition world_build (now sourceMtimeMs : Z) : Env :=
  scripted defaultOptions [mockWorkspace] true
           [Files (Resolves ["index.html"]);
            Files (Resolves ["index.html"]);
            Stat (Resolves {| mtimeMs := 100000; size := 1 |});
            Files (Resolves ["index.md"]);
            Stat (Resolves {| mtimeMs := sourceMtimeMs; size := 1 |});
            Stat (Rejects (Enoent "src/.observablehq/cache"));
            Clock now;
            Silent;
            Confirmed (Answered false)].

(** ** Reasoning about runs *)

Lemma bind_run {A B} (m : M A) (k : A -> M B) (h h' : Trace) (a : A) :
  m h = (Ret a, h') -> bind m k h = k a h'.
Proof. intros E. unfold bind. now rewrite E. Qed.

Lemma await_run {A} (ev : Event) (reply : nat -> Reply A) (h : Trace) :
  await ev reply h
  = (match reply (List.length h) with Resolves a => Ret a | Rejects e => Throw e end,
     (h ++ [ev])%list).
Proof. reflexivity. Qed.

Lemma length_snoc {A} (l : list A) (a : A) : List.length (l ++ [a]) = S (List.length l).
Proof. rewrite length_app. simpl. lia. Qed.

(** [sat m Q]: from any trace, a run of [m] only adds events, and the
    outcome and the added events are related by [Q]. *)
Definition sat {A} (m : M A) (Q : Outcome A -> Trace -> Prop) : Prop :=
  forall h, exists evs, snd (m h) = (h ++ evs)%list /\ Q (fst (m h)) evs.

Lemma sat_ret {A} (a : A) (Q : Outcome A -> Trace -> Prop) :
  Q (Ret a) [] -> sat (ret a) Q.
Proof. intros HQ h. exists []. simpl. now rewrite app_nil_r. Qed.

Lemma sat_throw {A} (e : Error) (Q : Outcome A -> Trace -> Prop) :
  Q (Throw e) [] -> sat (throw e) Q.
Proof. intros HQ h. exists []. simpl. now rewrite app_nil_r. Qed.

Lemma sat_outOfFuel {A} (Q : Outcome A -> Trace -> Prop) :
  Q OutOfFuel [] -> sat outOfFuel Q.
Proof. intros HQ h. exists []. simpl. now rewrite app_nil_r. Qed.

Lemma sat_await {A} (ev : Event) (reply : nat -> Reply A) (Q : Outcome A -> Trace -> Prop) :
  (forall a, Q (Ret a) [ev]) -> (forall e, Q (Throw e) [ev]) -> sat (await ev reply) Q.
Proof.
  intros HR HT h. exists [ev]. unfold await. simpl. split; [reflexivity|].
  destruct (reply (List.length h)); auto.
Qed.

Lemma sat_perform {A} (ev : Event) (answer : nat -> A) (Q : Outcome A -> Trace -> Prop) :
  (forall a, Q (Ret a) [ev]) -> sat (perform ev answer) Q.
Proof. intros HR h. exists [ev]. unfold perform. simpl. auto. Qed.

Lemma sat_liftReply {A} (r : Reply A) (Q : Outcome A -> Trace -> Prop) :
  (forall a, Q (Ret a) []) -> (forall e, Q (Throw e) []) -> sat (liftReply r) Q.
Proof. intros HR HT. destruct r; simpl; [apply sat_ret | apply sat_throw]; auto. Qed.

Lemma sat_bind {A B} (m : M A) (k : A -> M B)
      (Q1 : Outcome A -> Trace -> Prop) (Q : Outcome B -> Trace -> Prop) :
  sat m Q1 ->
  (forall a evs1, Q1 (Ret a) evs1 -> sat (k a) (fun o evs2 => Q o (evs1 ++ evs2)%list)) ->
  (forall e evs1, Q1 (Throw e) evs1 -> Q (Throw e) evs1) ->
  (forall evs1, Q1 OutOfFuel evs1 -> Q OutOfFuel evs1) ->
  sat (bind m k) Q.
Proof.
  intros Hm Hk HT HF h. destruct (Hm h) as (evs1 & E1 & Q1h).
  unfold bind. destruct (m h) as [[a|e|] h1]; simpl in *; subst h1.
  - destruct (Hk a evs1 Q1h (h ++ evs1)%list) as (evs2 & E2 & Q2).
    exists (evs1 ++ evs2)%list. rewrite E2, app_assoc. auto.
  - exists evs1. auto.
  - exists evs1. auto.
Qed.

Lemma sat_tryCatch {A} (m : M A) (handler : Error -> M A)
      (Q1 Q : Outcome A -> Trace -> Prop) :
  sat m Q1 ->
  (forall e evs1, Q1 (Throw e) evs1 -> sat (handler e) (fun o evs2 => Q o (evs1 ++ evs2)%list)) ->
  (forall a evs1, Q1 (Ret a) evs1 -> Q (Ret a) evs1) ->
  (forall evs1, Q1 OutOfFuel evs1 -> Q OutOfFuel evs1) ->
  sat (tryCatch m handler) Q.
Proof.
  intros Hm Hk HR HF h. destruct (Hm h) as (evs1 & E1 & Q1h).
  unfold tryCatch. destruct (m h) as [[a|e|] h1]; simpl in *; subst h1.
  - exists evs1. auto.
  - destruct (Hk e evs1 Q1h (h ++ evs1)%list) as (evs2 & E2 & Q2).
    exists (evs1 ++ evs2)%list. rewrite E2, app_assoc. auto.
  - exists evs1. auto.
Qed.

Lemma sat_weaken {A} (m : M A) (Q1 Q : Outcome A -> Trace -> Prop) :
  sat m Q1 -> (forall o evs, Q1 o evs -> Q o evs) -> sat m Q.
Proof. intros Hm HQ h. destruct (Hm h) as (evs & E & H1). exists evs. auto. Qed.

Lemma count_events_app (p : Event -> bool) (a b : Trace) :
  count_events p (a ++ b) = (count_events p a + count_events p b)%nat.
Proof. unfold count_events. now rewrite filter_app, length_app. Qed.

(** *** Counting the calls of one kind *)

Section Counting.

Variable p : Event -> bool.

(** No call of the kind [p], whatever the outcome. *)
Definition quiet {A} (m : M A) : Prop :=
  sat m (fun _ evs => count_events p evs = 0%nat).

(** Exactly [n] calls of the kind [p] where the run returns. *)
Definition returning {A} (n : nat) (m : M A) : Prop :=
  sat m (fun o evs => forall a, o = Ret a -> count_events p evs = n).

Lemma quiet_ret {A} (a : A) : quiet (ret a).
Proof. now apply sat_ret. Qed.

Lemma quiet_throw {A} (e : Error) : quiet (@throw A e).
Proof. now apply sat_throw. Qed.

Lemma quiet_outOfFuel {A} : quiet (@outOfFuel A).
Proof. now apply sat_outOfFuel. Qed.

Lemma quiet_await {A} (ev : Event) (reply : nat -> Reply A) :
  p ev = false -> quiet (await ev reply).
Proof. intros E. apply sat_await; intros; unfold count_events; simpl; now rewrite E. Qed.

Lemma quiet_perform {A} (ev : Event) (answer : nat -> A) :
  p ev = false -> quiet (perform ev answer).
Proof. intros E. apply sat_perform; intros; unfold count_events; simpl; now rewrite E. Qed.

Lemma quiet_liftReply {A} (r : Reply A) : quiet (liftReply r).
Proof. now apply sat_liftReply. Qed.

Lemma quiet_bind {A B} (m : M A) (k : A -> M B) :
  quiet m -> (forall a, quiet (k a)) -> quiet (bind m k).
Proof.
  intros Hm Hk. eapply sat_bind; [exact Hm | | auto | auto].
  intros a evs1 E1. eapply sat_weaken; [apply Hk|].
  cbv beta in *. intros o evs E2. rewrite count_events_app. lia.
Qed.

Lemma quiet_tryCatch {A} (m : M A) (handler : Error -> M A) :
  quiet m -> (forall e, quiet (handler e)) -> quiet (tryCatch m handler).
Proof.
  intros Hm Hk. eapply sat_tryCatch; [exact Hm | | auto | auto].
  intros a evs1 E1. eapply sat_weaken; [apply Hk|].
  cbv beta in *. intros o evs E2. rewrite count_events_app. lia.
Qed.

Lemma returning_quiet {A} (m : M A) : quiet m -> returning 0 m.
Proof. intros Hm. eapply sat_weaken; [exact Hm|]. simpl. auto. Qed.

Lemma returning_await {A} (ev : Event) (reply : nat -> Reply A) :
  p ev = true -> returning 1 (await ev reply).
Proof. intros E. apply sat_await; intros; unfold count_events; simpl; now rewrite E. Qed.

Lemma returning_bind {A B} (n1 n2 : nat) (m : M A) (k : A -> M B) :
  returning n1 m -> (forall a, returning n2 (k a)) -> returning (n1 + n2) (bind m k).
Proof.
  intros Hm Hk. eapply sat_bind; [exact Hm | | discriminate | discriminate].
  intros a evs1 E1. eapply sat_weaken; [apply Hk|].
  cbv beta in *. intros o evs E2 b Eb. rewrite count_events_app, (E1 a eq_refl), (E2 b Eb). lia.
Qed.

Lemma returning_after_quiet {A B} (n : nat) (m : M A) (k : A -> M B) :
  quiet m -> (forall a, returning n (k a)) -> returning n (bind m k).
Proof.
  intros Hm Hk. change n with (0 + n)%nat. apply returning_bind; auto using returning_quiet.
Qed.

Lemma returning_then_quiet {A B} (n : nat) (m : M A) (k : A -> M B) :
  returning n m -> (forall a, quiet (k a)) -> returning n (bind m k).
Proof.
  intros Hm Hk. replace n with (n + 0)%nat by lia.
  apply returning_bind; auto using returning_quiet.
Qed.

(** What [sat] says about one run. *)
Lemma quiet_run {A} (m : M A) (h h' : Trace) (o : Outcome A) :
  quiet m -> m h = (o, h') -> count_events p h' = count_events p h.
Proof.
  intros Hm E. destruct (Hm h) as (evs & E1 & E2). rewrite E in *. simpl in *.
  subst h'. rewrite count_events_app. lia.
Qed.

Lemma returning_run {A} (n : nat) (m : M A) (h h' : Trace) (a : A) :
  returning n m -> m h = (Ret a, h') -> count_events p h' = (count_events p h + n)%nat.
Proof.
  intros Hm E. destruct (Hm h) as (evs & E1 & E2). rewrite E in *. simpl in *.
  subst h'. rewrite count_events_app, (E2 a eq_refl). lia.
Qed.

End Counting.

(** ** [checkDeployCreated] *)

Lemma string_eqb_false (a b : string) : a <> b -> (a =? b)%string = false.
Proof. intros N. now apply String.eqb_neq. Qed.

(** C10: [checkDeployCreated] turns every HTTP error of the deploy-status
    fetch, whatever its status code, into the fatal error
    "Deploy <id> not found." that carries the original error as its cause;
    an error that is not an HTTP error propagates unchanged, and so does
    the unexpected-status error that the function throws itself. *)
Theorem checkDeployCreated_errors (env : Env) (deployId : string) (h : Trace) :
  (forall code msg codes,
      getDeploy_at env (List.length h) deployId = Rejects (HttpError code msg codes) ->
      checkDeployCreated env deployId h
      = (Throw (CliError ("Deploy " ++ deployId ++ " not found.")%string
                         (Some (HttpError code msg codes)) None None),
         h ++ [EvGetDeploy deployId]))
  /\ (forall e,
         getDeploy_at env (List.length h) deployId = Rejects e ->
         isHttpError e = false ->
         checkDeployCreated env deployId h = (Throw e, h ++ [EvGetDeploy deployId]))
  /\ (forall d,
         getDeploy_at env (List.length h) deployId = Resolves d ->
         d_status d <> "created" ->
         checkDeployCreated env deployId h
         = (Throw (cliError ("Deploy " ++ deployId ++ " has an unexpected status: "
                             ++ d_status d)%string),
            h ++ [EvGetDeploy deployId])).
Proof.
  unfold checkDeployCreated, tryCatch, bind, getDeploy, await.
  repeat split.
  - intros code msg codes E. rewrite E. reflexivity.
  - intros e E NotHttp. rewrite E. simpl. now rewrite NotHttp.
  - intros d E Status. rewrite E.
    rewrite (string_eqb_false _ _ Status). reflexivity.
Qed.

Lemma checkDeployCreated_errors_witness :
  fst (checkDeployCreated
         (world_deploy_fetch (Rejects (HttpError 500 "Internal Server Error" []))) "D1" [])
  = Throw (CliError "Deploy D1 not found."
                    (Some (HttpError 500 "Internal Server Error" [])) None None)
  /\ fst (checkDeployCreated (world_deploy_fetch (Rejects (JsError "socket hang up"))) "D1" [])
     = Throw (JsError "socket hang up")
  /\ fst (checkDeployCreated (world_deploy_fetch (Resolves (mockDeploy "pending"))) "D1" [])
     = Throw (cliError "Deploy D1 has an unexpected status: pending").
Proof.
  split; [| split].
  - destruct (checkDeployCreated_errors
                (world_deploy_fetch (Rejects (HttpError 500 "Internal Server Error" [])))
                "D1" []) as (Http & _ & _).
    rewrite (Http 500 "Internal Server Error" [] eq_refl). reflexivity.
  - destruct (checkDeployCreated_errors
                (world_deploy_fetch (Rejects (JsError "socket hang up"))) "D1" [])
      as (_ & Other & _).
    rewrite (Other (JsError "socket hang up") eq_refl eq_refl). reflexivity.
  - destruct (checkDeployCreated_errors
                (world_deploy_fetch (Resolves (mockDeploy "pending"))) "D1" [])
      as (_ & _ & Status).
    rewrite (Status (mockDeploy "pending") eq_refl); [reflexivity | discriminate].
Defined.

(** ** [getUpdatedDeployConfig]: validation of the persisted values *)

(** C7, as stated, fails: an empty [projectSlug] does not match the pattern,
    and [getUpdatedDeployConfig] returns the config as it is. *)
Lemma getUpdatedDeployConfig_ignores_empty_slug :
  slug_mismatch config_with_empty_slug
  /\ getUpdatedDeployConfig (world_config config_with_empty_slug) []
     = (Ret config_with_empty_slug, [EvGetDeployConfig]).
Proof.
  split; [| reflexivity].
  exists EmptyString. split; reflexivity.
Qed.

(** C7, amended: a persisted [projectSlug] or [workspaceLogin] that is a
    non-empty string and does not match its pattern makes
    [getUpdatedDeployConfig] throw a [CliError]; nothing but the read of the
    config has happened by then, so the value is neither repaired nor
    written back. *)
Theorem getUpdatedDeployConfig_rejects_invalid (env : Env) (h : Trace) (c : DeployConfig) :
  getDeployConfig_at env (List.length h) = Resolves c ->
  (exists s, projectSlug c = Some s /\ s <> EmptyString /\ Js.matchSlug s = false)
  \/ (exists s, workspaceLogin c = Some s /\ s <> EmptyString /\ Js.matchLogin s = false) ->
  exists msg,
    getUpdatedDeployConfig env h = (Throw (cliError msg), h ++ [EvGetDeployConfig]).
Proof.
  intros Loaded Invalid.
  unfold getUpdatedDeployConfig, updateDeployConfig, getDeployConfig.
  unfold bind at 1 2. rewrite await_run, Loaded.
  destruct (invalidLogin c) eqn:L; [eexists; reflexivity|].
  destruct (invalidSlug c) eqn:S; [eexists; reflexivity|].
  exfalso. destruct Invalid as [(s & E & N & Mis) | (s & E & N & Mis)].
  - unfold invalidSlug in S. rewrite E, Mis, (string_eqb_false _ _ N) in S. discriminate.
  - unfold invalidLogin in L. rewrite E, Mis, (string_eqb_false _ _ N) in L. discriminate.
Qed.

Lemma getUpdatedDeployConfig_rejects_invalid_witness :
  exists msg,
    getUpdatedDeployConfig (world_config config_with_bad_slug) []
    = (Throw (cliError msg), [EvGetDeployConfig]).
Proof.
  apply (getUpdatedDeployConfig_rejects_invalid (world_config config_with_bad_slug) []
                                                config_with_bad_slug eq_refl).
  left. exists "My_App". split; [reflexivity | split; [discriminate | reflexivity]].
Defined.

(** ** Calls that change the server or the persisted config *)

Ltac unfold_calls :=
  unfold Date_now, sleep, existsSync, exec, visitFiles, stat, readFile, build, getDeployConfig,
    setDeployConfig, confirm, text, log, getProject, postProject, postProjectBuild,
    getGitHubRepository, postProjectEnvironment, getWorkspaceProjects, getDeploy, postDeploy,
    postDeployManifest, postDeployFile, emit.

(** Discharges [quiet p m] for a straight-line [m] none of whose calls is
    of the kind [p]. *)
Ltac quiet_steps :=
  repeat first
    [ apply quiet_ret
    | apply quiet_throw
    | apply quiet_outOfFuel
    | apply quiet_liftReply
    | apply quiet_await; reflexivity
    | apply quiet_perform; reflexivity
    | apply quiet_bind; [| intros ?]
    | apply quiet_tryCatch; [| intros ?]
    | match goal with
      | |- quiet _ (match ?x with _ => _ end) => destruct x
      end
    | progress unfold_calls ].

Section QuietResolution.

Variable env : Env.
Variable p : Event -> bool.
Hypothesis p_getWorkspaceProjects : forall l, p (EvGetWorkspaceProjects l) = false.
Hypothesis p_select : forall q, p (EvSelect q) = false.
Hypothesis p_confirm : forall q i, p (EvConfirm q i) = false.
Hypothesis p_text : forall q, p (EvText q) = false.
Hypothesis p_log : forall l s, p (EvLog l s) = false.
Hypothesis p_outro : forall s, p (EvOutro s) = false.
Hypothesis p_getProject : forall l s, p (EvGetProject l s) = false.

Ltac quiet_here :=
  repeat first
    [ apply quiet_ret
    | apply quiet_throw
    | apply quiet_await; solve [auto]
    | apply quiet_perform; solve [auto]
    | apply quiet_bind; [| intros ?]
    | apply quiet_tryCatch; [| intros ?]
    | match goal with
      | |- quiet _ (match ?x with _ => _ end) => destruct x
      end
    | progress unfold_calls ].

Lemma quiet_promptNewApp (w : WorkspaceResponse) : quiet p (promptNewApp env w).
Proof. unfold promptNewApp. quiet_here. Qed.

Lemma quiet_promptProject (w : WorkspaceResponse) : quiet p (promptProject env w).
Proof.
  unfold promptProject.
  apply quiet_bind; [quiet_here|]. intros projects.
  destruct projects.
  - apply quiet_bind; [quiet_here|]. intros [[|]|]; quiet_here; apply quiet_promptNewApp.
  - apply quiet_bind; [quiet_here|]. intros [[chosen|]|]; quiet_here; apply quiet_promptNewApp.
Qed.

Lemma quiet_promptDeployTarget : quiet p (promptDeployTarget env).
Proof.
  unfold promptDeployTarget.
  destruct (negb (isTty env)); [apply quiet_throw|].
  apply quiet_bind; [quiet_here|]. intros _.
  destruct (currentUser_workspaces env) as [|w [|w' rest]].
  - quiet_here.
  - apply quiet_bind; [quiet_here|]. intros _. apply quiet_promptProject.
  - apply quiet_bind; [quiet_here|]. intros [chosen|]; [apply quiet_promptProject | apply quiet_throw].
Qed.

Lemma quiet_resolveTarget (c : DeployConfig) : quiet p (resolveTarget env c).
Proof.
  unfold resolveTarget.
  apply quiet_bind.
  - quiet_here.
  - intros [t|]; [apply quiet_ret | apply quiet_promptDeployTarget].
Qed.

Lemma quiet_confirmOverwrite (msg : string) : quiet p (confirmOverwrite env msg).
Proof. unfold confirmOverwrite. quiet_here. Qed.

Lemma quiet_checkLastDeployed (c : DeployConfig) (t : DeployTargetInfo) :
  quiet p (checkLastDeployed env c t).
Proof.
  unfold checkLastDeployed. destruct t; [apply quiet_ret|].
  repeat match goal with
         | |- quiet _ (if ?x then _ else _) => destruct x
         end;
    quiet_here; apply quiet_confirmOverwrite.
Qed.

End QuietResolution.

(** Takes one step in a hypothesis [H] on a run of [bind m k] or
    [tryCatch m k]: cases on how [m] went. *)
Ltac run_cases H :=
  match type of H with
  | context [match ?m ?h with pair _ _ => _ end] =>
      let o := fresh "o" in
      let h1 := fresh "h" in
      let E := fresh "Run" in
      destruct (m h) as [o h1] eqn:E; destruct o; try discriminate H
  end.

(** *** The project-creation call in [getDeployTarget] *)

Lemma createProject_existing (env : Env) (workspace : WorkspaceRef) (project : GetProjectResponse)
      (h : Trace) :
  createProject env (Existing workspace project) h = (Ret (workspace, project), h).
Proof. reflexivity. Qed.

Lemma createProject_create (env : Env) (workspace : WorkspaceRef) (slug title level : string)
      (h : Trace) :
  let call := EvPostProject slug title (ws_id workspace) level in
  match postProject_at env (List.length h) slug title (ws_id workspace) level with
  | Resolves project =>
      createProject env (Create workspace slug title level) h
      = (Ret (workspace, project), h ++ [call])
  | Rejects e =>
      exists complaint,
        createProject env (Create workspace slug title level) h
        = (Throw (CliError "Error during deploy" (Some e) (Some false) None),
           h ++ [call; EvLog LogError complaint; EvOutro (yellow env "Deploy canceled")])
  end.
Proof.
  unfold createProject, tryCatch, bind, postProject, await. simpl.
  destruct (postProject_at env (List.length h) slug title (ws_id workspace) level) as [project|e].
  - reflexivity.
  - unfold log, emit, perform, throw.
    destruct (isApiError_with "TOO_MANY_PROJECTS" e); eexists;
      rewrite <- !app_assoc; reflexivity.
Qed.

Lemma createProject_posts (env : Env) (t : DeployTargetInfo) :
  returning is_postProject (if is_create t then 1 else 0)%nat (createProject env t).
Proof.
  destruct t as [workspace slug title level | workspace project]; cbn [is_create].
  - intros h. pose proof (createProject_create env workspace slug title level h) as Run.
    cbv zeta in Run.
    destruct (postProject_at env (List.length h) slug title (ws_id workspace) level).
    + rewrite Run. eexists. split; [reflexivity|]. reflexivity.
    + destruct Run as (complaint & Run). rewrite Run. eexists. split; [reflexivity|].
      discriminate.
  - apply returning_quiet, quiet_ret.
Qed.

Lemma quiet_createProject_writes (env : Env) (t : DeployTargetInfo) :
  quiet is_setDeployConfig (createProject env t).
Proof. unfold createProject. quiet_steps. Qed.

Lemma settleDeployTarget_posts (env : Env) (c : DeployConfig) (resolved : DeployTargetInfo) :
  returning is_postProject (if is_create resolved then 1 else 0)%nat
            (settleDeployTarget env c resolved).
Proof.
  unfold settleDeployTarget.
  apply returning_after_quiet; [apply quiet_checkLastDeployed; reflexivity|]. intros _.
  apply returning_then_quiet; [apply createProject_posts|]. intros [workspace project].
  quiet_steps.
Qed.

Lemma settleDeployTarget_writes (env : Env) (c : DeployConfig) (resolved : DeployTargetInfo) :
  returning is_setDeployConfig 1 (settleDeployTarget env c resolved).
Proof.
  unfold settleDeployTarget.
  apply returning_after_quiet; [apply quiet_checkLastDeployed; reflexivity|]. intros _.
  apply returning_after_quiet; [apply quiet_createProject_writes|]. intros [workspace project].
  apply returning_after_quiet; [quiet_steps|]. intros cd.
  apply returning_then_quiet; [|intros; apply quiet_ret].
  unfold setDeployConfig. now apply returning_await.
Qed.

Lemma settleDeployTarget_returns_existing (env : Env) (c : DeployConfig)
      (resolved : DeployTargetInfo) (h h' : Trace) (r : DeployConfig * DeployTargetInfo) :
  settleDeployTarget env c resolved h = (Ret r, h') -> is_create (snd r) = false.
Proof.
  intros H. unfold settleDeployTarget in H.
  unfold bind at 1 in H. run_cases H. unfold bind at 1 in H. run_cases H.
  match goal with a : (WorkspaceRef * GetProjectResponse)%type |- _ => destruct a end.
  unfold bind at 1 in H. run_cases H. unfold bind at 1 in H. run_cases H.
  unfold ret in H. inversion H. reflexivity.
Qed.

(** ** The tag of [DeployTargetInfo] *)

(** C8: the operations that read project-only fields ([settingsUrl],
    [cloudBuild], [validateGitHubLink], [createNewDeploy]) fail their
    contract check on a [Create]-tagged value, before any call.  The tag
    changes in one place, [createProject] of [getDeployTarget]: a [Create]
    value becomes [Existing] with the project the creation call resolved
    with, right after that call; an [Existing] value is left as it is, with
    no call.  So a target that [getDeployTarget] returns is [Existing], and
    the run made one creation call if the resolved target was [Create], and
    none otherwise. *)
Theorem deployTarget_tag_gates_and_changes_once (env : Env) (fuel : nat) (h : Trace) :
  (forall t,
      is_create t = true ->
      settingsUrl env t = Rejects (JsError "Incorrect deploy target state")
      /\ cloudBuild env fuel t h = (Throw (JsError "Incorrect deploy target state"), h)
      /\ validateGitHubLink env fuel t h = (Throw (JsError "Incorrect deploy target state"), h)
      /\ createNewDeploy env t h = (Throw (JsError "Incorrect deployTarget state"), h))
  /\ (forall workspace slug title level project,
         postProject_at env (List.length h) slug title (ws_id workspace) level = Resolves project ->
         createProject env (Create workspace slug title level) h
         = (Ret (workspace, project), h ++ [EvPostProject slug title (ws_id workspace) level]))
  /\ (forall workspace project,
         createProject env (Existing workspace project) h = (Ret (workspace, project), h))
  /\ (forall c resolved r h',
         settleDeployTarget env c resolved h = (Ret r, h') ->
         is_create (snd r) = false
         /\ count_events is_postProject h'
            = (count_events is_postProject h + (if is_create resolved then 1 else 0))%nat)
  /\ (forall c r h',
         getDeployTarget env c h = (Ret r, h') ->
         is_create (snd r) = false
         /\ (count_events is_postProject h' <= count_events is_postProject h + 1)%nat).
Proof.
  split; [| split; [| split; [| split]]].
  - intros [workspace slug title level | workspace project] Tag; [| discriminate].
    repeat split.
  - intros workspace slug title level project Created.
    pose proof (createProject_create env workspace slug title level h) as Run.
    cbv zeta in Run. now rewrite Created in Run.
  - intros. apply createProject_existing.
  - intros c resolved r h' Run. split.
    + eapply settleDeployTarget_returns_existing, Run.
    + eapply returning_run, Run. apply settleDeployTarget_posts.
  - intros c r h' Run. unfold getDeployTarget, bind in Run.
    destruct (resolveTarget env c h) as [[resolved| |] h1] eqn:Resolved; try discriminate.
    split.
    + eapply settleDeployTarget_returns_existing, Run.
    + rewrite (returning_run _ _ _ _ _ _ (settleDeployTarget_posts env c resolved) Run).
      rewrite (quiet_run is_postProject _ _ _ _
                         (quiet_resolveTarget env is_postProject
                            (fun _ => eq_refl) (fun _ => eq_refl) (fun _ _ => eq_refl)
                            (fun _ => eq_refl) (fun _ _ => eq_refl) (fun _ => eq_refl)
                            (fun _ _ => eq_refl) c)
                         Resolved).
      destruct (is_create resolved); lia.
Qed.

Lemma deployTarget_tag_gates_and_changes_once_witness :
  createNewDeploy world_create_app mockCreate []
  = (Throw (JsError "Incorrect deployTarget state"), [])
  /\ createProject world_create_app mockCreate []
     = (Ret (workspaceRef mockWorkspace, mockProject None),
        [EvPostProject "my-app" "My App" "0000000000000001" "private"])
  /\ count_events is_postProject
                  (snd (settleDeployTarget world_create_app config_unset mockCreate []))
     = 1%nat.
Proof.
  destruct (deployTarget_tag_gates_and_changes_once world_create_app 0 [])
    as (Guard & Change & _ & Settle & _).
  split; [| split].
  - apply (Guard mockCreate eq_refl).
  - apply (Change (workspaceRef mockWorkspace) "my-app" "My App" "private" (mockProject None)
                  eq_refl).
  - destruct (settleDeployTarget world_create_app config_unset mockCreate []) as [o h'] eqn:Run.
    assert (Returned : exists r, o = Ret r).
    { vm_compute in Run. inversion Run. eexists. reflexivity. }
    destruct Returned as (r & ->).
    apply (Settle config_unset mockCreate r h' Run).
Defined.

(** ** Writes of the persisted deploy config *)

Lemma searchWorkspaces_writes (env : Env) (c : DeployConfig) (id : string)
      (workspaces : list WorkspaceResponse) :
  sat (searchWorkspaces env c id workspaces) writes_if_found.
Proof.
  induction workspaces as [|workspace rest IH]; simpl.
  - apply sat_ret. intros found c' E. now inversion E.
  - eapply sat_bind with (Q1 := fun _ evs => count_events is_setDeployConfig evs = 0%nat).
    + unfold getWorkspaceProjects. apply sat_await; reflexivity.
    + intros projects evs1 Quiet.
      destruct (find (fun p => (p_id p =? id)%string) projects) as [project|].
      * eapply sat_bind with (Q1 := fun _ evs => count_events is_setDeployConfig evs = 1%nat).
        -- unfold setDeployConfig. apply sat_await; reflexivity.
        -- intros _ evs2 One. apply sat_ret. intros found c' E. inversion E.
           rewrite app_nil_r, count_events_app. lia.
        -- discriminate.
        -- discriminate.
      * eapply sat_weaken; [exact IH|]. intros o evs W found c' E.
        rewrite count_events_app, (W found c' E). lia.
    + discriminate.
    + discriminate.
Qed.

Lemma updateDeployConfig_writes (env : Env) : sat (updateDeployConfig env) writes_if_found.
Proof.
  unfold updateDeployConfig.
  eapply sat_bind with (Q1 := fun _ evs => count_events is_setDeployConfig evs = 0%nat);
    [unfold getDeployConfig; apply sat_await; reflexivity | | discriminate | discriminate].
  intros c evs0 Quiet0.
  destruct (invalidLogin c); [apply sat_throw; discriminate|].
  destruct (invalidSlug c); [apply sat_throw; discriminate|].
  destruct (needsBackfill c).
  - eapply sat_bind with (Q1 := fun _ evs => count_events is_setDeployConfig evs = 0%nat);
      [unfold log, emit; apply sat_perform; reflexivity | | discriminate | discriminate].
    intros _ evs1 Quiet1.
    eapply sat_bind with (Q1 := fun _ evs => count_events is_setDeployConfig evs = 0%nat);
      [unfold emit; apply sat_perform; reflexivity | | discriminate | discriminate].
    intros _ evs2 Quiet2.
    eapply sat_bind; [apply searchWorkspaces_writes | | discriminate | discriminate].
    intros [found updated] evs3 Found.
    eapply sat_bind with (Q1 := fun _ evs => count_events is_setDeployConfig evs = 0%nat);
      [destruct found; unfold emit; apply sat_perform; reflexivity | | discriminate | discriminate].
    intros _ evs4 Quiet4. apply sat_ret. intros found' c' E. inversion E; subst.
    rewrite app_nil_r, !count_events_app, (Found found' c' eq_refl). lia.
  - apply sat_ret. intros found c' E. inversion E. rewrite app_nil_r. exact Quiet0.
Qed.

(** C2, as stated, fails: on the legacy path the resolution succeeds and
    [setDeployConfig] has been called twice, once with the backfilled
    config and once with the reconciled one. *)
Lemma legacy_resolution_writes_twice :
  fst (resolveDeployTarget world_legacy_config [])
  = Ret (config_resolved, Existing (workspaceRef mockWorkspace) (mockProject None))
  /\ filter is_setDeployConfig (snd (resolveDeployTarget world_legacy_config []))
     = [EvSetDeployConfig config_resolved; EvSetDeployConfig config_resolved]
  /\ count_events is_setDeployConfig (snd (resolveDeployTarget world_legacy_config [])) <> 1%nat.
Proof. vm_compute. repeat split. discriminate. Qed.

(** C2, amended: in a successful target resolution [getDeployTarget] calls
    [setDeployConfig] exactly once, also when it creates the project; and
    [getUpdatedDeployConfig] before it calls [setDeployConfig] once more
    exactly when its search for the [projectId] found the app (the legacy
    path), and not otherwise. *)
Theorem resolution_writes_config (env : Env) (h h1 h2 : Trace) (found : bool)
        (c : DeployConfig) (r : DeployConfig * DeployTargetInfo) :
  updateDeployConfig env h = (Ret (found, c), h1) ->
  getDeployTarget env c h1 = (Ret r, h2) ->
  resolveDeployTarget env h = (Ret r, h2)
  /\ count_events is_setDeployConfig h1
     = (count_events is_setDeployConfig h + (if found then 1 else 0))%nat
  /\ count_events is_setDeployConfig h2 = (count_events is_setDeployConfig h1 + 1)%nat.
Proof.
  intros Updated Target. split; [| split].
  - unfold resolveDeployTarget, getUpdatedDeployConfig.
    unfold bind at 1 2. rewrite Updated. exact Target.
  - destruct (updateDeployConfig_writes env h) as (evs & Added & Writes).
    rewrite Updated in Added, Writes. simpl in Added. subst h1.
    rewrite count_events_app, (Writes found c eq_refl). reflexivity.
  - unfold getDeployTarget, bind in Target.
    destruct (resolveTarget env c h1) as [[resolved| |] h1'] eqn:Resolved; try discriminate.
    rewrite (returning_run _ _ _ _ _ _ (settleDeployTarget_writes env c resolved) Target).
    rewrite (quiet_run is_setDeployConfig _ _ _ _
                       (quiet_resolveTarget env is_setDeployConfig
                          (fun _ => eq_refl) (fun _ => eq_refl) (fun _ _ => eq_refl)
                          (fun _ => eq_refl) (fun _ _ => eq_refl) (fun _ => eq_refl)
                          (fun _ _ => eq_refl) c)
                       Resolved).
    reflexivity.
Qed.

Lemma resolution_writes_config_witness :
  (let h1 := snd (updateDeployConfig world_legacy_config []) in
   let h2 := snd (getDeployTarget world_legacy_config config_resolved h1) in
   let r := (config_resolved, Existing (workspaceRef mockWorkspace) (mockProject None)) in
   resolveDeployTarget world_legacy_config [] = (Ret r, h2)
   /\ count_events is_setDeployConfig h1 = (count_events is_setDeployConfig [] + 1)%nat
   /\ count_events is_setDeployConfig h2 = (count_events is_setDeployConfig h1 + 1)%nat)
  /\ (let h1 := snd (updateDeployConfig world_new_app []) in
      let h2 := snd (getDeployTarget world_new_app config_unset h1) in
      let r := (config_resolved, Existing (workspaceRef mockWorkspace) (mockProject None)) in
      resolveDeployTarget world_new_app [] = (Ret r, h2)
      /\ count_events is_setDeployConfig h1 = (count_events is_setDeployConfig [] + 0)%nat
      /\ count_events is_setDeployConfig h2 = (count_events is_setDeployConfig h1 + 1)%nat).
Proof.
  split; intros h1 h2 r.
  - apply (resolution_writes_config world_legacy_config [] h1 h2 true config_resolved r);
      reflexivity.
  - apply (resolution_writes_config world_new_app [] h1 h2 false config_unset r);
      reflexivity.
Defined.

(** ** [validateGitHubLink] with a configured source *)

Lemma settingsLink_existing (env : Env) (workspace : WorkspaceRef)
      (project : GetProjectResponse) (h : Trace) :
  settingsLink env (Existing workspace project) h = (Ret (settingsPage env workspace project), h).
Proof.
  reflexivity.
Qed.

(** Where [validateGitHubLink] gets to the configured source. *)
Lemma validateGitHubLink_configured (env : Env) (fuel : nat) (workspace : WorkspaceRef)
      (project : GetProjectResponse) (source : ProjectSource) (local : LocalRepository)
      (h h1 : Trace) :
  p_source project = Some source ->
  Js.truthy (p_build_environment_id project) = true ->
  readLocalRepository env h = (Ret local, h1) ->
  validateGitHubLink env fuel (Existing workspace project) h
  = checkConfiguredSource env (Existing workspace project) source
                          (local_branch local) (local_github local) h1.
Proof.
  intros Source BuildEnv Local. unfold validateGitHubLink.
  rewrite BuildEnv. change (negb true) with false. cbv iota.
  rewrite (bind_run _ _ _ _ _ Local), Source. reflexivity.
Qed.

(** The last step of [checkConfiguredSource]. *)
Lemma checkAccess_run (env : Env) (workspace : WorkspaceRef) (project : GetProjectResponse)
      (source : ProjectSource) (h : Trace) :
  (remoteAuthedRepo <- getGitHubRepository env (ByProviderId (src_provider_id source)) ;;
   match remoteAuthedRepo with
   | None =>
       emit (EvConsoleLog (src_provider_id source ++ " null")%string) ;;
       where_ <- settingsLink env (Existing workspace project) ;;
       throw (cliError ("Cannot access configured repository; check build settings on "
                        ++ where_)%string)
   | Some _ => ret tt
   end)%deploy h
  = match accessOf env source h with
    | Resolves (Some _) => (Ret tt, h ++ [lookupConfigured source])
    | Resolves None =>
        (Throw (cliError ("Cannot access configured repository; check build settings on "
                          ++ settingsPage env workspace project)%string),
         h ++ [lookupConfigured source; EvConsoleLog (src_provider_id source ++ " null")%string])
    | Rejects e => (Throw e, h ++ [lookupConfigured source])
    end.
Proof.
  unfold accessOf, lookupConfigured, getGitHubRepository.
  unfold bind at 1. rewrite await_run.
  destruct (getGitHubRepository_at env (List.length h) (ByProviderId (src_provider_id source)))
    as [[remote|]|e]; try reflexivity.
  unfold bind, emit, perform. rewrite settingsLink_existing. unfold throw.
  now rewrite <- app_assoc.
Qed.

(** C9: when the project has a source configured and the lookup of the
    local repository by owner and name gave [null], [validateGitHubLink]
    compares neither the provider id nor the branch: whatever they are, the
    outcome is decided by the lookup of the configured repository by its
    provider id alone. *)
Theorem validateGitHubLink_unknown_local (env : Env) (fuel : nat) (workspace : WorkspaceRef)
        (project : GetProjectResponse) (source : ProjectSource) (local : LocalRepository)
        (h h1 : Trace) :
  p_source project = Some source ->
  Js.truthy (p_build_environment_id project) = true ->
  readLocalRepository env h = (Ret local, h1) ->
  local_github local = None ->
  validateGitHubLink env fuel (Existing workspace project) h
  = match accessOf env source h1 with
    | Resolves (Some _) => (Ret tt, h1 ++ [lookupConfigured source])
    | Resolves None =>
        (Throw (cliError ("Cannot access configured repository; check build settings on "
                          ++ settingsPage env workspace project)%string),
         h1 ++ [lookupConfigured source; EvConsoleLog (src_provider_id source ++ " null")%string])
    | Rejects e => (Throw e, h1 ++ [lookupConfigured source])
    end.
Proof.
  intros Source BuildEnv Local Unknown.
  rewrite (validateGitHubLink_configured env fuel workspace project source local h h1
                                         Source BuildEnv Local).
  unfold checkConfiguredSource. rewrite Unknown.
  apply checkAccess_run.
Qed.

Lemma validateGitHubLink_unknown_local_witness :
  validateGitHubLink world_unknown_local 0
                     (Existing (workspaceRef mockWorkspace) (mockProject (Some mockSource))) []
  = (Ret tt, trace_local ++ [lookupConfigured mockSource]).
Proof.
  apply (validateGitHubLink_unknown_local
           world_unknown_local 0 (workspaceRef mockWorkspace) (mockProject (Some mockSource))
           mockSource local_unknown [] trace_local);
    reflexivity.
Defined.




(** The whole of [startNewDeploy] on such a project: the deploy fails in
    [validateGitHubLink], and no build has been triggered. *)
Example deploy_from_feature_branch_triggers_no_build :
  startNewDeploy world_deploy_from_feature_branch 10 []
  = (Throw (cliError "Configured branch does not match local branch; check build settings on https://observablehq.com/projects/@mock-user-ws/my-app/settings"),
     [EvGetDeployConfig;
      EvGetProject "mock-user-ws" "my-app";
      EvLog Info "Deploying to My App (my-app) in the @mock-user-ws workspace.";
      EvSetDeployConfig config_continuous;
      EvExistsSync ".git";
      EvExec "git remote -v";
      EvExec "git rev-parse --abbrev-ref HEAD";
      EvGetGitHubRepository (ByName "observablehq" "framework")])
  /\ count_events is_buildTrigger (snd (startNewDeploy world_deploy_from_feature_branch 10 []))
     = 0%nat.
Proof. split; reflexivity. Qed.

(** ** [uploadFiles] *)

Lemma posted_app (a b : Trace) : posted (a ++ b) = posted a ++ posted b.
Proof. unfold posted. apply flat_map_app. Qed.

Lemma rateLimited_iff (l : list string) : rateLimited l = (300 <? List.length l)%nat.
Proof.
  unfold rateLimited, RATE_LIMIT_THRESHOLD.
  destruct (Nat.leb_spec (List.length l) 300), (Nat.ltb_spec 300 (List.length l));
    simpl; try reflexivity; lia.
Qed.

Lemma uploadFile_run (env : Env) (deployId : string) (toUpload : list string)
      (path : string) (i : nat) (h : Trace) :
  exists o,
    uploadFile env deployId toUpload path i h
    = (o, h ++ uploadEvents env deployId toUpload (i, path))
    /\ o <> OutOfFuel
    /\ ((forall t fullPath, postDeployFile_at env t deployId fullPath path = Resolves tt) ->
        o = Ret tt).
Proof.
  unfold uploadFile, uploadEvents, waitForRateLimit, postDeployFile.
  rewrite rateLimited_iff. simpl fst. simpl snd.
  destruct (300 <? List.length toUpload)%nat;
    unfold bind, emit, perform, ret, await; simpl app; rewrite <- ?app_assoc; simpl app;
    match goal with
    | |- context [postDeployFile_at env ?t deployId ?f path] =>
        destruct (postDeployFile_at env t deployId f path) as [[]|e] eqn:Posted
    end;
    eexists; (split; [reflexivity | split; [discriminate | intros All]]);
    try reflexivity; rewrite All in Posted; discriminate.
Qed.

Lemma posted_uploadEvents (env : Env) (deployId : string) (toUpload : list string)
      (tasks : list (nat * string)) :
  posted (flat_map (uploadEvents env deployId toUpload) tasks) = map snd tasks.
Proof.
  induction tasks as [|task rest IH]; [reflexivity|].
  simpl. rewrite posted_app, IH. unfold uploadEvents.
  destruct (300 <? List.length toUpload)%nat; reflexivity.
Qed.

Lemma indexed_paths (from : nat) (files : list string) : map snd (indexed from files) = files.
Proof.
  unfold indexed. revert from. induction files as [|f rest IH]; intros from; simpl;
    [reflexivity | now rewrite IH].
Qed.

Lemma indexed_cons (from : nat) (f : string) (rest : list string) :
  indexed from (f :: rest) = (from, f) :: indexed (S from) rest.
Proof. reflexivity. Qed.

(** The upload phase starts the tasks in order; it stops after the first
    one that fails. *)
Lemma uploads_run (env : Env) (deployId : string) (toUpload files : list string) :
  forall (from : nat) (h : Trace),
  exists started o,
    runAllFrom from (uploadFile env deployId toUpload) files h
    = (o, h ++ flat_map (uploadEvents env deployId toUpload) (firstn started (indexed from files)))
    /\ (started <= List.length files)%nat
    /\ o <> OutOfFuel
    /\ ((exists r, o = Ret r) -> started = List.length files)
    /\ ((forall t fullPath path, postDeployFile_at env t deployId fullPath path = Resolves tt) ->
        exists r, o = Ret r).
Proof.
  induction files as [|f rest IH]; intros from h.
  - exists 0%nat, (Ret []). simpl. rewrite app_nil_r.
    split; [reflexivity | split; [lia | split; [discriminate | split; eauto]]].
  - simpl runAllFrom. rewrite indexed_cons.
    destruct (uploadFile_run env deployId toUpload f from h) as (o1 & Run1 & Fuel1 & Ok1).
    unfold bind at 1. rewrite Run1.
    destruct o1 as [[]|e|].
    + destruct (IH (S from) (h ++ uploadEvents env deployId toUpload (from, f)))
        as (started & o & Run & Bound & Fuel & AllStarted & Ok).
      unfold bind at 1. rewrite Run.
      exists (S started).
      destruct o as [r|e|].
      * exists (Ret (tt :: r)). simpl. rewrite <- app_assoc.
        split; [reflexivity | split; [lia | split; [discriminate | split]]].
        -- intros _. rewrite AllStarted; eauto.
        -- eauto.
      * exists (Throw e). simpl. rewrite <- app_assoc.
        split; [reflexivity | split; [lia | split; [discriminate | split]]].
        -- intros (r & E). discriminate.
        -- intros All. destruct (Ok All) as (r & E). discriminate.
      * now destruct Fuel.
    + exists 1%nat, (Throw e). simpl. rewrite app_nil_r.
      split; [reflexivity | split; [lia | split; [discriminate | split]]].
      * intros (r & E). discriminate.
      * intros All. specialize (Ok1 (fun t fp => All t fp f)). discriminate.
    + now destruct Fuel1.
Qed.

Lemma no_post_events (evs : Trace) :
  count_events is_postDeployFile evs = 0%nat -> posted evs = [].
Proof.
  unfold count_events. induction evs as [|ev rest IH]; [reflexivity|].
  simpl. destruct ev; simpl; try exact IH. discriminate.
Qed.

Lemma quiet_hashing (env : Env) (files : list string) :
  forall from, quiet is_postDeployFile (runAllFrom from (hashFile env) files).
Proof.
  induction files as [|f rest IH]; intros from; simpl.
  - apply quiet_ret.
  - apply quiet_bind; [unfold hashFile; quiet_steps|]. intros info.
    apply quiet_bind; [apply IH|]. intros infos. apply quiet_ret.
Qed.

Lemma quiet_sendManifest (env : Env) (deployId : string) (files : list string) :
  quiet is_postDeployFile (sendManifest env deployId files).
Proof.
  unfold sendManifest, runAllWithConcurrencyLimit.
  apply quiet_bind; [quiet_steps|]. intros _.
  apply quiet_bind; [quiet_steps|]. intros _.
  apply quiet_bind; [apply quiet_hashing|]. intros infos.
  quiet_steps.
Qed.

Lemma fileErrors_none (instructions : ManifestResponse) :
  existsb (fun i => (fi_status i =? "error")%string) (mr_files instructions) = false ->
  fileErrors instructions = [].
Proof.
  unfold fileErrors. induction (mr_files instructions) as [|i rest IH]; [reflexivity|].
  simpl. destruct (fi_status i =? "error")%string; [discriminate | exact IH].
Qed.

Lemma fileErrors_some (instructions : ManifestResponse) :
  existsb (fun i => (fi_status i =? "error")%string) (mr_files instructions) = true ->
  exists e rest, fileErrors instructions = e :: rest.
Proof.
  unfold fileErrors. induction (mr_files instructions) as [|i rest IH]; [discriminate|].
  simpl. destruct (fi_status i =? "error")%string; [eauto | exact IH].
Qed.

(** A rejected manifest: the deploy fails, after at most the report of
    the file errors. *)
Lemma followInstructions_rejected (env : Env) (deployId : string) (files : list string)
      (instructions : ManifestResponse) (h : Trace) :
  rejected instructions = true ->
  exists report,
    followInstructions env deployId files instructions h
    = (Throw (cliError (rejectionMessage instructions)), h ++ report)
    /\ posted report = [].
Proof.
  unfold rejected, followInstructions. intros Rejected.
  destruct (existsb (fun i => (fi_status i =? "error")%string) (mr_files instructions))
    eqn:Errors.
  - destruct (fileErrors_some instructions Errors) as (e & rest & ->).
    eexists. unfold bind, log, emit, perform. simpl. rewrite orb_true_r.
    split; reflexivity.
  - rewrite (fileErrors_none instructions Errors).
    rewrite orb_false_r in Rejected. rewrite Rejected.
    exists []. unfold bind, ret. simpl. rewrite app_nil_r. split; reflexivity.
Qed.

(** An accepted manifest: the upload tasks in order, then the summary when
    all of them succeeded. *)
Lemma followInstructions_accepted (env : Env) (deployId : string) (files : list string)
      (instructions : ManifestResponse) (h : Trace) :
  rejected instructions = false ->
  let toUpload := filesToUpload instructions in
  exists started o summary,
    followInstructions env deployId files instructions h
    = (o, h ++ flat_map (uploadEvents env deployId toUpload) (firstn started (indexed 0 toUpload))
            ++ summary)
    /\ (started <= List.length toUpload)%nat
    /\ posted summary = []
    /\ count_events is_rateLimiterWait summary = 0%nat
    /\ o <> OutOfFuel
    /\ (o = Ret tt -> started = List.length toUpload)
    /\ ((forall t fullPath path, postDeployFile_at env t deployId fullPath path = Resolves tt) ->
        o = Ret tt).
Proof.
  intros Accepted toUpload. unfold rejected in Accepted. unfold followInstructions.
  apply orb_false_elim in Accepted. destruct Accepted as (Status & Errors).
  rewrite (fileErrors_none instructions Errors), Status. simpl.
  unfold bind at 1. unfold ret at 1. unfold runAllWithConcurrencyLimit.
  destruct (uploads_run env deployId toUpload toUpload 0 h)
    as (started & o & Run & Bound & Fuel & AllStarted & Ok).
  fold toUpload. unfold bind at 1. rewrite Run.
  destruct o as [r|e|].
  - exists started, (Ret tt). eexists. unfold emit, perform.
    split; [rewrite <- app_assoc; reflexivity|].
    split; [exact Bound|]. split; [reflexivity|]. split; [reflexivity|].
    split; [discriminate|]. split; eauto.
  - exists started, (Throw e), []. rewrite app_nil_r.
    split; [reflexivity|]. split; [exact Bound|]. split; [reflexivity|]. split; [reflexivity|].
    split; [discriminate|]. split; [discriminate|].
    intros All. destruct (Ok All) as (r & E). discriminate.
  - now destruct Fuel.
Qed.

(** C3: once the server has answered the manifest, [uploadFiles] fails
    with ["Server rejected deploy manifest"], followed by the detail the
    server supplied, if the response status is [error] or some file
    instruction has the status [error], and no file is uploaded; otherwise
    the files it uploads are the files marked [upload], in order, and no
    others: all of them when it returns, and it returns when every upload
    succeeds.  Nothing is uploaded before the server's answer either. *)
Theorem uploadFiles_follows_manifest (env : Env) (deployId : string) (files : list string)
        (instructions : ManifestResponse) (h h1 : Trace) :
  sendManifest env deployId files h = (Ret instructions, h1) ->
  let run := uploadFiles env deployId files h in
  let marked := map fi_path (filter (fun i => (fi_status i =? "upload")%string)
                                    (mr_files instructions)) in
  exists evs,
    snd run = h ++ evs
    /\ (rejected instructions = true ->
        fst run = Throw (cliError ("Server rejected deploy manifest"
                                   ++ match mr_detail instructions with
                                      | Some d => if (d =? "")%string then "" else ": " ++ d
                                      | None => ""
                                      end)%string)
        /\ posted evs = [])
    /\ (rejected instructions = false ->
        (exists started, posted evs = firstn started marked)
        /\ (fst run = Ret tt -> posted evs = marked)
        /\ ((forall t fullPath path,
                postDeployFile_at env t deployId fullPath path = Resolves tt) ->
            fst run = Ret tt)).
Proof.
  intros Sent run marked. subst run.
  unfold uploadFiles. rewrite (bind_run _ _ _ _ _ Sent).
  destruct (quiet_sendManifest env deployId files h) as (evs0 & Added & Quiet).
  rewrite Sent in Added. simpl in Added. cbv beta in Quiet. subst h1.
  apply no_post_events in Quiet.
  destruct (rejected instructions) eqn:Rejected.
  - destruct (followInstructions_rejected env deployId files instructions (h ++ evs0) Rejected)
      as (report & Run & NoPost).
    rewrite Run. exists (evs0 ++ report). simpl. rewrite app_assoc.
    split; [reflexivity|]. split; [| discriminate].
    intros _. split.
    + unfold rejectionMessage, Js.truthy, Js.show_nullable.
      destruct (mr_detail instructions) as [d|]; [destruct (d =? "")%string |]; reflexivity.
    + rewrite posted_app, Quiet, NoPost. reflexivity.
  - destruct (followInstructions_accepted env deployId files instructions (h ++ evs0) Rejected)
      as (started & o & summary & Run & Bound & NoPost & _ & Fuel & AllStarted & Ok).
    rewrite Run. eexists. simpl. rewrite <- !app_assoc.
    split; [reflexivity|]. split; [discriminate|].
    intros _.
    assert (Posted : posted (evs0 ++ flat_map (uploadEvents env deployId (filesToUpload instructions))
                                              (firstn started (indexed 0 (filesToUpload instructions)))
                                  ++ summary)
                     = firstn started marked).
    { rewrite !posted_app, Quiet, NoPost, posted_uploadEvents, app_nil_r. simpl.
      rewrite <- firstn_map, indexed_paths. reflexivity. }
    rewrite Posted. split; [eauto|]. split; [| exact Ok].
    intros Returned. rewrite (AllStarted Returned). apply firstn_all.
Qed.

Lemma uploadFiles_follows_manifest_witness :
  (fst (uploadFiles (world_upload manifest_accepted) "D1" mockBuildFiles []) = Ret tt
   /\ posted (snd (uploadFiles (world_upload manifest_accepted) "D1" mockBuildFiles []))
      = ["index.html"; "data.csv"])
  /\ (fst (uploadFiles (world_upload manifest_rejected) "D1" mockBuildFiles [])
      = Throw (cliError "Server rejected deploy manifest: quota exceeded")
      /\ posted (snd (uploadFiles (world_upload manifest_rejected) "D1" mockBuildFiles []))
         = []).
Proof.
  split.
  - destruct (uploadFiles_follows_manifest
                (world_upload manifest_accepted) "D1" mockBuildFiles manifest_accepted []
                (snd (sendManifest (world_upload manifest_accepted) "D1" mockBuildFiles []))
                eq_refl) as (evs & Added & _ & Accepted).
    destruct (Accepted eq_refl) as (_ & All & _).
    split; [reflexivity|]. rewrite Added. apply (All eq_refl).
  - destruct (uploadFiles_follows_manifest
                (world_upload manifest_rejected) "D1" mockBuildFiles manifest_rejected []
                (snd (sendManifest (world_upload manifest_rejected) "D1" mockBuildFiles []))
                eq_refl) as (evs & Added & Rejected & _).
    destruct (Rejected eq_refl) as (Failed & NoPost).
    split; [exact Failed|]. rewrite Added. exact NoPost.
Defined.

(** ** The rate limiter in the upload phase *)

Lemma waits_uploadEvents (env : Env) (deployId : string) (toUpload : list string)
      (tasks : list (nat * string)) :
  count_events is_rateLimiterWait (flat_map (uploadEvents env deployId toUpload) tasks)
  = (if (300 <? List.length toUpload)%nat then List.length tasks else 0%nat).
Proof.
  induction tasks as [|task rest IH].
  - simpl. now destruct (300 <? List.length toUpload)%nat.
  - simpl flat_map. rewrite count_events_app, IH. unfold uploadEvents.
    destruct (300 <? List.length toUpload)%nat; reflexivity.
Qed.

(** C4: in the upload phase every upload that starts is one task of three
    interactions in the case of more than 300 files to upload (the wait on
    the rate limiter, the progress message, the upload) and of two
    interactions otherwise (no wait).  So the rate limiter is waited on
    once per started upload if the number of files to upload exceeds 300,
    and never otherwise: never with exactly 300 files, once per upload with
    301. *)
Theorem uploads_wait_above_threshold (env : Env) (deployId : string) (files : list string)
        (instructions : ManifestResponse) (h : Trace) :
  rejected instructions = false ->
  let toUpload := filesToUpload instructions in
  let run := followInstructions env deployId files instructions h in
  exists started summary,
    snd run = h ++ flat_map (uploadEvents env deployId toUpload)
                            (firstn started (indexed 0 toUpload))
                ++ summary
    /\ (started <= List.length toUpload)%nat
    /\ (fst run = Ret tt -> started = List.length toUpload)
    /\ posted summary = []
    /\ count_events is_rateLimiterWait summary = 0%nat
    /\ (forall task,
           hd_error (uploadEvents env deployId toUpload task) = Some EvRateLimiterWait
           <-> (300 < List.length toUpload)%nat)
    /\ (forall evs, snd run = h ++ evs ->
                    count_events is_rateLimiterWait evs
                    = (if (300 <? List.length toUpload)%nat then started else 0%nat))
    /\ (List.length toUpload = 300%nat ->
        forall evs, snd run = h ++ evs -> count_events is_rateLimiterWait evs = 0%nat)
    /\ (List.length toUpload = 301%nat ->
        forall evs, snd run = h ++ evs -> count_events is_rateLimiterWait evs = started).
Proof.
  intros Accepted toUpload run. subst run.
  destruct (followInstructions_accepted env deployId files instructions h Accepted)
    as (started & o & summary & Run & Bound & NoPost & NoWait & Fuel & AllStarted & Ok).
  fold toUpload in Run, Bound, AllStarted. rewrite Run. simpl fst. simpl snd.
  exists started, summary.
  assert (Waits : forall evs,
             h ++ flat_map (uploadEvents env deployId toUpload)
                           (firstn started (indexed 0 toUpload)) ++ summary = h ++ evs ->
             count_events is_rateLimiterWait evs
             = (if (300 <? List.length toUpload)%nat then started else 0%nat)).
  { intros evs Same. apply app_inv_head in Same. subst evs.
    rewrite count_events_app, NoWait, waits_uploadEvents, length_firstn.
    unfold indexed. rewrite length_combine, length_seq.
    destruct (300 <? List.length toUpload)%nat; lia. }
  split; [reflexivity|]. split; [exact Bound|]. split; [exact AllStarted|].
  split; [exact NoPost|]. split; [exact NoWait|]. split; [| split; [exact Waits | split]].
  - intros task. unfold uploadEvents.
    destruct (Nat.ltb_spec 300 (List.length toUpload)) as [Above|Below]; simpl;
      split; intros Head; try reflexivity; try assumption; try discriminate; lia.
  - intros Exactly evs Same. rewrite (Waits evs Same), Exactly. reflexivity.
  - intros Exactly evs Same. rewrite (Waits evs Same), Exactly. reflexivity.
Qed.

Lemma uploads_wait_above_threshold_witness :
  let run n := followInstructions world_uploading "D1" [] (manifest_of n) [] in
  (fst (run 300%nat) = Ret tt /\ count_events is_rateLimiterWait (snd (run 300%nat)) = 0%nat)
  /\ (fst (run 301%nat) = Ret tt
      /\ count_events is_rateLimiterWait (snd (run 301%nat)) = 301%nat).
Proof.
  intros run. split.
  - destruct (uploads_wait_above_threshold world_uploading "D1" [] (manifest_of 300) [] eq_refl)
      as (started & summary & _ & _ & _ & _ & _ & _ & _ & None300 & _).
    split; [vm_compute; reflexivity|].
    apply None300; [vm_compute; reflexivity | reflexivity].
  - destruct (uploads_wait_above_threshold world_uploading "D1" [] (manifest_of 301) [] eq_refl)
      as (started & summary & _ & _ & All & _ & _ & _ & _ & _ & Each301).
    assert (Returned : fst (run 301%nat) = Ret tt) by (vm_compute; reflexivity).
    split; [exact Returned|].
    rewrite (Each301 (eq_refl : List.length (filesToUpload (manifest_of 301)) = 301%nat)
                     (snd (run 301%nat)) eq_refl).
    rewrite (All Returned). vm_compute. reflexivity.
Defined.

(** ** The polling loops *)

Lemma pollLoop_expired (env : Env) (fuel : nat) (deployId : string) (pollExpiration : Z)
      (deployInfo : option GetDeployResponse) (h : Trace) :
  pollExpiration < Date_now_at env (List.length h) ->
  pollLoop env (S fuel) deployId pollExpiration deployInfo h
  = (Throw (cliError ("Deploy failed to process on server: status = "
                      ++ show_status deployInfo)%string),
     h ++ [EvDateNow; EvSpinnerStop "Deploy timed out"]).
Proof.
  intros Late. simpl. unfold bind, Date_now, perform.
  apply Z.gtb_lt in Late. rewrite Late.
  unfold emit, perform, throw. now rewrite <- app_assoc.
Qed.

Lemma pollLoop_continues (env : Env) (fuel : nat) (deployId : string) (pollExpiration : Z)
      (deployInfo : option GetDeployResponse) (info : GetDeployResponse) (h : Trace) :
  Date_now_at env (List.length h) <= pollExpiration ->
  getDeploy_at env (S (List.length h)) deployId = Resolves info ->
  d_status info = "created" \/ d_status info = "pending" ->
  pollLoop env (S fuel) deployId pollExpiration deployInfo h
  = pollLoop env fuel deployId pollExpiration (Some info)
             (h ++ [EvDateNow; EvGetDeploy deployId; EvSleep (pollInterval env)]).
Proof.
  intros Early Polled Status. simpl. unfold bind at 1. unfold Date_now, perform.
  assert (NotLate : (Date_now_at env (List.length h) >? pollExpiration) = false).
  { destruct (Z.gtb_spec (Date_now_at env (List.length h)) pollExpiration); [lia | reflexivity]. }
  rewrite NotLate. unfold bind at 1. unfold getDeploy. rewrite await_run, length_snoc, Polled.
  assert (Goes : ((d_status info =? "created") || (d_status info =? "pending"))%string = true).
  { destruct Status as [-> | ->]; reflexivity. }
  rewrite Goes. unfold bind, sleep, emit, perform.
  now rewrite <- !app_assoc.
Qed.

Lemma cloudBuild_loop_expired (env : Env) (fuel : nat) (workspace : WorkspaceRef)
      (project : GetProjectResponse) (pollExpiration : Z) (h : Trace) :
  pollExpiration < Date_now_at env (List.length h) ->
  cloudBuild_loop env (S fuel) workspace project pollExpiration h
  = (Throw (cliError "Requesting deploy failed"),
     h ++ [EvDateNow; EvSpinnerStop "Requesting deploy timed out."]).
Proof.
  intros Late. simpl. unfold bind, Date_now, perform.
  apply Z.gtb_lt in Late. rewrite Late.
  unfold emit, perform, throw. now rewrite <- app_assoc.
Qed.

Lemma cloudBuild_loop_continues (env : Env) (fuel : nat) (workspace : WorkspaceRef)
      (project polled : GetProjectResponse) (pollExpiration : Z) (h : Trace) :
  Date_now_at env (List.length h) <= pollExpiration ->
  getProject_at env (S (List.length h)) (ws_login workspace) (p_slug project) = Resolves polled ->
  p_latestCreatedDeployId polled = p_latestCreatedDeployId project ->
  cloudBuild_loop env (S fuel) workspace project pollExpiration h
  = cloudBuild_loop env fuel workspace project pollExpiration
                    (h ++ [EvDateNow; EvGetProject (ws_login workspace) (p_slug project);
                           EvSleep (pollInterval env)]).
Proof.
  intros Early Polled Same. simpl. unfold bind at 1. unfold Date_now, perform.
  assert (NotLate : (Date_now_at env (List.length h) >? pollExpiration) = false).
  { destruct (Z.gtb_spec (Date_now_at env (List.length h)) pollExpiration); [lia | reflexivity]. }
  rewrite NotLate. unfold bind at 1. unfold getProject. rewrite await_run, length_snoc, Polled.
  rewrite Same.
  assert (Unchanged : match p_latestCreatedDeployId project, p_latestCreatedDeployId project with
                      | Some a, Some b => (a =? b)%string
                      | None, None => true
                      | _, _ => false
                      end = true).
  { destruct (p_latestCreatedDeployId project); [apply String.eqb_refl | reflexivity]. }
  rewrite Unchanged. change (negb true) with false. cbv iota.
  unfold bind, sleep, emit, perform. now rewrite <- !app_assoc.
Qed.

(** C5, as stated, fails for the cloud-build loop: its timeout error is
    the fixed message "Requesting deploy failed", which does not name the
    last value the poll saw ([D0] here). *)
Lemma cloudBuild_timeout_names_no_status :
  cloudBuild world_build_never_starts 2
             (Existing (workspaceRef mockWorkspace) (mockProject (Some mockSource))) []
  = (Throw (cliError "Requesting deploy failed"),
     [EvPostProjectBuild "P1"; EvSpinnerStart "Requesting deploy"; EvDateNow;
      EvDateNow; EvGetProject "mock-user-ws" "my-app"; EvSleep 5000;
      EvDateNow; EvSpinnerStop "Requesting deploy timed out."])
  /\ p_latestCreatedDeployId (mockProject (Some mockSource)) = Some "D0"
  /\ Js.includes "D0" "Requesting deploy failed" = false.
Proof. split; [reflexivity | split; reflexivity]. Qed.

(** C5, amended: both loops compute their deadline once, from the clock
    read at loop entry, and every iteration that continues passes the same
    deadline on.  An iteration that starts with the clock past the deadline
    (the first one included) fails without invoking the polled action: the
    processing-completion loop with the error
    "Deploy failed to process on server: status = <last status>"
    ([undefined] before the first poll), the cloud-build loop with the
    fixed error "Requesting deploy failed". *)
Theorem polling_deadline_fixed_at_entry (env : Env) (fuel : nat) (h : Trace) :
  (forall deployId,
      pollForProcessingCompletion env fuel deployId h
      = pollLoop env fuel deployId (Date_now_at env (S (List.length h)) + DEPLOY_POLL_MAX_MS) None
                 (h ++ [EvSpinnerStart "Server processing deploy"; EvDateNow]))
  /\ (forall deployId pollExpiration deployInfo,
         pollExpiration < Date_now_at env (List.length h) ->
         pollLoop env (S fuel) deployId pollExpiration deployInfo h
         = (Throw (cliError ("Deploy failed to process on server: status = "
                             ++ match deployInfo with
                                | Some d => d_status d
                                | None => "undefined"
                                end)%string),
            h ++ [EvDateNow; EvSpinnerStop "Deploy timed out"]))
  /\ (forall deployId pollExpiration deployInfo info,
         Date_now_at env (List.length h) <= pollExpiration ->
         getDeploy_at env (S (List.length h)) deployId = Resolves info ->
         d_status info = "created" \/ d_status info = "pending" ->
         pollLoop env (S fuel) deployId pollExpiration deployInfo h
         = pollLoop env fuel deployId pollExpiration (Some info)
                    (h ++ [EvDateNow; EvGetDeploy deployId; EvSleep (pollInterval env)]))
  /\ (forall workspace project,
         postProjectBuild_at env (List.length h) (p_id project) = Resolves tt ->
         cloudBuild env fuel (Existing workspace project) h
         = cloudBuild_loop env fuel workspace project
                           (Date_now_at env (S (S (List.length h))) + DEPLOY_POLL_MAX_MS)
                           (h ++ [EvPostProjectBuild (p_id project);
                                  EvSpinnerStart "Requesting deploy"; EvDateNow]))
  /\ (forall workspace project pollExpiration,
         pollExpiration < Date_now_at env (List.length h) ->
         cloudBuild_loop env (S fuel) workspace project pollExpiration h
         = (Throw (cliError "Requesting deploy failed"),
            h ++ [EvDateNow; EvSpinnerStop "Requesting deploy timed out."]))
  /\ (forall workspace project polled pollExpiration,
         Date_now_at env (List.length h) <= pollExpiration ->
         getProject_at env (S (List.length h)) (ws_login workspace) (p_slug project)
         = Resolves polled ->
         p_latestCreatedDeployId polled = p_latestCreatedDeployId project ->
         cloudBuild_loop env (S fuel) workspace project pollExpiration h
         = cloudBuild_loop env fuel workspace project pollExpiration
                           (h ++ [EvDateNow; EvGetProject (ws_login workspace) (p_slug project);
                                  EvSleep (pollInterval env)])).
Proof.
  split; [| split; [| split; [| split; [| split]]]].
  - intros deployId. unfold pollForProcessingCompletion, bind, emit, Date_now, perform.
    now rewrite length_snoc, <- app_assoc.
  - intros. now apply pollLoop_expired.
  - intros. now apply pollLoop_continues.
  - intros workspace project Triggered.
    unfold cloudBuild, postProjectBuild. unfold bind at 1. rewrite await_run, Triggered.
    unfold bind, emit, Date_now, perform. now rewrite !length_snoc, <- !app_assoc.
  - intros. now apply cloudBuild_loop_expired.
  - intros. now eapply cloudBuild_loop_continues; eauto.
Qed.

Lemma polling_deadline_fixed_at_entry_witness :
  pollForProcessingCompletion world_processing_stalls 2 "D1" []
  = (Throw (cliError "Deploy failed to process on server: status = pending"),
     [EvSpinnerStart "Server processing deploy"; EvDateNow;
      EvDateNow; EvGetDeploy "D1"; EvSleep 5000;
      EvDateNow; EvSpinnerStop "Deploy timed out"])
  /\ pollForProcessingCompletion world_clock_jumps 1 "D1" []
     = (Throw (cliError "Deploy failed to process on server: status = undefined"),
        [EvSpinnerStart "Server processing deploy"; EvDateNow;
         EvDateNow; EvSpinnerStop "Deploy timed out"])
  /\ cloudBuild_loop world_build_never_starts 1 (workspaceRef mockWorkspace)
                     (mockProject (Some mockSource)) 301000
                     [EvPostProjectBuild "P1"; EvSpinnerStart "Requesting deploy"; EvDateNow]
     = cloudBuild_loop world_build_never_starts 0 (workspaceRef mockWorkspace)
                       (mockProject (Some mockSource)) 301000
                       [EvPostProjectBuild "P1"; EvSpinnerStart "Requesting deploy"; EvDateNow;
                        EvDateNow; EvGetProject "mock-user-ws" "my-app"; EvSleep 5000].
Proof.
  split; [| split].
  - destruct (polling_deadline_fixed_at_entry world_processing_stalls 2 []) as (Entry & _).
    rewrite (Entry "D1").
    destruct (polling_deadline_fixed_at_entry
                world_processing_stalls 1 [EvSpinnerStart "Server processing deploy"; EvDateNow])
      as (_ & _ & Continues & _).
    rewrite (Continues "D1" _ None (mockDeploy "pending"));
      [| vm_compute; discriminate | reflexivity | right; reflexivity].
    destruct (polling_deadline_fixed_at_entry
                world_processing_stalls 0
                [EvSpinnerStart "Server processing deploy"; EvDateNow;
                 EvDateNow; EvGetDeploy "D1"; EvSleep 5000])
      as (_ & Expired & _).
    apply (Expired "D1" _ (Some (mockDeploy "pending"))). vm_compute. reflexivity.
  - destruct (polling_deadline_fixed_at_entry world_clock_jumps 1 []) as (Entry & _).
    rewrite (Entry "D1").
    destruct (polling_deadline_fixed_at_entry
                world_clock_jumps 0 [EvSpinnerStart "Server processing deploy"; EvDateNow])
      as (_ & Expired & _).
    apply (Expired "D1" _ None). vm_compute. reflexivity.
  - destruct (polling_deadline_fixed_at_entry
                world_build_never_starts 0
                [EvPostProjectBuild "P1"; EvSpinnerStart "Requesting deploy"; EvDateNow])
      as (_ & _ & _ & _ & _ & Continues).
    apply (Continues (workspaceRef mockWorkspace) (mockProject (Some mockSource))
                     (mockProject (Some mockSource)) 301000);
      [vm_compute; discriminate | reflexivity | reflexivity].
Defined.

(** ** The rebuild prompt of [getBuildFilePaths] *)

Lemma tryCatch_returns {A} (m : M A) (handler : Error -> M A) (h h' : Trace) (a : A) :
  m h = (Ret a, h') -> tryCatch m handler h = (Ret a, h').
Proof. intros E. unfold tryCatch. now rewrite E. Qed.

Lemma bind_extends {A B} (m : M A) (k : A -> M B) (h h' : Trace) (o : Outcome A) :
  m h = (o, h') ->
  (forall a, quiet nothing (k a)) ->
  exists rest, snd (bind m k h) = h' ++ rest.
Proof.
  intros Run Extends. unfold bind. rewrite Run. destruct o as [a|e|].
  - destruct (Extends a h') as (rest & Added & _). eauto.
  - exists []. simpl. now rewrite app_nil_r.
  - exists []. simpl. now rewrite app_nil_r.
Qed.

Lemma formatAge_run (env : Env) (age : Js.Num) (h : Trace) :
  exists s clock,
    formatAge env age h = (Ret s, h ++ clock)
    /\ count_events is_confirm clock = 0%nat.
Proof.
  unfold formatAge.
  destruct (Js.lt age (Js.Finite (1000 * 60)));
    [exists (plural (Js.roundDiv age 1000) "second"), []; now rewrite app_nil_r|].
  destruct (Js.lt age (Js.Finite (1000 * 60 * 60)));
    [exists (plural (Js.roundDiv age (1000 * 60)) "minute"), []; now rewrite app_nil_r|].
  destruct (Js.lt age (Js.Finite (1000 * 60 * 60 * 12)));
    [exists (plural (Js.roundDiv age (1000 * 60 * 60)) "hour"), []; now rewrite app_nil_r|].
  unfold bind, Date_now, perform. destruct age; eexists; exists [EvDateNow]; split; reflexivity.
Qed.

Lemma askToRebuild_run (env : Env) (h h2 h3 : Trace) (least most : Js.Num) :
  findLeastRecentBuildMtimeMs env h = (Ret least, h2) ->
  findMostRecentSourceMtimeMs env h2 = (Ret most, h3) ->
  let buildAge := Js.minus (Date_now_at env (List.length h3)) least in
  let suggested := Js.gt most least || Js.gt buildAge (Js.Finite BUILD_AGE_WARNING_MS) in
  exists note o,
    askToRebuild env h
    = (o, h3 ++ EvDateNow :: note ++ [EvConfirm rebuildQuestion (Some suggested)])
    /\ count_events is_confirm note = 0%nat
    /\ o <> OutOfFuel.
Proof.
  intros Least Most buildAge suggested. unfold askToRebuild.
  rewrite (bind_run _ _ _ _ _ Least), (bind_run _ _ _ _ _ Most).
  unfold bind at 1. unfold Date_now at 1, perform at 1. fold buildAge.
  destruct (formatAge_run env buildAge (h3 ++ [EvDateNow])) as (age & clock & Age & Quiet).
  subst suggested.
  destruct (Js.gt most least); cbn [orb].
  - unfold bind at 1 2. rewrite Age. unfold bind at 1 2. unfold log, emit, perform, ret.
    unfold bind, confirm, perform. fold rebuildQuestion.
    match goal with |- context [confirm_at env ?t ?q] => destruct (confirm_at env t q) end;
      (eexists (clock ++ [EvLog Warn _]); eexists; split;
       [rewrite <- !app_assoc; simpl; reflexivity
       | split; [rewrite count_events_app, Quiet; reflexivity | discriminate]]).
  - unfold bind at 1 2. rewrite Age. unfold bind at 1 2. unfold log, emit, perform, ret.
    unfold bind, confirm, perform. fold rebuildQuestion.
    match goal with |- context [confirm_at env ?t ?q] => destruct (confirm_at env t q) end;
      (eexists (clock ++ [EvLog Info _]); eexists; split;
       [rewrite <- !app_assoc; simpl; reflexivity
       | split; [rewrite count_events_app, Quiet; reflexivity | discriminate]]).
Qed.

Lemma findBuildFiles_extends (env : Env) : quiet nothing (findBuildFiles env).
Proof. unfold findBuildFiles. quiet_steps. Qed.

(** C6, as stated, fails twice.  With a build that is one second old and
    sources that are older than the build, the session is still asked
    whether to build again.  With a build that is ten minutes old and
    sources that are older than the build, the suggested answer is yes. *)
Lemma rebuild_prompt_counterexample :
  getBuildFilePaths (world_build 101000 50000) []
  = (Ret ["index.html"],
     [EvVisitFiles "dist"; EvVisitFiles "dist"; EvStat "dist/index.html"; EvVisitFiles "src";
      EvStat "src/index.md"; EvStat "src/.observablehq/cache"; EvDateNow;
      EvLog Info "You built this app 1 second ago.";
      EvConfirm rebuildQuestion (Some false)])
  /\ getBuildFilePaths (world_build 700000 50000) []
     = (Ret ["index.html"],
        [EvVisitFiles "dist"; EvVisitFiles "dist"; EvStat "dist/index.html"; EvVisitFiles "src";
         EvStat "src/index.md"; EvStat "src/.observablehq/cache"; EvDateNow;
         EvLog Info "You built this app 10 minutes ago.";
         EvConfirm rebuildQuestion (Some true)])
  /\ Js.gt (Js.Finite 50000) (Js.Finite 100000) = false
  /\ Js.gt (Js.minus 101000 (Js.Finite 100000)) (Js.Finite BUILD_AGE_WARNING_MS) = false.
Proof. split; [reflexivity | split; [reflexivity | split; reflexivity]]. Qed.

(** C6, amended: in an interactive session where a build exists and
    [force] is unset, [getBuildFilePaths] always asks whether to build
    again, whatever the modification times; the suggested answer is yes
    exactly when the most recent source modification time is strictly
    newer than the oldest build-output modification time, or the build is
    older than the warning age of five minutes. *)
Theorem rebuild_prompt_always_asked (env : Env) (h h1 h2 h3 : Trace) (files : list string)
        (least most : Js.Num) :
  force (options env) = None ->
  isTty env = true ->
  findBuildFiles env h = (Ret files, h1) ->
  findLeastRecentBuildMtimeMs env h1 = (Ret least, h2) ->
  findMostRecentSourceMtimeMs env h2 = (Ret most, h3) ->
  let buildAge := Js.minus (Date_now_at env (List.length h3)) least in
  let suggested := Js.gt most least || Js.gt buildAge (Js.Finite (1000 * 60 * 5)) in
  exists note rest,
    snd (getBuildFilePaths env h)
    = h3 ++ EvDateNow :: note
         ++ EvConfirm "Would you like to build again before deploying?" (Some suggested) :: rest
    /\ count_events is_confirm note = 0%nat.
Proof.
  intros Unforced Tty Found Least Most buildAge suggested.
  destruct (askToRebuild_run env h1 h2 h3 least most Least Most)
    as (note & o & Asked & Quiet & Fuel).
  fold buildAge in Asked. change (Js.Finite BUILD_AGE_WARNING_MS) with (Js.Finite (1000 * 60 * 5)) in Asked.
  fold suggested in Asked.
  exists note.
  unfold getBuildFilePaths. rewrite Unforced.
  erewrite bind_run;
    [| apply tryCatch_returns; erewrite bind_run; [reflexivity | exact Found]].
  cbn [is_forceBuild is_unforced negb andb]. rewrite Tty. cbv iota.
  match goal with
  | |- context [bind (askToRebuild env) ?k h1] =>
      destruct (bind_extends (askToRebuild env) k h1 _ _ Asked) as (rest & Added)
  end.
  - intros doBuild. apply quiet_bind.
    + destruct doBuild; [| apply quiet_ret].
      apply quiet_bind; [quiet_steps|]. intros _.
      apply quiet_bind; [quiet_steps|]. intros _.
      apply quiet_bind; [apply findBuildFiles_extends|]. intros rebuilt. apply quiet_ret.
    + intros [paths|]; quiet_steps.
  - exists rest. split; [| exact Quiet].
    rewrite Added. rewrite <- !app_assoc. simpl. now rewrite <- app_assoc.
Qed.

Lemma rebuild_prompt_always_asked_witness :
  exists note rest,
    snd (getBuildFilePaths (world_build 700000 50000) [])
    = [EvVisitFiles "dist"; EvVisitFiles "dist"; EvStat "dist/index.html"; EvVisitFiles "src";
       EvStat "src/index.md"; EvStat "src/.observablehq/cache"]
        ++ EvDateNow :: note
        ++ EvConfirm "Would you like to build again before deploying?" (Some true) :: rest
    /\ count_events is_confirm note = 0%nat.
Proof.
  apply (rebuild_prompt_always_asked
           (world_build 700000 50000) []
           [EvVisitFiles "dist"]
           [EvVisitFiles "dist"; EvVisitFiles "dist"; EvStat "dist/index.html"]
           [EvVisitFiles "dist"; EvVisitFiles "dist"; EvStat "dist/index.html";
            EvVisitFiles "src"; EvStat "src/index.md"; EvStat "src/.observablehq/cache"]
           ["index.html"] (Js.Finite 100000) (Js.Finite 50000));
    reflexivity.
Defined.

(** * Further properties of the orchestrator *)

(** ** [getDeployTarget]: from the persisted config to the target *)

Definition config_named : DeployConfig :=
  {| projectId := Some "P1"; projectSlug := Some "my-app";
     workspaceLogin := Some "mock-user-ws"; continuousDeployment := Some false |}.

(** The project named by the config is gone, and the session is not
    interactive. *)
Definition world_project_gone : Env :=
  scripted defaultOptions [mockWorkspace] false
           [Project (Rejects (HttpError 404 "Not Found" []))].

(** The server fails while the project is fetched. *)
Definition world_server_down : Env :=
  scripted defaultOptions [mockWorkspace] true
           [Project (Rejects (HttpError 503 "Service Unavailable" []))].

(** X1: where the persisted config names a workspace login and a project
    slug, [getDeployTarget] fetches that project and takes its owner as the
    workspace; a 404 from the fetch is swallowed and the prompts of
    [promptDeployTarget] take over; any other failure of the fetch
    propagates unchanged.  A config that lacks the login or the slug goes
    to the prompts without a fetch. *)
Theorem resolveTarget_fetches_or_prompts (env : Env) (c : DeployConfig) (h : Trace) :
  (forall login slug,
      workspaceLogin c = Some login -> projectSlug c = Some slug ->
      login <> EmptyString -> slug <> EmptyString ->
      resolveTarget env c h
      = match getProject_at env (List.length h) login slug with
        | Resolves project =>
            (Ret (Existing (p_owner project) project), h ++ [EvGetProject login slug])
        | Rejects (HttpError 404 msg codes) =>
            promptDeployTarget env (h ++ [EvGetProject login slug])
        | Rejects e => (Throw e, h ++ [EvGetProject login slug])
        end)
  /\ (Js.truthy (workspaceLogin c) && Js.truthy (projectSlug c) = false ->
      resolveTarget env c h = promptDeployTarget env h).
Proof.
  split.
  - intros login slug Login Slug NonEmptyLogin NonEmptySlug.
    unfold resolveTarget. rewrite Login, Slug.
    rewrite (string_eqb_false _ _ NonEmptyLogin), (string_eqb_false _ _ NonEmptySlug).
    cbn [negb andb]. unfold bind at 1. unfold tryCatch, bind at 1, getProject.
    rewrite await_run.
    destruct (getProject_at env (List.length h) login slug) as [project|e]; [reflexivity|].
    destruct e as [code msg codes| | |]; try reflexivity.
    cbn [isHttpError statusCode_is negb orb].
    destruct (Z.eqb_spec code 404) as [->|Other]; [reflexivity|].
    cbn [negb]. destruct code as [|code|code]; try reflexivity.
    repeat (destruct code as [code|code|]; try reflexivity).
    now destruct Other.
  - intros Missing. unfold resolveTarget, Js.truthy in *.
    destruct (workspaceLogin c) as [login|], (projectSlug c) as [slug|];
      try reflexivity.
    destruct (login =? "")%string, (slug =? "")%string; try discriminate; reflexivity.
Qed.

Lemma resolveTarget_fetches_or_prompts_witness :
  resolveTarget world_project_gone config_named []
  = (Throw (cliError "Deploy not configured."), [EvGetProject "mock-user-ws" "my-app"])
  /\ resolveTarget world_server_down config_named []
     = (Throw (HttpError 503 "Service Unavailable" []), [EvGetProject "mock-user-ws" "my-app"]).
Proof.
  split.
  - destruct (resolveTarget_fetches_or_prompts world_project_gone config_named [])
      as (Named & _).
    rewrite (Named "mock-user-ws" "my-app" eq_refl eq_refl); [reflexivity | |]; discriminate.
  - destruct (resolveTarget_fetches_or_prompts world_server_down config_named [])
      as (Named & _).
    rewrite (Named "mock-user-ws" "my-app" eq_refl eq_refl); [reflexivity | |]; discriminate.
Defined.


(** ** [getDeployTarget]: what is persisted and what is returned *)

Lemma settleDeployTarget_result (env : Env) (c : DeployConfig) (resolved : DeployTargetInfo)
      (h h' : Trace) (c' : DeployConfig) (t : DeployTargetInfo) :
  settleDeployTarget env c resolved h = (Ret (c', t), h') ->
  exists workspace project before,
    t = Existing workspace project
    /\ projectId c' = Some (p_id project)
    /\ projectSlug c' = Some (p_slug project)
    /\ workspaceLogin c' = Some (ws_login workspace)
    /\ continuousDeployment c' <> None
    /\ (forall b, continuousDeployment c = Some b -> continuousDeployment c' = Some b)
    /\ h' = before ++ [EvSetDeployConfig c'].
Proof.
  intros H. unfold settleDeployTarget in H.
  unfold bind at 1 in H. run_cases H. unfold bind at 1 in H. run_cases H.
  match goal with a : (WorkspaceRef * GetProjectResponse)%type |- _ => destruct a as [workspace project] end.
  unfold bind at 1 in H. run_cases H.
  match goal with a : option bool |- _ => rename a into cd end.
  match goal with R : _ = (Ret cd, _) |- _ => rename R into Asked end.
  unfold bind at 1 in H. unfold setDeployConfig in H. rewrite await_run in H.
  match type of H with context [setDeployConfig_at env ?t ?x] =>
    destruct (setDeployConfig_at env t x) as [[]|e]; try discriminate H end.
  unfold ret in H. inversion H; subst. exists workspace, project. eexists.
  split; [reflexivity|]. split; [reflexivity|]. split; [reflexivity|]. split; [reflexivity|].
  split; [| split; [| reflexivity]].
  - simpl. destruct (continuousDeployment c) as [b|].
    + unfold ret in Asked. inversion Asked. discriminate.
    + unfold bind, confirm, perform in Asked.
      match type of Asked with context [confirm_at env ?t ?q] =>
        destruct (confirm_at env t q); inversion Asked end. discriminate.
  - intros b Persisted. simpl. rewrite Persisted in Asked. unfold ret in Asked. now inversion Asked.
Qed.

(** X2: whenever [getDeployTarget] returns, the target is an existing
    project, the deploy config it returns names that project (its id, its
    slug, the login of its workspace) with continuous deployment decided,
    keeping the persisted choice when there was one, and the last thing the
    run did was to persist exactly that config. *)
Theorem getDeployTarget_persists_what_it_returns (env : Env) (c c' : DeployConfig)
        (t : DeployTargetInfo) (h h' : Trace) :
  getDeployTarget env c h = (Ret (c', t), h') ->
  exists workspace project before,
    t = Existing workspace project
    /\ c' = {| projectId := Some (p_id project);
               projectSlug := Some (p_slug project);
               workspaceLogin := Some (ws_login workspace);
               continuousDeployment := continuousDeployment c' |}
    /\ continuousDeployment c' <> None
    /\ (forall b, continuousDeployment c = Some b -> continuousDeployment c' = Some b)
    /\ h' = before ++ [EvSetDeployConfig c'].
Proof.
  intros Run. unfold getDeployTarget, bind in Run.
  destruct (resolveTarget env c h) as [[resolved| |] h1]; try discriminate.
  destruct (settleDeployTarget_result env c resolved h1 h' c' t Run)
    as (workspace & project & before & -> & Id & Slug & Login & Decided & Kept & Last).
  exists workspace, project, before.
  split; [reflexivity|]. split; [| auto].
  destruct c'; simpl in *. now rewrite Id, Slug, Login.
Qed.

Lemma getDeployTarget_persists_what_it_returns_witness :
  exists workspace project before,
    Existing (workspaceRef mockWorkspace) (mockProject None) = Existing workspace project
    /\ config_resolved
       = {| projectId := Some (p_id project);
            projectSlug := Some (p_slug project);
            workspaceLogin := Some (ws_login workspace);
            continuousDeployment := continuousDeployment config_resolved |}
    /\ continuousDeployment config_resolved <> None
    /\ (forall b, continuousDeployment config_unset = Some b ->
                  continuousDeployment config_resolved = Some b)
    /\ snd (getDeployTarget world_new_app config_unset [EvGetDeployConfig])
       = before ++ [EvSetDeployConfig config_resolved].
Proof.
  apply (getDeployTarget_persists_what_it_returns
           world_new_app config_unset config_resolved
           (Existing (workspaceRef mockWorkspace) (mockProject None)) [EvGetDeployConfig]).
  reflexivity.
Defined.


(** ** [getDeployTarget]: the last deployed state, creation, continuous deployment *)

Lemma bind_ret_l {A B} (a : A) (k : A -> M B) (h : Trace) : bind (ret a) k h = k a h.
Proof. reflexivity. Qed.

Lemma bind_fails {A B} (m : M A) (k : A -> M B) (h h' : Trace) (e : Error) :
  m h = (Throw e, h') -> bind m k h = (Throw e, h').
Proof. intros E. unfold bind. now rewrite E. Qed.

(** [deployConfig.projectId] is set and is the id of the project. *)
Definition names_project (c : DeployConfig) (project : GetProjectResponse) : bool :=
  Js.truthy (projectId c) && (Js.show_nullable (projectId c) =? p_id project)%string.





Lemma checkLastDeployed_split (env : Env) (c : DeployConfig) (workspace : WorkspaceRef)
      (project : GetProjectResponse) (h : Trace) :
  exists text,
    checkLastDeployed env c (Existing workspace project) h
    = if names_project c project
      then (Ret tt, h ++ [EvLog Info text])
      else confirmOverwrite env (if Js.truthy (projectId c)
                                 then "Cancelling deploy due to misconfiguration."
                                 else "Running non-interactively, cancelling due to conflict.")
                            (h ++ [EvLog Warn text]).
Proof.
  unfold checkLastDeployed, names_project.
  destruct (Js.truthy (projectId c)); cbn [andb].
  - destruct (Js.show_nullable (projectId c) =? p_id project)%string; cbn [negb];
      eexists; reflexivity.
  - eexists; reflexivity.
Qed.



(** The creation call is refused. *)
Definition world_creation_refused : Env :=
  scripted defaultOptions [mockWorkspace] true
           [Project (Rejects (HttpError 403 "Forbidden" []))].

(** X4: when the project-creation call fails, for whatever reason,
    [getDeployTarget] reports the reason, announces the cancellation and
    throws the non-printing error "Error during deploy" with the failure as
    its cause; the deploy config is not written. *)
Theorem failed_creation_cancels_deploy (env : Env) (c : DeployConfig) (workspace : WorkspaceRef)
        (slug title level : string) (e : Error) (h : Trace) :
  postProject_at env (List.length h) slug title (ws_id workspace) level = Rejects e ->
  exists complaint,
    settleDeployTarget env c (Create workspace slug title level) h
    = (Throw (CliError "Error during deploy" (Some e) (Some false) None),
       h ++ [EvPostProject slug title (ws_id workspace) level;
             EvLog LogError complaint;
             EvOutro (yellow env "Deploy canceled")])
    /\ (isApiError_with "TOO_MANY_PROJECTS" e = false ->
        complaint = wrapAnsi env ("Could not create app: " ++ error_message e)%string
                             (outputColumns env)).
Proof.
  intros Refused. unfold settleDeployTarget. unfold bind at 1. cbn [checkLastDeployed].
  unfold ret at 1. unfold bind at 1.
  unfold createProject, tryCatch, bind at 1, postProject. rewrite await_run, Refused.
  unfold bind, log, emit, perform, throw.
  destruct (isApiError_with "TOO_MANY_PROJECTS" e); eexists;
    (split; [rewrite <- !app_assoc; reflexivity|]); [discriminate | reflexivity].
Qed.

Lemma failed_creation_cancels_deploy_witness :
  exists complaint,
    settleDeployTarget world_creation_refused config_unset mockCreate []
    = (Throw (CliError "Error during deploy" (Some (HttpError 403 "Forbidden" []))
                       (Some false) None),
       [] ++ [EvPostProject "my-app" "My App" "0000000000000001" "private";
              EvLog LogError complaint;
              EvOutro "Deploy canceled"])
    /\ (isApiError_with "TOO_MANY_PROJECTS" (HttpError 403 "Forbidden" []) = false ->
        complaint = "Could not create app: Forbidden").
Proof.
  apply (failed_creation_cancels_deploy
           world_creation_refused config_unset (workspaceRef mockWorkspace)
           "my-app" "My App" "private" (HttpError 403 "Forbidden" []) []).
  reflexivity.
Defined.

Definition continuousDeploymentQuestion (env : Env) : string :=
  wrapAnsi env ("Do you want to enable continuous deployment? "
                ++ faint env "Given a GitHub repository, this builds in the cloud and redeploys whenever you push to the current branch.")%string
           (outputColumns env).

Definition config_undecided : DeployConfig :=
  {| projectId := Some "P1"; projectSlug := Some "my-app";
     workspaceLogin := Some "mock-user-ws"; continuousDeployment := None |}.

(** A non-interactive session whose prompt surface answers yes. *)
Definition world_batch_enables : Env :=
  scripted defaultOptions [mockWorkspace] false
           [Silent; Confirmed (Answered true); Done (Resolves tt)].

(** X5: when the persisted config leaves continuous deployment
    undecided, [getDeployTarget] asks for it, in a non-interactive session
    as well as in an interactive one: the question does not depend on
    [isTty].  A canceled question ends the deploy with nothing written; an
    answer is what gets persisted. *)
Theorem continuous_deployment_asked_when_undecided (env : Env) (c : DeployConfig)
        (workspace : WorkspaceRef) (project : GetProjectResponse) (h : Trace) :
  names_project c project = true ->
  continuousDeployment c = None ->
  exists info,
    let asked := h ++ [EvLog Info info; EvConfirm (continuousDeploymentQuestion env) None] in
    match confirm_at env (S (List.length h)) (continuousDeploymentQuestion env) with
    | Canceled =>
        settleDeployTarget env c (Existing workspace project) h
        = (Throw (CliError "User canceled deploy" None (Some false) (Some 0)), asked)
    | Answered enable =>
        snd (settleDeployTarget env c (Existing workspace project) h)
        = asked ++ [EvSetDeployConfig {| projectId := Some (p_id project);
                                         projectSlug := Some (p_slug project);
                                         workspaceLogin := Some (ws_login workspace);
                                         continuousDeployment := Some enable |}]
    end.
Proof.
  intros Same Undecided.
  destruct (checkLastDeployed_split env c workspace project h) as (info & Check).
  rewrite Same in Check. exists info. cbv zeta.
  unfold settleDeployTarget. rewrite (bind_run _ _ _ _ _ Check).
  cbn [createProject]. rewrite bind_ret_l. rewrite Undecided.
  set (q := continuousDeploymentQuestion env).
  set (h1 := h ++ [EvLog Info info]).
  assert (Asked : confirm env q None h1
                  = (Ret (confirm_at env (S (List.length h)) q), h1 ++ [EvConfirm q None])).
  { unfold confirm, perform, h1. now rewrite length_snoc. }
  fold q. destruct (confirm_at env (S (List.length h)) q) as [enable|].
  - erewrite bind_run; [| rewrite (bind_run _ _ _ _ _ Asked); reflexivity].
    unfold bind, setDeployConfig. rewrite await_run.
    match goal with |- context [setDeployConfig_at env ?t ?x] =>
      destruct (setDeployConfig_at env t x) as [[]|e] end;
      unfold h1; simpl; rewrite <- ?app_assoc; reflexivity.
  - erewrite bind_fails; [| rewrite (bind_run _ _ _ _ _ Asked); reflexivity].
    unfold h1. rewrite <- ?app_assoc. reflexivity.
Qed.

Lemma continuous_deployment_asked_when_undecided_witness :
  isTty world_batch_enables = false
  /\ exists info,
      snd (settleDeployTarget world_batch_enables config_undecided
                              (Existing (workspaceRef mockWorkspace) (mockProject None)) [])
      = ([] ++ [EvLog Info info; EvConfirm (continuousDeploymentQuestion world_batch_enables) None])
          ++ [EvSetDeployConfig {| projectId := Some "P1"; projectSlug := Some "my-app";
                                   workspaceLogin := Some "mock-user-ws";
                                   continuousDeployment := Some true |}].
Proof.
  split; [reflexivity|].
  destruct (continuous_deployment_asked_when_undecided
              world_batch_enables config_undecided (workspaceRef mockWorkspace)
              (mockProject None) [] eq_refl eq_refl) as (info & Asked).
  exists info. exact Asked.
Defined.


(** ** [createNewDeploy] *)

(** The deploy message that needs no question: the [message] option, or
    the empty message of a non-interactive session. *)
Definition givenMessage (env : Env) : option string :=
  match message (options env) with
  | Some m => Some m
  | None => if isTty env then None else Some EmptyString
  end.

Definition world_deploy_refused (code : Z) : Env :=
  scripted defaultOptions [mockWorkspace] true [Text (Rejects (HttpError code "refused" []))].

(** X6: [createNewDeploy] posts one deploy for the project, with the
    message of the options or, in a non-interactive session without one,
    the empty message, and asks nothing.  A 404 from the call becomes the
    error "App <slug> in workspace @<login> not found.", a 403 the error
    "You don't have permission to deploy to <slug> in workspace @<login>.",
    both with the HTTP error as cause; any other failure propagates
    unchanged. *)
Theorem createNewDeploy_posts_and_maps_errors (env : Env) (workspace : WorkspaceRef)
        (project : GetProjectResponse) (m : string) (h : Trace) :
  givenMessage env = Some m ->
  createNewDeploy env (Existing workspace project) h
  = (match postDeploy_at env (List.length h) (p_id project) m with
     | Resolves id => Ret id
     | Rejects (HttpError 404 msg codes) =>
         Throw (CliError ("App " ++ p_slug project ++ " in workspace @" ++ ws_login workspace
                          ++ " not found.")%string
                         (Some (HttpError 404 msg codes)) None None)
     | Rejects (HttpError 403 msg codes) =>
         Throw (CliError ("You don't have permission to deploy to " ++ p_slug project
                          ++ " in workspace @" ++ ws_login workspace ++ ".")%string
                         (Some (HttpError 403 msg codes)) None None)
     | Rejects e => Throw e
     end,
     h ++ [EvPostDeploy (p_id project) m]).
Proof.
  unfold givenMessage, createNewDeploy. intros Given.
  assert (Message : forall k : string -> M string,
             bind (match message (options env) with
                   | Some m0 => ret m0
                   | None =>
                       if isTty env
                       then
                         input <- text env "What changed in this deploy?" ;;
                         match input with
                         | Answered m0 => ret m0
                         | Canceled => throw (userCanceled "User canceled deploy")
                         end
                       else ret EmptyString
                   end) k h = k m h).
  { intros k. destruct (message (options env)) as [m0|].
    - inversion Given. reflexivity.
    - destruct (isTty env); [discriminate|]. inversion Given. reflexivity. }
  rewrite Message. unfold tryCatch, postDeploy. rewrite await_run.
  destruct (postDeploy_at env (List.length h) (p_id project) m) as [id|e]; [reflexivity|].
  destruct e as [code msg codes| | |]; try reflexivity.
  cbn [statusCode_is].
  destruct (Z.eqb_spec code 404) as [->|Not404]; [reflexivity|].
  destruct (Z.eqb_spec code 403) as [->|Not403]; [reflexivity|].
  destruct code as [|code|code]; try reflexivity.
  repeat (destruct code as [code|code|]; try reflexivity); contradiction.
Qed.

Lemma createNewDeploy_posts_and_maps_errors_witness :
  createNewDeploy (world_deploy_refused 403)
                  (Existing (workspaceRef mockWorkspace) (mockProject None)) []
  = (Throw (CliError "You don't have permission to deploy to my-app in workspace @mock-user-ws."
                     (Some (HttpError 403 "refused" [])) None None),
     [EvPostDeploy "P1" ""])
  /\ createNewDeploy (world_deploy_refused 500)
                     (Existing (workspaceRef mockWorkspace) (mockProject None)) []
     = (Throw (HttpError 500 "refused" []), [EvPostDeploy "P1" ""]).
Proof.
  split.
  - apply (createNewDeploy_posts_and_maps_errors
             (world_deploy_refused 403) (workspaceRef mockWorkspace) (mockProject None)
             EmptyString [] eq_refl).
  - apply (createNewDeploy_posts_and_maps_errors
             (world_deploy_refused 500) (workspaceRef mockWorkspace) (mockProject None)
             EmptyString [] eq_refl).
Defined.


(** ** [findBuildFiles] and the [force] modes of [getBuildFilePaths] *)

Lemma prefix_append (a b : string) : prefix a (a ++ b)%string = true.
Proof.
  induction a as [|c a IH]; simpl; [now destruct b|].
  destruct (ascii_dec c c) as [_|N]; [exact IH | now destruct N].
Qed.

Lemma includes_prefix (a b : string) : Js.includes a (a ++ b)%string = true.
Proof.
  pose proof (prefix_append a b) as Starts.
  destruct (a ++ b)%string; cbn [Js.includes]; now rewrite Starts.
Qed.

Definition missingBuild (env : Env) (cause : option Error) : Error :=
  CliError ("No build files found at " ++ config_output (options env))%string cause None None.

Lemma missingBuild_matches (env : Env) (cause : option Error) :
  CliError_match "No build files found" (missingBuild env cause) = true.
Proof.
  unfold missingBuild, CliError_match.
  change ("No build files found at " ++ config_output (options env))%string
    with ("No build files found" ++ (" at " ++ config_output (options env)))%string.
  apply includes_prefix.
Qed.

Lemma findBuildFiles_run (env : Env) (h : Trace) :
  findBuildFiles env h
  = (match visitFiles_at env (List.length h) (config_output (options env)) with
     | Resolves [] => Throw (missingBuild env None)
     | Resolves files => Ret files
     | Rejects e => if isEnoent e then Throw (missingBuild env (Some e)) else Throw e
     end,
     h ++ [EvVisitFiles (config_output (options env))]).
Proof.
  unfold findBuildFiles, bind, tryCatch, visitFiles. rewrite await_run.
  destruct (visitFiles_at env (List.length h) (config_output (options env))) as [[|f fs]|e];
    try reflexivity.
  destruct (isEnoent e); reflexivity.
Qed.


(** The last part of [getBuildFilePaths] when [doBuild] is set. *)
Lemma build_then_list (env : Env) (h : Trace) :
  build_at env (S (List.length h)) = Resolves tt ->
  (buildFilePaths <-
     (log Step "Building app" ;;
      build env ;;
      rebuilt <- findBuildFiles env ;;
      ret (Some rebuilt)) ;;
   match buildFilePaths with
   | Some paths => ret paths
   | None => throw (JsError "No build files found.")
   end) h
  = findBuildFiles env (h ++ [EvLog Step "Building app"; EvBuild]).
Proof.
  intros Built.
  unfold bind at 1. unfold bind at 1. unfold log, emit, perform.
  unfold bind at 1. unfold build. rewrite await_run, length_snoc, Built.
  rewrite <- !app_assoc. simpl app.
  unfold bind. destruct (findBuildFiles env _) as [[files| |] h']; reflexivity.
Qed.

(** The output root has no usable build: it is missing, or empty. *)
Definition noBuild (r : Reply (list string)) : bool :=
  match r with
  | Resolves [] => true
  | Resolves (_ :: _) => false
  | Rejects e => isEnoent e
  end.

Definition optionsForcing (f : option Force) : DeployOptions :=
  {| config_root := "src"; config_output := "dist"; config_title := Some "My App";
     deployConfigPath := None; message := Some EmptyString; deployPollInterval := None;
     force := f; maxConcurrency := None; deployId := None |}.

(** An interactive session with [--no-build]: the output root is missing. *)
Definition world_no_build_forced_deploy : Env :=
  scripted (optionsForcing (Some ForceDeploy)) [mockWorkspace] true
           [Files (Rejects (Enoent "dist"))].

(** An interactive session with [--build]: there is a stale build of one
    file, the build succeeds and leaves two files. *)
Definition world_forced_build : Env :=
  scripted (optionsForcing (Some ForceBuild)) [mockWorkspace] true
           [Files (Resolves ["old.html"]); Silent; Done (Resolves tt);
            Files (Resolves ["index.html"; "about.html"])].



(** X7: with [force === "deploy"], [getBuildFilePaths] lists the output
    root and does nothing else: it never builds, asks or compares
    modification times.  It returns the files it finds; a missing or empty
    output root is the fatal error "No build files found.". *)
Theorem forced_deploy_never_builds (env : Env) (h : Trace) :
  force (options env) = Some ForceDeploy ->
  let listing := visitFiles_at env (List.length h) (config_output (options env)) in
  snd (getBuildFilePaths env h) = h ++ [EvVisitFiles (config_output (options env))]
  /\ (noBuild listing = true ->
      fst (getBuildFilePaths env h) = Throw (cliError "No build files found."))
  /\ (forall f fs, listing = Resolves (f :: fs) ->
                   fst (getBuildFilePaths env h) = Ret (f :: fs)).
Proof.
  intros Forced listing.
  assert (Run : getBuildFilePaths env h
                = (match listing with
                   | Resolves [] => Throw (cliError "No build files found.")
                   | Resolves files => Ret files
                   | Rejects e =>
                       if isEnoent e || CliError_match "No build files found" e
                       then Throw (cliError "No build files found.")
                       else Throw e
                   end,
                   h ++ [EvVisitFiles (config_output (options env))])).
  { unfold getBuildFilePaths. rewrite Forced.
    unfold bind at 1, tryCatch, bind at 1. rewrite findBuildFiles_run. fold listing.
    destruct listing as [[|f fs]|e]; cbv beta iota.
    - now rewrite missingBuild_matches.
    - reflexivity.
    - destruct (isEnoent e) eqn:Missing; cbv beta iota.
      + now rewrite missingBuild_matches.
      + now destruct (CliError_match "No build files found" e). }
  rewrite Run. simpl fst. simpl snd.
  split; [reflexivity|]. split.
  - destruct listing as [[|f fs]|e]; cbn [noBuild]; intros NoBuild;
      [reflexivity | discriminate | now rewrite NoBuild].
  - intros f fs Found. now rewrite Found.
Qed.

Lemma forced_deploy_never_builds_witness :
  snd (getBuildFilePaths world_no_build_forced_deploy []) = [] ++ [EvVisitFiles "dist"]
  /\ fst (getBuildFilePaths world_no_build_forced_deploy [])
     = Throw (cliError "No build files found.").
Proof.
  destruct (forced_deploy_never_builds world_no_build_forced_deploy [] eq_refl)
    as (Trace & Missing & _).
  split; [exact Trace | apply Missing; reflexivity].
Defined.

(** X8: with [force === "build"], [getBuildFilePaths] builds without
    asking, whether or not a build exists, and what it returns is the
    listing of the output root made after the build, not the one made
    before. *)
Theorem forced_build_always_builds (env : Env) (h : Trace) :
  force (options env) = Some ForceBuild ->
  let output := config_output (options env) in
  (noBuild (visitFiles_at env (List.length h) output) = true
   \/ exists files, visitFiles_at env (List.length h) output = Resolves files) ->
  build_at env (S (S (List.length h))) = Resolves tt ->
  getBuildFilePaths env h
  = findBuildFiles env (h ++ [EvVisitFiles output; EvLog Step "Building app"; EvBuild]).
Proof.
  intros Forced output Listed Built. unfold getBuildFilePaths. rewrite Forced.
  assert (First : exists before,
             tryCatch
               (buildFilePaths <- findBuildFiles env ;;
                ret (is_forceBuild (Some ForceBuild), Some buildFilePaths))
               (fun error =>
                  if CliError_match "No build files found" error
                  then ret (is_forceBuild (Some ForceBuild), None)
                  else throw error) h
             = (Ret (true, before), h ++ [EvVisitFiles output])).
  { unfold tryCatch, bind. rewrite findBuildFiles_run. fold output.
    destruct Listed as [Missing | (files & Found)].
    - destruct (visitFiles_at env (List.length h) output) as [[|f fs]|e];
        cbn [noBuild] in Missing; cbv beta iota.
      + rewrite missingBuild_matches. eexists. reflexivity.
      + discriminate.
      + rewrite Missing. cbv beta iota. rewrite missingBuild_matches. eexists. reflexivity.
    - rewrite Found.
      destruct files; cbv beta iota; [rewrite missingBuild_matches|]; eexists; reflexivity. }
  destruct First as (before & First).
  rewrite (bind_run _ _ _ _ _ First). cbn [negb andb]. rewrite bind_ret_l.
  rewrite build_then_list; [| now rewrite length_snoc].
  now rewrite <- app_assoc.
Qed.

Lemma forced_build_always_builds_witness :
  getBuildFilePaths world_forced_build []
  = (Ret ["index.html"; "about.html"],
     [EvVisitFiles "dist"; EvLog Step "Building app"; EvBuild; EvVisitFiles "dist"]).
Proof.
  rewrite (forced_build_always_builds world_forced_build [] eq_refl).
  - reflexivity.
  - right. exists ["old.html"]. reflexivity.
  - reflexivity.
Defined.




(** ** The modification times that [getBuildFilePaths] compares *)

(** [a <= b] on the numbers of the model. *)
Definition num_le (a b : Js.Num) : Prop := Js.gt a b = false.

Lemma num_le_refl (a : Js.Num) : num_le a a.
Proof. unfold num_le. destruct a; simpl; try reflexivity. apply Z.ltb_irrefl. Qed.

Lemma num_le_trans (a b c : Js.Num) : num_le a b -> num_le b c -> num_le a c.
Proof.
  unfold num_le. destruct a, b, c; simpl; try reflexivity; try discriminate.
  rewrite !Z.ltb_ge. lia.
Qed.

Lemma num_min_le (m acc : Js.Num) :
  let least := if Js.lt m acc then m else acc in
  num_le least acc /\ num_le least m.
Proof.
  unfold num_le, Js.lt. destruct (Js.gt acc m) eqn:Less; split;
    try exact Less; try apply num_le_refl.
  destruct m, acc; simpl in *; try reflexivity; try discriminate.
  rewrite Z.ltb_lt in Less. rewrite Z.ltb_ge. lia.
Qed.

Lemma num_max_ge (m acc : Js.Num) :
  let most := if Js.gt m acc then m else acc in
  num_le acc most /\ num_le m most.
Proof.
  unfold num_le. destruct (Js.gt m acc) eqn:More; split;
    try exact More; try apply num_le_refl.
  destruct m, acc; simpl in *; try reflexivity; try discriminate.
  rewrite Z.ltb_lt in More. rewrite Z.ltb_ge. lia.
Qed.

(** The modification time that the [i]-th of the files had when a loop
    that started after the trace [h] read it. *)
Definition read_mtime (env : Env) (h : Trace) (root : string) (files : list string)
           (i : nat) (m : Z) : Prop :=
  exists f st,
    nth_error files i = Some f
    /\ stat_at env (List.length h + i) (Js.join root f) = Resolves st
    /\ mtimeMs st = m.

Lemma read_mtime_later (env : Env) (h : Trace) (ev : Event) (root f : string)
      (files : list string) (i : nat) (m : Z) :
  read_mtime env (h ++ [ev]) root files i m -> read_mtime env h root (f :: files) (S i) m.
Proof.
  intros (f' & st & Nth & Read & Time). exists f', st.
  rewrite length_snoc in Read. rewrite Nat.add_succ_r. auto.
Qed.

Lemma leastRecent_spec (env : Env) (root : string) (files : list string) :
  forall (acc : Js.Num) (h h' : Trace) (least : Js.Num),
    leastRecent env root files acc h = (Ret least, h') ->
    h' = h ++ map (fun f => EvStat (Js.join root f)) files
    /\ num_le least acc
    /\ (forall i f, nth_error files i = Some f ->
                    exists m, read_mtime env h root files i m /\ num_le least (Js.Finite m))
    /\ (least = acc \/ exists i m, read_mtime env h root files i m /\ least = Js.Finite m).
Proof.
  induction files as [|f rest IH]; intros acc h h' least Run.
  - simpl in Run. inversion Run; subst. rewrite app_nil_r.
    split; [reflexivity|]. split; [apply num_le_refl|]. split; [| now left].
    intros [|i] f' Nth; discriminate.
  - simpl in Run. unfold bind at 1, stat in Run. rewrite await_run in Run.
    destruct (stat_at env (List.length h) (Js.join root f)) as [st|e] eqn:Read;
      [| discriminate].
    apply IH in Run. destruct Run as (-> & Below & Each & Attained).
    destruct (num_min_le (Js.Finite (mtimeMs st)) acc) as (BelowAcc & BelowThis).
    split; [now rewrite <- app_assoc|].
    split; [eapply num_le_trans; eauto|]. split.
    + intros [|i] f' Nth.
      * exists (mtimeMs st). split.
        -- exists f, st. now rewrite Nat.add_0_r.
        -- eapply num_le_trans; eauto.
      * destruct (Each i f' Nth) as (m & ReadLater & Le).
        exists m. split; [eapply read_mtime_later; eauto | exact Le].
    + destruct Attained as [Same | (i & m & ReadLater & Same)].
      * destruct (Js.lt (Js.Finite (mtimeMs st)) acc).
        -- right. exists 0%nat, (mtimeMs st). split; [| exact Same].
           exists f, st. now rewrite Nat.add_0_r.
        -- now left.
      * right. exists (S i), m. split; [eapply read_mtime_later; eauto | exact Same].
Qed.

Lemma mostRecent_spec (env : Env) (root : string) (files : list string) :
  forall (acc : Js.Num) (h h' : Trace) (most : Js.Num),
    mostRecent env root files acc h = (Ret most, h') ->
    h' = h ++ map (fun f => EvStat (Js.join root f)) files
    /\ num_le acc most
    /\ (forall i f, nth_error files i = Some f ->
                    exists m, read_mtime env h root files i m /\ num_le (Js.Finite m) most)
    /\ (most = acc \/ exists i m, read_mtime env h root files i m /\ most = Js.Finite m).
Proof.
  induction files as [|f rest IH]; intros acc h h' most Run.
  - simpl in Run. inversion Run; subst. rewrite app_nil_r.
    split; [reflexivity|]. split; [apply num_le_refl|]. split; [| now left].
    intros [|i] f' Nth; discriminate.
  - cbn [mostRecent] in Run. unfold bind at 1, stat in Run. rewrite await_run in Run.
    destruct (stat_at env (List.length h) (Js.join root f)) as [st|e] eqn:Read;
      [| discriminate].
    apply IH in Run. destruct Run as (-> & Above & Each & Attained).
    destruct (num_max_ge (Js.Finite (mtimeMs st)) acc) as (AboveAcc & AboveThis).
    split; [now rewrite <- app_assoc|].
    split; [eapply num_le_trans; eauto|]. split.
    + intros [|i] f' Nth.
      * exists (mtimeMs st). split.
        -- exists f, st. now rewrite Nat.add_0_r.
        -- eapply num_le_trans; eauto.
      * destruct (Each i f' Nth) as (m & ReadLater & Le).
        exists m. split; [eapply read_mtime_later; eauto | exact Le].
    + destruct Attained as [Same | (i & m & ReadLater & Same)].
      * destruct (Js.gt (Js.Finite (mtimeMs st)) acc).
        -- right. exists 0%nat, (mtimeMs st). split; [| exact Same].
           exists f, st. now rewrite Nat.add_0_r.
        -- now left.
      * right. exists (S i), m. split; [eapply read_mtime_later; eauto | exact Same].
Qed.

(** The build has three files. *)
Definition world_three_build_files : Env :=
  scripted defaultOptions [mockWorkspace] true
           [Files (Resolves ["a.html"; "b.html"; "c.html"]);
            Stat (Resolves {| mtimeMs := 300; size := 1 |});
            Stat (Resolves {| mtimeMs := 100; size := 1 |});
            Stat (Resolves {| mtimeMs := 200; size := 1 |})].

(** X10: when [findLeastRecentBuildMtimeMs] returns, it has read the
    modification time of every file under the output root, in order, and
    its result is their minimum: no file is older, and some file has
    exactly that time.  With no file at all the result is [Infinity]. *)
Theorem findLeastRecentBuildMtimeMs_is_minimum (env : Env) (h h' : Trace) (least : Js.Num) :
  findLeastRecentBuildMtimeMs env h = (Ret least, h') ->
  let output := config_output (options env) in
  exists files,
    visitFiles_at env (List.length h) output = Resolves files
    /\ h' = h ++ EvVisitFiles output :: map (fun f => EvStat (Js.join output f)) files
    /\ (forall i f, nth_error files i = Some f ->
                    exists m, read_mtime env (h ++ [EvVisitFiles output]) output files i m
                              /\ num_le least (Js.Finite m))
    /\ (files = [] -> least = Js.Infinity)
    /\ (files <> [] ->
        exists i m, read_mtime env (h ++ [EvVisitFiles output]) output files i m
                    /\ least = Js.Finite m).
Proof.
  intros Run output. unfold findLeastRecentBuildMtimeMs in Run.
  unfold bind at 1, visitFiles in Run. rewrite await_run in Run. fold output in Run.
  destruct (visitFiles_at env (List.length h) output) as [files|e]; [| discriminate].
  apply leastRecent_spec in Run. destruct Run as (-> & _ & Each & Attained).
  exists files. split; [reflexivity|]. split; [now rewrite <- app_assoc|].
  split; [exact Each|]. split.
  - intros ->. destruct Attained as [Same | (i & m & (f & st & Nth & _) & _)];
      [exact Same | destruct i; discriminate].
  - intros NonEmpty. destruct Attained as [Same | Found]; [| exact Found].
    destruct files as [|f rest]; [now destruct NonEmpty|].
    destruct (Each 0%nat f eq_refl) as (m & _ & Le). subst least. discriminate.
Qed.

Lemma findLeastRecentBuildMtimeMs_is_minimum_witness :
  exists files,
    visitFiles_at world_three_build_files (List.length (@nil Event)) "dist" = Resolves files
    /\ [EvVisitFiles "dist"; EvStat "dist/a.html"; EvStat "dist/b.html"; EvStat "dist/c.html"]
       = [] ++ EvVisitFiles "dist" :: map (fun f => EvStat (Js.join "dist" f)) files
    /\ (forall i f, nth_error files i = Some f ->
                    exists m, read_mtime world_three_build_files ([] ++ [EvVisitFiles "dist"])
                                         "dist" files i m
                              /\ num_le (Js.Finite 100) (Js.Finite m))
    /\ (files = [] -> Js.Finite 100 = Js.Infinity)
    /\ (files <> [] ->
        exists i m, read_mtime world_three_build_files ([] ++ [EvVisitFiles "dist"])
                               "dist" files i m
                    /\ Js.Finite 100 = Js.Finite m).
Proof.
  apply (findLeastRecentBuildMtimeMs_is_minimum
           world_three_build_files []
           [EvVisitFiles "dist"; EvStat "dist/a.html"; EvStat "dist/b.html"; EvStat "dist/c.html"]
           (Js.Finite 100)).
  reflexivity.
Defined.

(** The cache directory of the source root. *)
Definition cachePath (env : Env) : string :=
  Js.join (config_root (options env)) ".observablehq/cache".

(** Two source files and no cache directory. *)
Definition world_sources_without_cache : Env :=
  scripted defaultOptions [mockWorkspace] true
           [Files (Resolves ["index.md"; "data.csv"]);
            Stat (Resolves {| mtimeMs := 100; size := 1 |});
            Stat (Resolves {| mtimeMs := 250; size := 1 |});
            Stat (Rejects (Enoent "src/.observablehq/cache"))].

(** X11: when [findMostRecentSourceMtimeMs] returns, it has read the
    modification time of every file under the source root and then that of
    the cache directory, and no source file is newer than its result; a
    cache directory that exists is not newer either, and one that does not
    exist (ENOENT) is not an error, while any other failure to read it would
    have propagated. *)
Theorem findMostRecentSourceMtimeMs_is_maximum (env : Env) (h h' : Trace) (most : Js.Num) :
  findMostRecentSourceMtimeMs env h = (Ret most, h') ->
  let root := config_root (options env) in
  exists files,
    let sources := h ++ EvVisitFiles root :: map (fun f => EvStat (Js.join root f)) files in
    visitFiles_at env (List.length h) root = Resolves files
    /\ h' = sources ++ [EvStat (cachePath env)]
    /\ (forall i f, nth_error files i = Some f ->
                    exists m, read_mtime env (h ++ [EvVisitFiles root]) root files i m
                              /\ num_le (Js.Finite m) most)
    /\ match stat_at env (List.length sources) (cachePath env) with
       | Resolves cache =>
           num_le (Js.Finite (mtimeMs cache)) most
           /\ (most = Js.Finite (mtimeMs cache)
               \/ exists i m, read_mtime env (h ++ [EvVisitFiles root]) root files i m
                              /\ most = Js.Finite m)
       | Rejects e =>
           isEnoent e = true
           /\ (most = Js.NegInfinity /\ files = []
               \/ exists i m, read_mtime env (h ++ [EvVisitFiles root]) root files i m
                              /\ most = Js.Finite m)
       end.
Proof.
  intros Run root. unfold findMostRecentSourceMtimeMs in Run.
  unfold bind at 1, visitFiles in Run. rewrite await_run in Run. fold root in Run.
  destruct (visitFiles_at env (List.length h) root) as [files|e]; [| discriminate].
  unfold bind at 1 in Run.
  destruct (mostRecent env root files Js.NegInfinity (h ++ [EvVisitFiles root]))
    as [[sourcesMost| |] h1] eqn:Sources; try discriminate.
  apply mostRecent_spec in Sources. destruct Sources as (-> & _ & Each & Attained).
  exists files. cbv zeta. split; [reflexivity|].
  unfold tryCatch, bind, stat in Run. rewrite await_run in Run.
  rewrite <- app_assoc in Run. simpl app in Run.
  change (cachePath env) with (Js.join root ".observablehq/cache").
  destruct (stat_at env (List.length (h ++ EvVisitFiles root
                                        :: map (fun f => EvStat (Js.join root f)) files))
                    (Js.join root ".observablehq/cache")) as [cache|e] eqn:Cache.
  - unfold ret in Run.
    assert (Most : most = if Js.gt (Js.Finite (mtimeMs cache)) sourcesMost
                          then Js.Finite (mtimeMs cache) else sourcesMost) by congruence.
    assert (Events : h' = (h ++ EvVisitFiles root
                             :: map (fun f => EvStat (Js.join root f)) files)
                          ++ [EvStat (Js.join root ".observablehq/cache")]) by congruence.
    clear Run. rewrite Most, Events.
    destruct (num_max_ge (Js.Finite (mtimeMs cache)) sourcesMost) as (AboveSources & AboveCache).
    split; [reflexivity|]. split.
    + intros i f Nth. destruct (Each i f Nth) as (m & Read & Le).
      exists m. split; [exact Read | exact (num_le_trans _ _ _ Le AboveSources)].
    + split; [exact AboveCache|].
      destruct (Js.gt (Js.Finite (mtimeMs cache)) sourcesMost) eqn:Newer; [now left|].
      destruct Attained as [Same | Found]; [| now right].
      subst sourcesMost. discriminate.
  - destruct (isEnoent e) eqn:Missing; cbn [negb] in Run; [| discriminate].
    unfold ret in Run.
    assert (Most : most = sourcesMost) by congruence.
    assert (Events : h' = (h ++ EvVisitFiles root
                             :: map (fun f => EvStat (Js.join root f)) files)
                          ++ [EvStat (Js.join root ".observablehq/cache")]) by congruence.
    clear Run. rewrite Most, Events.
    split; [reflexivity|]. split; [exact Each|]. split; [reflexivity|].
    destruct Attained as [Same | Found]; [| now right].
    left. split; [exact Same|]. destruct files as [|f rest]; [reflexivity|].
    destruct (Each 0%nat f eq_refl) as (m & _ & Le). rewrite Same in Le. discriminate.
Qed.

Lemma findMostRecentSourceMtimeMs_is_maximum_witness :
  findMostRecentSourceMtimeMs world_sources_without_cache []
  = (Ret (Js.Finite 250),
     [EvVisitFiles "src"; EvStat "src/index.md"; EvStat "src/data.csv";
      EvStat "src/.observablehq/cache"])
  /\ exists files,
      visitFiles_at world_sources_without_cache 0 "src" = Resolves files
      /\ forall i f, nth_error files i = Some f ->
                     exists m, read_mtime world_sources_without_cache ([] ++ [EvVisitFiles "src"])
                                          "src" files i m
                               /\ num_le (Js.Finite m) (Js.Finite 250).
Proof.
  split; [reflexivity|].
  destruct (findMostRecentSourceMtimeMs_is_maximum
              world_sources_without_cache []
              [EvVisitFiles "src"; EvStat "src/index.md"; EvStat "src/data.csv";
               EvStat "src/.observablehq/cache"]
              (Js.Finite 250) eq_refl) as (files & Listed & _ & Each & _).
  exists files. split; [exact Listed | exact Each].
Defined.


(** ** Polling until the server is done *)

(** How [pollForProcessingCompletion] leaves its loop on a status that is
    neither [created] nor [pending]: the outcome, and the text it stops
    the spinner with. *)
Definition verdict (final : GetDeployResponse) : Outcome GetDeployResponse * string :=
  let status := d_status final in
  if (status =? "uploaded")%string then (Ret final, "Deploy complete")
  else if (status =? "failed")%string
       then (Throw (cliError "Deploy failed to process on server"), "Deploy failed")
  else if (status =? "canceled")%string
       then (Throw (cliError "Deploy canceled"), "Deploy canceled")
  else (Throw (cliError ("Unknown deploy status: " ++ status)), "Unknown status").

Definition is_waiting (status : string) : bool :=
  (status =? "created")%string || (status =? "pending")%string.

(** The [n] polls that follow the trace [h] are in time and find the
    deploy [created] or [pending]. *)
Definition still_processing (env : Env) (deployId : string) (pollExpiration : Z) (h : Trace)
           (n : nat) : Prop :=
  forall i, (i < n)%nat ->
            Date_now_at env (List.length h + 3 * i) <= pollExpiration
            /\ exists info,
                getDeploy_at env (S (List.length h + 3 * i)) deployId = Resolves info
                /\ is_waiting (d_status info) = true.

Definition waitingRound (env : Env) (deployId : string) : Trace :=
  [EvDateNow; EvGetDeploy deployId; EvSleep (pollInterval env)].

Definition is_getDeploy (ev : Event) : bool :=
  match ev with EvGetDeploy _ => true | _ => false end.

(** The deploy is [pending] at two polls and [failed] at the third. *)
Definition world_deploy_fails_late : Env :=
  scripted defaultOptions [mockWorkspace] true
           [Clock 10; Deploy (Resolves (mockDeploy "pending")); Silent;
            Clock 20; Deploy (Resolves (mockDeploy "created")); Silent;
            Clock 30; Deploy (Resolves (mockDeploy "failed"))].


Lemma pollLoop_waits (env : Env) (fuel : nat) (deployId : string) (pollExpiration : Z)
      (deployInfo : option GetDeployResponse) (info : GetDeployResponse) (h : Trace) :
  Date_now_at env (List.length h) <= pollExpiration ->
  getDeploy_at env (S (List.length h)) deployId = Resolves info ->
  is_waiting (d_status info) = true ->
  pollLoop env (S fuel) deployId pollExpiration deployInfo h
  = pollLoop env fuel deployId pollExpiration (Some info) (h ++ waitingRound env deployId).
Proof.
  intros Early Polled Waiting. apply pollLoop_continues; auto.
  unfold is_waiting in Waiting. apply orb_true_iff in Waiting.
  destruct Waiting as [W|W]; apply String.eqb_eq in W; auto.
Qed.

Lemma pollLoop_verdict (env : Env) (fuel : nat) (deployId : string) (pollExpiration : Z)
      (deployInfo : option GetDeployResponse) (final : GetDeployResponse) (h : Trace) :
  Date_now_at env (List.length h) <= pollExpiration ->
  getDeploy_at env (S (List.length h)) deployId = Resolves final ->
  is_waiting (d_status final) = false ->
  pollLoop env (S fuel) deployId pollExpiration deployInfo h
  = (fst (verdict final),
     h ++ [EvDateNow; EvGetDeploy deployId; EvSpinnerStop (snd (verdict final))]).
Proof.
  intros Early Polled Terminal. cbn [pollLoop]. unfold bind at 1. unfold Date_now, perform.
  assert (NotLate : (Date_now_at env (List.length h) >? pollExpiration) = false).
  { destruct (Z.gtb_spec (Date_now_at env (List.length h)) pollExpiration); [lia | reflexivity]. }
  rewrite NotLate. unfold bind at 1. unfold getDeploy. rewrite await_run, length_snoc, Polled.
  unfold is_waiting in Terminal. rewrite Terminal. unfold verdict.
  destruct (d_status final =? "uploaded")%string;
    [| destruct (d_status final =? "failed")%string;
       [| destruct (d_status final =? "canceled")%string]];
    unfold bind, emit, perform, ret, throw; simpl; now rewrite <- !app_assoc.
Qed.

Lemma still_processing_next (env : Env) (deployId : string) (pollExpiration : Z) (h : Trace)
      (n : nat) :
  still_processing env deployId pollExpiration h (S n) ->
  still_processing env deployId pollExpiration (h ++ waitingRound env deployId) n.
Proof.
  intros Waiting i Below. destruct (Waiting (S i)) as (Early & info & Polled & W); [lia|].
  unfold waitingRound. rewrite length_app. simpl List.length.
  replace (List.length h + 3 + 3 * i)%nat with (List.length h + 3 * S i)%nat by lia.
  eauto.
Qed.

(** X12: if the completion poll finds the deploy [created] or [pending]
    [n] times in a row, in time, and then, still in time, finds any other
    status, then with fuel for [n + 1] iterations
    [pollForProcessingCompletion]'s loop ends at that poll: it returns the
    polled record if the status is [uploaded], and throws
    "Deploy failed to process on server" for [failed], "Deploy canceled" for
    [canceled] and "Unknown deploy status: <status>" for anything else.  It
    has slept between the polls and not after the last one, and has made
    exactly [n + 1] status requests. *)
Theorem completion_poll_ends_at_first_terminal_status (env : Env) (deployId : string)
        (pollExpiration : Z) (final : GetDeployResponse) (n : nat) :
  forall (fuel : nat) (deployInfo : option GetDeployResponse) (h : Trace),
    still_processing env deployId pollExpiration h n ->
    Date_now_at env (List.length h + 3 * n) <= pollExpiration ->
    getDeploy_at env (S (List.length h + 3 * n)) deployId = Resolves final ->
    is_waiting (d_status final) = false ->
    let run := pollLoop env (S n + fuel) deployId pollExpiration deployInfo h in
    run = (fst (verdict final),
           h ++ concat (repeat (waitingRound env deployId) n)
             ++ [EvDateNow; EvGetDeploy deployId; EvSpinnerStop (snd (verdict final))])
    /\ count_events is_getDeploy (snd run) = (count_events is_getDeploy h + S n)%nat.
Proof.
  induction n as [|n IH]; intros fuel deployInfo h Waiting Early Polled Terminal run; subst run.
  - rewrite Nat.mul_0_r, Nat.add_0_r in *.
    rewrite (pollLoop_verdict env _ deployId pollExpiration deployInfo final h Early Polled Terminal).
    split; [reflexivity|]. simpl snd. rewrite count_events_app. reflexivity.
  - destruct (Waiting 0%nat) as (Early0 & info & Polled0 & W0); [lia|].
    rewrite Nat.mul_0_r, Nat.add_0_r in *.
    change (S (S n) + fuel)%nat with (S (S n + fuel)).
    rewrite (pollLoop_waits env _ deployId pollExpiration deployInfo info h Early0 Polled0 W0).
    destruct (IH fuel (Some info) (h ++ waitingRound env deployId)) as (Run & Count).
    + now apply still_processing_next.
    + unfold waitingRound. rewrite length_app. simpl List.length.
      replace (List.length h + 3 + 3 * n)%nat with (List.length h + 3 * S n)%nat by lia.
      exact Early.
    + unfold waitingRound. rewrite length_app. simpl List.length.
      replace (List.length h + 3 + 3 * n)%nat with (List.length h + 3 * S n)%nat by lia.
      exact Polled.
    + exact Terminal.
    + cbv zeta in Run, Count. split.
      * rewrite Run. cbn [repeat concat]. now rewrite <- !app_assoc.
      * rewrite Count, count_events_app. unfold waitingRound, count_events at 2. simpl. lia.
Qed.

Lemma completion_poll_ends_at_first_terminal_status_witness :
  pollLoop world_deploy_fails_late 3 "D1" 1000 None []
  = (Throw (cliError "Deploy failed to process on server"),
     [EvDateNow; EvGetDeploy "D1"; EvSleep 5000;
      EvDateNow; EvGetDeploy "D1"; EvSleep 5000;
      EvDateNow; EvGetDeploy "D1"; EvSpinnerStop "Deploy failed"])
  /\ count_events is_getDeploy (snd (pollLoop world_deploy_fails_late 3 "D1" 1000 None []))
     = 3%nat.
Proof.
  apply (completion_poll_ends_at_first_terminal_status
           world_deploy_fails_late "D1" 1000 (mockDeploy "failed") 2 0 None []).
  - intros i Below. destruct i as [|[|i]]; [| | lia].
    + split; [vm_compute; discriminate|]. exists (mockDeploy "pending"). split; reflexivity.
    + split; [vm_compute; discriminate|]. exists (mockDeploy "created"). split; reflexivity.
  - vm_compute. discriminate.
  - reflexivity.
  - reflexivity.
Defined.


(** The [n] polls that follow the trace [h] are in time and find the
    project's latest deploy unchanged. *)
Definition build_not_started (env : Env) (workspace : WorkspaceRef) (project : GetProjectResponse)
           (pollExpiration : Z) (h : Trace) (n : nat) : Prop :=
  forall i, (i < n)%nat ->
            Date_now_at env (List.length h + 3 * i) <= pollExpiration
            /\ exists polled,
                getProject_at env (S (List.length h + 3 * i)) (ws_login workspace)
                              (p_slug project) = Resolves polled
                /\ p_latestCreatedDeployId polled = p_latestCreatedDeployId project.

Definition pollingRound (env : Env) (workspace : WorkspaceRef) (project : GetProjectResponse)
  : Trace :=
  [EvDateNow; EvGetProject (ws_login workspace) (p_slug project); EvSleep (pollInterval env)].

(** The text [cloudBuild] stops its spinner with when the deploy has started. *)
Definition deployStarted (env : Env) (workspace : WorkspaceRef) (project : GetProjectResponse)
           (started : option string) : string :=
  ("Deploy started. Watch logs: "
   ++ link env ((OBSERVABLE_UI_ORIGIN env ++ "projects/@" ++ ws_login workspace ++ "/"
                 ++ p_slug project) ++ "/deploys/" ++ Js.show_nullable started))%string.

Definition mockProjectDeployed (latest : string) : GetProjectResponse :=
  {| p_id := "P1"; p_slug := "my-app"; p_title := "My App";
     p_owner := workspaceRef mockWorkspace;
     p_latestCreatedDeployId := Some latest;
     p_build_environment_id := Some "env1";
     p_source := Some mockSource |}.

(** The project shows the old deploy [D0] at the first poll and the new
    deploy [D7] at the second. *)
Definition world_build_starts : Env :=
  scripted defaultOptions [mockWorkspace] true
           [Clock 10; Project (Resolves (mockProjectDeployed "D0")); Silent;
            Clock 20; Project (Resolves (mockProjectDeployed "D7"))].


Lemma same_deploy_id (a b : option string) :
  match a, b with
  | Some x, Some y => (x =? y)%string
  | None, None => true
  | _, _ => false
  end = false <-> a <> b.
Proof.
  destruct a as [x|], b as [y|]; split; intros H; try discriminate; try congruence.
  - intros E. inversion E. subst. now rewrite String.eqb_refl in H.
  - apply String.eqb_neq. congruence.
Qed.

Lemma cloudBuild_loop_started (env : Env) (fuel : nat) (workspace : WorkspaceRef)
      (project polled : GetProjectResponse) (pollExpiration : Z) (h : Trace) :
  Date_now_at env (List.length h) <= pollExpiration ->
  getProject_at env (S (List.length h)) (ws_login workspace) (p_slug project) = Resolves polled ->
  p_latestCreatedDeployId polled <> p_latestCreatedDeployId project ->
  cloudBuild_loop env (S fuel) workspace project pollExpiration h
  = (Ret (p_latestCreatedDeployId polled),
     h ++ [EvDateNow; EvGetProject (ws_login workspace) (p_slug project);
           EvSpinnerStop (deployStarted env workspace project (p_latestCreatedDeployId polled))]).
Proof.
  intros Early Polled Changed. cbn [cloudBuild_loop]. unfold bind at 1. unfold Date_now, perform.
  assert (NotLate : (Date_now_at env (List.length h) >? pollExpiration) = false).
  { destruct (Z.gtb_spec (Date_now_at env (List.length h)) pollExpiration); [lia | reflexivity]. }
  rewrite NotLate. unfold bind at 1. unfold getProject. rewrite await_run, length_snoc, Polled.
  apply same_deploy_id in Changed. rewrite Changed. change (negb false) with true. cbv iota.
  unfold bind, emit, perform, ret, deployStarted. simpl. now rewrite <- !app_assoc.
Qed.

Lemma build_not_started_next (env : Env) (workspace : WorkspaceRef)
      (project : GetProjectResponse) (pollExpiration : Z) (h : Trace) (n : nat) :
  build_not_started env workspace project pollExpiration h (S n) ->
  build_not_started env workspace project pollExpiration
                    (h ++ pollingRound env workspace project) n.
Proof.
  intros Waiting i Below. destruct (Waiting (S i)) as (Early & polled & Polled & Same); [lia|].
  unfold pollingRound. rewrite length_app. simpl List.length.
  replace (List.length h + 3 + 3 * i)%nat with (List.length h + 3 * S i)%nat by lia.
  eauto.
Qed.

(** X13: if the polls of [cloudBuild] find the project's
    [latestCreatedDeployId] unchanged [n] times in a row, in time, and
    then, still in time, find a different one, then with fuel for [n + 1]
    iterations the loop returns that new deploy id, after [n] sleeps of the
    poll interval and a spinner message that links to the deploy's logs. *)
Theorem cloudBuild_returns_first_new_deploy (env : Env) (workspace : WorkspaceRef)
        (project polled : GetProjectResponse) (pollExpiration : Z) (n : nat) :
  forall (fuel : nat) (h : Trace),
    build_not_started env workspace project pollExpiration h n ->
    Date_now_at env (List.length h + 3 * n) <= pollExpiration ->
    getProject_at env (S (List.length h + 3 * n)) (ws_login workspace) (p_slug project)
    = Resolves polled ->
    p_latestCreatedDeployId polled <> p_latestCreatedDeployId project ->
    cloudBuild_loop env (S n + fuel) workspace project pollExpiration h
    = (Ret (p_latestCreatedDeployId polled),
       h ++ concat (repeat (pollingRound env workspace project) n)
         ++ [EvDateNow; EvGetProject (ws_login workspace) (p_slug project);
             EvSpinnerStop (deployStarted env workspace project
                                          (p_latestCreatedDeployId polled))]).
Proof.
  induction n as [|n IH]; intros fuel h Waiting Early Polled Changed.
  - rewrite Nat.mul_0_r, Nat.add_0_r in *.
    now rewrite (cloudBuild_loop_started env _ workspace project polled pollExpiration h).
  - destruct (Waiting 0%nat) as (Early0 & polled0 & Polled0 & Same0); [lia|].
    rewrite Nat.mul_0_r, Nat.add_0_r in *.
    change (S (S n) + fuel)%nat with (S (S n + fuel)).
    rewrite (cloudBuild_loop_continues env _ workspace project polled0 pollExpiration h
                                       Early0 Polled0 Same0).
    fold (pollingRound env workspace project).
    rewrite (IH fuel (h ++ pollingRound env workspace project)).
    + cbn [repeat concat]. now rewrite <- !app_assoc.
    + now apply build_not_started_next.
    + unfold pollingRound. rewrite length_app. simpl List.length.
      replace (List.length h + 3 + 3 * n)%nat with (List.length h + 3 * S n)%nat by lia.
      exact Early.
    + unfold pollingRound. rewrite length_app. simpl List.length.
      replace (List.length h + 3 + 3 * n)%nat with (List.length h + 3 * S n)%nat by lia.
      exact Polled.
    + exact Changed.
Qed.

Lemma cloudBuild_returns_first_new_deploy_witness :
  cloudBuild_loop world_build_starts 2 (workspaceRef mockWorkspace) (mockProjectDeployed "D0")
                  1000 []
  = (Ret (Some "D7"),
     [EvDateNow; EvGetProject "mock-user-ws" "my-app"; EvSleep 5000;
      EvDateNow; EvGetProject "mock-user-ws" "my-app";
      EvSpinnerStop "Deploy started. Watch logs: https://observablehq.com/projects/@mock-user-ws/my-app/deploys/D7"]).
Proof.
  apply (cloudBuild_returns_first_new_deploy
           world_build_starts (workspaceRef mockWorkspace) (mockProjectDeployed "D0")
           (mockProjectDeployed "D7") 1000 1 0 []).
  - intros i Below. destruct i as [|i]; [| lia].
    split; [vm_compute; discriminate|]. exists (mockProjectDeployed "D0"). split; reflexivity.
  - vm_compute. discriminate.
  - reflexivity.
  - discriminate.
Defined.


(** ** [validateGitHubLink] without a configured source *)















(** ** [getGitHubRemote]: the remotes git lists *)











Section GitRemotes.

Local Open Scope string_scope.
































End GitRemotes.


(** ** The manifest and the end of the upload *)


(** The build manifest [markDeployUploaded] reads after the trace [h]:
    [null] when the file cannot be read or parsed. *)
Definition buildManifestAt (env : Env) (h : Trace) : option string :=
  match readCacheFile_at env (List.length h) (config_root (options env)) "_build.json" with
  | Resolves source =>
      match JSON_parse env source with
      | Resolves parsed => Some parsed
      | Rejects _ => None
      end
  | Rejects _ => None
  end.

(** The calls that tell the server that the upload is complete. *)
Fixpoint uploadedMarks (t : Trace) : list (string * option string) :=
  match t with
  | [] => []
  | EvPostDeployUploaded deployId buildManifest :: rest =>
      (deployId, buildManifest) :: uploadedMarks rest
  | _ :: rest => uploadedMarks rest
  end.




Lemma bind_emit {B} (ev : Event) (k : unit -> M B) (h : Trace) :
  bind (emit ev) k h = k tt (h ++ [ev]).
Proof. reflexivity. Qed.


(** X18: [markDeployUploaded] never fails for want of the build manifest.
    Whether [_build.json] is read, is missing, or cannot be read or parsed,
    the server is told exactly once that the upload is complete, with the
    manifest if there is one and with [null] otherwise, and the outcome is
    that of this call. *)
Theorem markDeployUploaded_always_marks (env : Env) (deployId : string) (h : Trace) :
  exists report,
    uploadedMarks report = []
    /\ markDeployUploaded env deployId h
       = (match postDeployUploaded_at env (List.length (h ++ report)) deployId
                                      (buildManifestAt env h) with
          | Resolves r => Ret r
          | Rejects e => Throw e
          end,
          (h ++ report) ++ [EvPostDeployUploaded deployId (buildManifestAt env h)]).
Proof.
  unfold markDeployUploaded, buildManifestAt.
  unfold bind at 1. unfold tryCatch, bind at 1. rewrite await_run.
  assert (Failed : forall e,
             exists report,
               uploadedMarks report = []
               /\ (bind (fun h' => (if isEnoent e then emit (EvTelemetry "buildManifest: missing")
                                     else
                                       emit (EvTelemetry "buildManifest: error") ;;
                                       log Warn ("Could not read build manifest: "
                                                     ++ error_message e)%string) h')
                         (fun _ => ret None) (h ++ [EvReadCacheFile "_build.json"])
                    = (Ret (@None string), h ++ report))).
  { intros e. destruct (isEnoent e).
    - exists [EvReadCacheFile "_build.json"; EvTelemetry "buildManifest: missing"].
      split; [reflexivity|]. rewrite bind_emit. unfold ret. now rewrite <- app_assoc.
    - exists [EvReadCacheFile "_build.json"; EvTelemetry "buildManifest: error";
              EvLog Warn ("Could not read build manifest: " ++ error_message e)%string].
      split; [reflexivity|]. unfold bind, log, emit, perform, ret. now rewrite <- !app_assoc. }
  destruct (readCacheFile_at env (List.length h) (config_root (options env)) "_build.json")
    as [source|e].
  - unfold bind at 1. destruct (JSON_parse env source) as [parsed|e]; cbn [liftReply].
    + exists [EvReadCacheFile "_build.json"; EvTelemetry "buildManifest: found"].
      split; [reflexivity|]. unfold ret at 1. rewrite bind_emit. unfold ret.
      rewrite await_run. now rewrite <- !app_assoc.
    + unfold throw at 1. destruct (Failed e) as (report & Quiet & Run).
      exists report. split; [exact Quiet|].
      unfold bind at 1 in Run. unfold bind at 1.
      destruct (isEnoent e); rewrite Run; now rewrite await_run.
  - destruct (Failed e) as (report & Quiet & Run).
    exists report. split; [exact Quiet|].
    unfold bind at 1 in Run. unfold bind at 1.
    destruct (isEnoent e); rewrite Run; now rewrite await_run.
Qed.


(** ** What the phases of a deploy leave alone *)

(** The interactions that resolve the deploy target, create the app or
    the deploy, or link the repository: reading and writing the persisted
    deploy config, the project and workspace lookups, the prompts for a
    choice or a text, git, and the calls that create or configure. *)
Definition is_targeting (ev : Event) : bool :=
  match ev with
  | EvGetDeployConfig | EvSetDeployConfig _ | EvPostProject _ _ _ _ | EvPostDeploy _ _
  | EvPostProjectBuild _ | EvPostProjectEnvironment _ _ | EvGetProject _ _
  | EvGetWorkspaceProjects _ | EvSelect _ | EvText _ | EvExec _ | EvExistsSync _
  | EvGetGitHubRepository _ => true
  | _ => false
  end.

(** The interactions of a build in the cloud: git, the repository
    lookups, the link of the source, the build request and its polling. *)
Definition is_cloudBuild (ev : Event) : bool :=
  match ev with
  | EvPostProjectBuild _ | EvPostProjectEnvironment _ _ | EvGetProject _ _
  | EvExec _ | EvExistsSync _ | EvGetGitHubRepository _ => true
  | _ => false
  end.

(** The interactions of a deploy of local files: the build, the reads of
    build and source files, the creation of the deploy with its message,
    the manifest, the uploads and the final mark. *)
Definition is_localUpload (ev : Event) : bool :=
  match ev with
  | EvBuild | EvVisitFiles _ | EvStat _ | EvReadFile _ | EvReadCacheFile _
  | EvConfirm _ _ | EvText _ | EvPostDeploy _ _ | EvPostDeployManifest _ _
  | EvPostDeployFile _ _ _ | EvPostDeployUploaded _ _ | EvRateLimiterWait => true
  | _ => false
  end.

(** [deployConfig.continuousDeployment] as a condition. *)
Definition continuous (deployConfig : DeployConfig) : bool :=
  match continuousDeployment deployConfig with
  | Some true => true
  | _ => false
  end.


(** *** Runs that stay clear of a kind of interaction *)

Lemma quiet_subset {A} (p q : Event -> bool) (m : M A) :
  (forall ev, q ev = true -> p ev = true) -> quiet p m -> quiet q m.
Proof.
  intros Sub Quiet. eapply sat_weaken; [exact Quiet|]. cbv beta.
  intros _ evs. unfold count_events. induction evs as [|ev evs IH]; [reflexivity|].
  cbn [filter]. destruct (q ev) eqn:Q.
  - rewrite (Sub ev Q). discriminate.
  - destruct (p ev); [discriminate | exact IH].
Qed.

Section QuietPolling.

Variable env : Env.
Variable p : Event -> bool.
Hypothesis p_dateNow : p EvDateNow = false.
Hypothesis p_sleep : forall ms, p (EvSleep ms) = false.
Hypothesis p_getDeploy : forall id, p (EvGetDeploy id) = false.
Hypothesis p_spinnerStart : forall s, p (EvSpinnerStart s) = false.
Hypothesis p_spinnerStop : forall s, p (EvSpinnerStop s) = false.

Ltac quiet_polling :=
  repeat first
    [ apply quiet_ret
    | apply quiet_throw
    | apply quiet_outOfFuel
    | apply quiet_await; solve [auto]
    | apply quiet_perform; solve [auto]
    | apply quiet_bind; [| intros ?]
    | progress unfold_calls ].

Lemma quiet_pollLoop (fuel : nat) (deployId : string) (pollExpiration : Z) :
  forall deployInfo, quiet p (pollLoop env fuel deployId pollExpiration deployInfo).
Proof.
  induction fuel as [|fuel IH]; intros deployInfo; cbn [pollLoop]; [apply quiet_outOfFuel|].
  apply quiet_bind; [quiet_polling|]. intros now.
  destruct (now >? pollExpiration); [quiet_polling|].
  apply quiet_bind; [quiet_polling|]. intros info.
  repeat match goal with
         | |- quiet _ (if ?x then _ else _) => destruct x
         end; quiet_polling. apply IH.
Qed.

Lemma quiet_pollForProcessingCompletion (fuel : nat) (deployId : string) :
  quiet p (pollForProcessingCompletion env fuel deployId).
Proof. unfold pollForProcessingCompletion. quiet_polling. apply quiet_pollLoop. Qed.

End QuietPolling.

(** *** The phases of a deploy of local files *)

Ltac quiet_cases :=
  repeat first
    [ quiet_steps
    | match goal with
      | |- quiet _ (if ?x then _ else _) => destruct x
      | |- quiet _ (let '(_, _) := ?x in _) => destruct x
      end ].

Lemma quiet_findBuildFiles (env : Env) : quiet is_targeting (findBuildFiles env).
Proof. unfold findBuildFiles. quiet_cases. Qed.

Lemma quiet_leastRecent (env : Env) (root : string) (files : list string) :
  forall least, quiet is_targeting (leastRecent env root files least).
Proof.
  induction files as [|file rest IH]; intros least; cbn [leastRecent]; [apply quiet_ret|].
  apply quiet_bind; [quiet_steps|]. intros st. apply IH.
Qed.

Lemma quiet_mostRecent (env : Env) (root : string) (files : list string) :
  forall most, quiet is_targeting (mostRecent env root files most).
Proof.
  induction files as [|file rest IH]; intros most; cbn [mostRecent]; [apply quiet_ret|].
  apply quiet_bind; [quiet_steps|]. intros st. apply IH.
Qed.

Lemma quiet_formatAge (env : Env) (age : Js.Num) : quiet is_targeting (formatAge env age).
Proof. unfold formatAge. quiet_cases. Qed.

Lemma quiet_askToRebuild (env : Env) : quiet is_targeting (askToRebuild env).
Proof.
  unfold askToRebuild, findLeastRecentBuildMtimeMs, findMostRecentSourceMtimeMs.
  apply quiet_bind.
  { apply quiet_bind; [quiet_steps|]. intros files. apply quiet_leastRecent. }
  intros least. apply quiet_bind.
  { apply quiet_bind; [quiet_steps|]. intros files.
    apply quiet_bind; [apply quiet_mostRecent|]. intros most. quiet_cases. }
  intros most. apply quiet_bind; [quiet_steps|]. intros now.
  apply quiet_bind.
  { destruct (Js.gt most least);
      (apply quiet_bind; [apply quiet_formatAge|]); intros age; quiet_steps. }
  intros initialValue. quiet_cases.
Qed.

Lemma quiet_getBuildFilePaths (env : Env) : quiet is_targeting (getBuildFilePaths env).
Proof.
  unfold getBuildFilePaths.
  apply quiet_bind.
  { apply quiet_tryCatch.
    - apply quiet_bind; [apply quiet_findBuildFiles|]. intros files. apply quiet_ret.
    - intros error. quiet_cases. }
  intros [doBuild0 buildFilePaths0].
  apply quiet_bind.
  { destruct (negb doBuild0 && is_unforced (force (options env)) && isTty env);
      [apply quiet_askToRebuild | apply quiet_ret]. }
  intros doBuild. apply quiet_bind.
  { destruct doBuild; [| apply quiet_ret].
    apply quiet_bind; [quiet_steps|]. intros _.
    apply quiet_bind; [quiet_steps|]. intros _.
    apply quiet_bind; [apply quiet_findBuildFiles|]. intros rebuilt. apply quiet_ret. }
  intros [paths|]; quiet_steps.
Qed.

Lemma quiet_runAllFrom {A B} (p : Event -> bool) (worker : A -> nat -> M B) (tasks : list A) :
  (forall task index, quiet p (worker task index)) ->
  forall from, quiet p (runAllFrom from worker tasks).
Proof.
  intros Worker. induction tasks as [|task rest IH]; intros from; cbn [runAllFrom].
  - apply quiet_ret.
  - apply quiet_bind; [apply Worker|]. intros b.
    apply quiet_bind; [apply IH|]. intros bs. apply quiet_ret.
Qed.

Lemma quiet_uploadFiles (env : Env) (deployId : string) (files : list string) :
  quiet is_targeting (uploadFiles env deployId files).
Proof.
  unfold uploadFiles. apply quiet_bind.
  { unfold sendManifest, runAllWithConcurrencyLimit.
    apply quiet_bind; [quiet_steps|]. intros _.
    apply quiet_bind; [quiet_steps|]. intros _.
    apply quiet_bind.
    - apply quiet_runAllFrom. intros path index. unfold hashFile. quiet_steps.
    - intros infos. quiet_steps. }
  intros instructions. unfold followInstructions.
  apply quiet_bind; [quiet_cases|]. intros _.
  match goal with |- quiet _ (if ?x then _ else _) => destruct x end; [apply quiet_throw|].
  apply quiet_bind; [| intros _; quiet_steps].
  unfold runAllWithConcurrencyLimit. apply quiet_runAllFrom.
  intros path index. unfold uploadFile, waitForRateLimit. quiet_cases.
Qed.

Lemma quiet_markDeployUploaded (env : Env) (deployId : string) :
  quiet is_targeting (markDeployUploaded env deployId).
Proof. unfold markDeployUploaded. quiet_cases. Qed.

Lemma quiet_checkDeployCreated (env : Env) (deployId : string) :
  quiet is_targeting (checkDeployCreated env deployId).
Proof. unfold checkDeployCreated. quiet_cases. Qed.

(** X19: [continueExistingDeploy] takes the deploy as given.  From the
    check of the deploy to the end of the server's processing it neither
    reads nor writes the persisted deploy config, looks up or creates no
    project and no deploy, asks for no choice and no text, runs no git
    command and requests no build in the cloud. *)
Theorem continueExistingDeploy_resolves_no_target (env : Env) (fuel : nat) :
  quiet is_targeting (continueExistingDeploy env fuel).
Proof.
  unfold continueExistingDeploy.
  destruct (deployId (options env)) as [id|]; [| apply quiet_throw].
  destruct (id =? "")%string; [apply quiet_throw|].
  apply quiet_bind; [apply quiet_checkDeployCreated|]. intros _.
  apply quiet_bind; [apply quiet_getBuildFilePaths|]. intros buildFilePaths.
  apply quiet_bind; [apply quiet_uploadFiles|]. intros _.
  apply quiet_bind; [apply quiet_markDeployUploaded|]. intros _.
  apply quiet_pollForProcessingCompletion; reflexivity.
Qed.

(** *** The two ways of a new deploy *)

Lemma quiet_createNewDeploy (env : Env) (deployTarget : DeployTargetInfo) :
  quiet is_cloudBuild (createNewDeploy env deployTarget).
Proof. unfold createNewDeploy. quiet_cases. Qed.

Lemma quiet_getGitHubRemote (env : Env) : quiet is_localUpload (getGitHubRemote env).
Proof.
  unfold getGitHubRemote. apply quiet_bind; [quiet_steps|]. intros stdout.
  apply quiet_bind; [apply quiet_liftReply|]. intros remotes.
  destruct (find usableRemote remotes) as [[[[owner|] [repo|]]|]|]; quiet_steps.
Qed.

Lemma quiet_authorizationPoll (env : Env) (fuel : nat) (owner repo : string)
      (pollExpiration : Z) :
  quiet is_localUpload (authorizationPoll env fuel owner repo pollExpiration).
Proof.
  induction fuel as [|fuel IH]; cbn [authorizationPoll]; [apply quiet_outOfFuel|].
  apply quiet_bind; [quiet_steps|]. intros _.
  apply quiet_bind; [quiet_steps|]. intros now.
  destruct (now >? pollExpiration); [quiet_steps|].
  apply quiet_bind; [quiet_steps|]. intros [r|]; [quiet_steps | apply IH].
Qed.

Lemma quiet_validateGitHubLink (env : Env) (fuel : nat) (deployTarget : DeployTargetInfo) :
  quiet is_localUpload (validateGitHubLink env fuel deployTarget).
Proof.
  unfold validateGitHubLink. destruct deployTarget as [? ? ? ?|workspace project];
    [apply quiet_throw|].
  destruct (negb (Js.truthy (p_build_environment_id project))); [apply quiet_throw|].
  apply quiet_bind.
  { unfold readLocalRepository. apply quiet_bind; [quiet_steps|]. intros isGit.
    destruct (negb isGit); [apply quiet_throw|].
    apply quiet_bind; [apply quiet_getGitHubRemote|]. intros [owner repo]. quiet_steps. }
  intros local. destruct (p_source project) as [source|].
  - unfold checkConfiguredSource, settingsLink, settingsUrl. quiet_cases.
  - unfold configureSource. apply quiet_bind; [| intros authorized; quiet_cases].
    destruct (local_github local); [apply quiet_ret|].
    destruct (negb (isTty env)); [apply quiet_throw|].
    apply quiet_bind; [quiet_steps|]. intros _.
    apply quiet_bind; [quiet_steps|]. intros _.
    apply quiet_bind; [quiet_steps|]. intros now. apply quiet_authorizationPoll.
Qed.

Lemma quiet_cloudBuild_loop (env : Env) (fuel : nat) (workspace : WorkspaceRef)
      (project : GetProjectResponse) (pollExpiration : Z) :
  quiet is_localUpload (cloudBuild_loop env fuel workspace project pollExpiration).
Proof.
  induction fuel as [|fuel IH]; cbn [cloudBuild_loop]; [apply quiet_outOfFuel|].
  apply quiet_bind; [quiet_steps|]. intros now.
  destruct (now >? pollExpiration); [quiet_steps|].
  apply quiet_bind; [quiet_steps|]. intros polled.
  match goal with |- quiet _ (if ?x then _ else _) => destruct x end.
  - unfold settingsUrl. quiet_steps.
  - apply quiet_bind; [quiet_steps|]. intros _. apply IH.
Qed.

Lemma quiet_cloudBuild (env : Env) (fuel : nat) (deployTarget : DeployTargetInfo) :
  quiet is_localUpload (cloudBuild env fuel deployTarget).
Proof.
  unfold cloudBuild. destruct deployTarget as [? ? ? ?|workspace project];
    [apply quiet_throw|].
  apply quiet_bind; [quiet_steps|]. intros _.
  apply quiet_bind; [quiet_steps|]. intros _.
  apply quiet_bind; [quiet_steps|]. intros now. apply quiet_cloudBuild_loop.
Qed.

Lemma cloudBuild_in_targeting (ev : Event) : is_cloudBuild ev = true -> is_targeting ev = true.
Proof. now destruct ev. Qed.

(** X20: once the target is resolved, [startNewDeploy] goes one of two
    ways and keeps them apart.  With continuous deployment it builds
    nothing locally, reads no build or source file, asks nothing and
    creates no deploy, sends no manifest and uploads no file; without, it
    runs no git command, looks up no repository, links no source and
    requests no build in the cloud. *)
Theorem startNewDeploy_keeps_the_modes_apart (env : Env) (fuel : nat) (h h1 : Trace)
        (deployConfig : DeployConfig) (deployTarget : DeployTargetInfo) :
  resolveDeployTarget env h = (Ret (deployConfig, deployTarget), h1) ->
  exists evs,
    snd (startNewDeploy env fuel h) = h1 ++ evs
    /\ count_events (if continuous deployConfig then is_localUpload else is_cloudBuild) evs
       = 0%nat.
Proof.
  intros Resolved. unfold startNewDeploy. rewrite (bind_run _ _ _ _ _ Resolved).
  cbv beta iota. fold (continuous deployConfig).
  destruct (continuous deployConfig).
  - apply quiet_bind.
    + apply quiet_bind; [apply quiet_validateGitHubLink|]. intros _.
      apply quiet_bind; [apply quiet_cloudBuild|]. intros started. apply quiet_ret.
    + intros id. apply quiet_pollForProcessingCompletion; reflexivity.
  - apply quiet_bind.
    + apply quiet_bind;
        [apply (quiet_subset _ _ _ cloudBuild_in_targeting), quiet_getBuildFilePaths|].
      intros buildFilePaths.
      apply quiet_bind; [apply quiet_createNewDeploy|]. intros created.
      apply quiet_bind;
        [apply (quiet_subset _ _ _ cloudBuild_in_targeting), quiet_uploadFiles|].
      intros _.
      apply quiet_bind;
        [apply (quiet_subset _ _ _ cloudBuild_in_targeting), quiet_markDeployUploaded|].
      intros _. apply quiet_ret.
    + intros id. apply quiet_pollForProcessingCompletion; reflexivity.
Qed.

Lemma startNewDeploy_keeps_the_modes_apart_witness :
  exists evs,
    snd (startNewDeploy world_deploy_from_feature_branch 10 [])
    = [EvGetDeployConfig;
       EvGetProject "mock-user-ws" "my-app";
       EvLog Info "Deploying to My App (my-app) in the @mock-user-ws workspace.";
       EvSetDeployConfig config_continuous] ++ evs
    /\ count_events is_localUpload evs = 0%nat.
Proof.
  exact (startNewDeploy_keeps_the_modes_apart
           world_deploy_from_feature_branch 10 []
           [EvGetDeployConfig;
            EvGetProject "mock-user-ws" "my-app";
            EvLog Info "Deploying to My App (my-app) in the @mock-user-ws workspace.";
            EvSetDeployConfig config_continuous]
           config_continuous
           (Existing (workspaceRef mockWorkspace)
                     (mockProject (Some mockSource)))
           eq_refl).
Defined.


(** ** [getUpdatedDeployConfig]: the search for the app of a [projectId] *)

(** The first workspaces, asked after the trace [h], list no app with
    the id. *)
Definition listed_elsewhere (env : Env) (id : string) (h : Trace)
           (before : list WorkspaceResponse) : Prop :=
  forall i workspace,
    nth_error before i = Some workspace ->
    exists projects,
      getWorkspaceProjects_at env (List.length h + i) (w_login workspace) = Resolves projects
      /\ find (fun p => (p_id p =? id)%string) projects = None.

Definition projectLookups (workspaces : list WorkspaceResponse) : Trace :=
  map (fun workspace => EvGetWorkspaceProjects (w_login workspace)) workspaces.

(** The deploy config with the slug and the login the search assigns. *)
Definition backfilled (deployConfig : DeployConfig) (workspace : WorkspaceResponse)
           (project : GetProjectResponse) : DeployConfig :=
  {| projectId := projectId deployConfig;
     projectSlug := Some (p_slug project);
     workspaceLogin := Some (w_login workspace);
     continuousDeployment := continuousDeployment deployConfig |}.

Definition otherWorkspace : WorkspaceResponse :=
  {| w_id := "0000000000000002"; w_login := "other-ws";
     w_name := "Other Workspace"; w_role := "member" |}.

Definition thirdWorkspace : WorkspaceResponse :=
  {| w_id := "0000000000000003"; w_login := "third-ws";
     w_name := "Third Workspace"; w_role := "member" |}.

(** The app is in the second of three workspaces. *)
Definition world_app_in_second_workspace : Env :=
  scripted defaultOptions [otherWorkspace; mockWorkspace; thirdWorkspace] true
           [Projects (Resolves []);
            Projects (Resolves [mockProject None]);
            Done (Resolves tt)].


Lemma listed_elsewhere_next (env : Env) (id : string) (h : Trace)
      (workspace : WorkspaceResponse) (before : list WorkspaceResponse) :
  listed_elsewhere env id h (workspace :: before) ->
  listed_elsewhere env id (h ++ [EvGetWorkspaceProjects (w_login workspace)]) before.
Proof.
  intros Elsewhere i w Listed. rewrite length_snoc.
  replace (S (List.length h) + i)%nat with (List.length h + S i)%nat by lia.
  now apply Elsewhere.
Qed.

(** X21: the search of [getUpdatedDeployConfig] for the app of a
    [projectId] asks the user's workspaces in order and stops at the first
    one that lists an app with the id: it assigns the slug of that app and
    the login of that workspace, keeps the other fields, writes the config,
    and asks none of the workspaces that follow. *)
Theorem search_stops_at_first_workspace (env : Env) (deployConfig : DeployConfig)
        (id : string) (before after : list WorkspaceResponse) (workspace : WorkspaceResponse)
        (projects : list GetProjectResponse) (project : GetProjectResponse) :
  forall h : Trace,
    listed_elsewhere env id h before ->
    getWorkspaceProjects_at env (List.length h + List.length before) (w_login workspace)
    = Resolves projects ->
    find (fun p => (p_id p =? id)%string) projects = Some project ->
    let found := backfilled deployConfig workspace project in
    let asked := h ++ projectLookups (before ++ [workspace]) in
    searchWorkspaces env deployConfig id (before ++ workspace :: after) h
    = (match setDeployConfig_at env (List.length asked) found with
       | Resolves _ => Ret (true, found)
       | Rejects e => Throw e
       end, asked ++ [EvSetDeployConfig found]).
Proof.
  induction before as [|w before IH]; intros h Elsewhere Listed Found found asked.
  - cbn [app searchWorkspaces length] in *. rewrite Nat.add_0_r in Listed.
    erewrite bind_run;
      [| unfold getWorkspaceProjects; rewrite await_run, Listed; reflexivity].
    rewrite Found. unfold bind, setDeployConfig. rewrite await_run.
    unfold asked, found, backfilled, projectLookups. cbn [map app].
    now destruct (setDeployConfig_at env _ _) as [[]|e].
  - destruct (Elsewhere 0%nat w eq_refl) as (ps & Asked & Missing).
    rewrite Nat.add_0_r in Asked. cbn [app searchWorkspaces].
    erewrite bind_run;
      [| unfold getWorkspaceProjects; rewrite await_run, Asked; reflexivity].
    rewrite Missing.
    rewrite (IH (h ++ [EvGetWorkspaceProjects (w_login w)])
                (listed_elsewhere_next env id h w before Elsewhere)).
    + unfold asked, projectLookups. cbn [map app]. now rewrite <- !app_assoc.
    + rewrite length_snoc. cbn [length] in Listed.
      replace (S (List.length h) + List.length before)%nat
        with (List.length h + S (List.length before))%nat by lia.
      exact Listed.
    + exact Found.
Qed.

Lemma search_stops_at_first_workspace_witness :
  searchWorkspaces world_app_in_second_workspace config_legacy "P1"
                   [otherWorkspace; mockWorkspace; thirdWorkspace] []
  = (Ret (true, config_resolved),
     [EvGetWorkspaceProjects "other-ws"; EvGetWorkspaceProjects "mock-user-ws";
      EvSetDeployConfig config_resolved]).
Proof.
  apply (search_stops_at_first_workspace
           world_app_in_second_workspace config_legacy "P1"
           [otherWorkspace] [thirdWorkspace] mockWorkspace
           [mockProject None] (mockProject None) []).
  - intros i w Listed. destruct i as [|[|i]]; [| discriminate Listed | discriminate Listed].
    injection Listed as <-. exists []. split; reflexivity.
  - reflexivity.
  - reflexivity.
Defined.


(** ** [Deployer.setApiClientAndCurrentUser] *)

(** The stored API key as the code reads it: its [source], with the
    [filePath] or the [envVar] that the error message names. *)
Inductive ApiKeySource :=
| FromFile (filePath : string)
| FromEnv (envVar : string)
| FromElsewhere.

Record ApiKey := { key : string; source : ApiKeySource }.

(** The local variable [authError]; [None] is [null]. *)
Inductive AuthError := Unauthenticated | Forbidden.

(** [`${authError ?? "unknown error"}`] *)
Definition show_authError (authError : option AuthError) : string :=
  match authError with
  | Some Unauthenticated => "unauthenticated"
  | Some Forbidden => "forbidden"
  | None => "unknown error"
  end.

(** The interpolated [source] of the message for a rejected key. *)
Definition sourceText (apiKey : ApiKey) : string :=
  match source apiKey with
  | FromFile filePath => " from " ++ filePath
  | FromEnv envVar => " from $" ++ envVar
  | FromElsewhere => ""
  end.

Definition loginQuestion (authError : option AuthError) : string :=
  match authError with
  | Some Forbidden => "Your authentication is invalid. Do you want to log in to Observable again?"
  | _ => "You must be logged in to Observable to deploy. Do you want to do that now?"
  end.

Section Authentication.

Variable env : Env.

(** [GetCurrentUserResponse] *)
Variable User : Type.

(** [effects.getObservableApiKey], [apiClient.getCurrentUser] and
    [loginInner] are each called at most once: each is given by how it
    settles.  [validUser] is
    [{...currentUser, workspaces: validWorkspaces(currentUser.workspaces)}]. *)
Variable getObservableApiKey : Reply (option ApiKey).
Variable getCurrentUser : ApiKey -> Reply User.
Variable validUser : User -> User.
Variable loginInner : Reply (option User * ApiKey).
Variable commandRequiresAuthenticationMessage : string.

(** The [try] block with its [catch]: the values of [currentUser] and
    [authError] after it. *)
Definition fetchCurrentUser (apiKey : option ApiKey) : M (option User * option AuthError) :=
  match apiKey with
  | None => ret (None, None)
  | Some k =>
      tryCatch
        (currentUser <- liftReply (getCurrentUser k) ;;
         ret (Some (validUser currentUser), None))
        (fun error =>
           if isHttpError error then
             if statusCode_is error 401 then ret (None, Some Unauthenticated)
             else if statusCode_is error 403 then ret (None, Some Forbidden)
             else throw error
           else throw error)
  end.

(** The result is the pair of [this.currentUser] and the API key of
    [this.apiClient]. *)
Definition setApiClientAndCurrentUser : M (User * option ApiKey) :=
  apiKey <- liftReply getObservableApiKey ;;
  fetched <- fetchCurrentUser apiKey ;;
  let '(currentUser, authError) := fetched in
  match currentUser with
  | Some user => ret (user, apiKey)
  | None =>
      if negb (isTty env) then
        match authError, apiKey with
        | Some Unauthenticated, _ | _, None => throw (cliError "No authentication provided")
        | _, Some k =>
            throw (cliError ("Authentication" ++ sourceText k
                             ++ " was rejected by the server: " ++ show_authError authError))
        end
      else
        choice <- confirm env (loginQuestion authError) None ;;
        (match choice with
         | Answered false => emit (EvOutro (yellow env "Deploy canceled."))
         | _ => ret tt
         end) ;;
        match choice with
        | Answered true =>
            logged <- liftReply loginInner ;;
            let '(loggedUser, loggedKey) := logged in
            match loggedUser with
            | Some user => ret (user, Some loggedKey)
            | None => throw (cliError commandRequiresAuthenticationMessage)
            end
        | _ => throw (userCanceled "User canceled deploy")
        end
  end.

End Authentication.

Definition fileKey : ApiKey :=
  {| key := "MOCK-INVALID-KEY"; source := FromFile "/home/amaya/.observablehq" |}.

(** A batch session. *)
Definition world_batch : Env := scripted defaultOptions [mockWorkspace] false [].

(** An interactive session in which the user agrees to log in. *)
Definition world_agrees_to_log_in : Env :=
  scripted defaultOptions [mockWorkspace] true [Confirmed (Answered true)].


(** X22: in a session that is not interactive, authentication asks
    nothing and never logs in.  It succeeds only with a stored key that
    the server accepts; without a key, or with a key answered by 401, it
    fails with "No authentication provided"; a key answered by 403 fails
    with "Authentication <source> was rejected by the server: forbidden";
    any other failure of the lookup propagates unchanged. *)
Theorem batch_authentication_asks_nothing (env : Env) (User : Type)
        (getObservableApiKey : Reply (option ApiKey)) (getCurrentUser : ApiKey -> Reply User)
        (validUser : User -> User) (loginInner : Reply (option User * ApiKey))
        (required : string) (h : Trace) :
  isTty env = false ->
  setApiClientAndCurrentUser env User getObservableApiKey getCurrentUser validUser
                             loginInner required h
  = (match getObservableApiKey with
     | Rejects e => Throw e
     | Resolves None => Throw (cliError "No authentication provided")
     | Resolves (Some k) =>
         match getCurrentUser k with
         | Resolves user => Ret (validUser user, Some k)
         | Rejects e =>
             if statusCode_is e 401 then Throw (cliError "No authentication provided")
             else if statusCode_is e 403 then
               Throw (cliError ("Authentication" ++ sourceText k
                                ++ " was rejected by the server: forbidden")%string)
             else Throw e
         end
     end, h).
Proof.
  intros Batch. unfold setApiClientAndCurrentUser. rewrite Batch. cbn [negb].
  destruct getObservableApiKey as [[k|]|e]; [| reflexivity | reflexivity].
  cbn [liftReply]. rewrite bind_ret_l. cbn [fetchCurrentUser].
  destruct (getCurrentUser k) as [user|e]; [reflexivity|].
  unfold bind, tryCatch. cbn [liftReply]. unfold throw at 1.
  destruct e as [code msg codes| | |]; cbn [isHttpError statusCode_is]; try reflexivity.
  destruct (code =? 401); [reflexivity|].
  destruct (code =? 403); reflexivity.
Qed.

Lemma batch_authentication_asks_nothing_witness :
  setApiClientAndCurrentUser world_batch string (Resolves (Some fileKey))
                             (fun _ => Rejects (HttpError 403 "Forbidden" []))
                             (fun user => user) (Rejects (JsError "no login")) "" []
  = (Throw (cliError "Authentication from /home/amaya/.observablehq was rejected by the server: forbidden"),
     []).
Proof.
  exact (batch_authentication_asks_nothing
           world_batch string (Resolves (Some fileKey))
           (fun _ => Rejects (HttpError 403 "Forbidden" []))
           (fun user => user) (Rejects (JsError "no login")) "" [] eq_refl).
Defined.

(** X23: whoever [setApiClientAndCurrentUser] returns is known to the
    server through the stored key, and then nothing was asked, or has
    logged in after answering yes to the question of an interactive
    session; the key it returns is the stored key in the first case and
    the key of the login in the second. *)
Theorem authenticated_by_key_or_by_consent (env : Env) (User : Type)
        (getObservableApiKey : Reply (option ApiKey)) (getCurrentUser : ApiKey -> Reply User)
        (validUser : User -> User) (loginInner : Reply (option User * ApiKey))
        (required : string) (h h' : Trace) (user : User) (apiKey : option ApiKey) :
  setApiClientAndCurrentUser env User getObservableApiKey getCurrentUser validUser
                             loginInner required h
  = (Ret (user, apiKey), h') ->
  (exists k known,
      getObservableApiKey = Resolves (Some k)
      /\ getCurrentUser k = Resolves known
      /\ user = validUser known /\ apiKey = Some k /\ h' = h)
  \/ (exists question k,
         isTty env = true
         /\ confirm_at env (List.length h) question = Answered true
         /\ loginInner = Resolves (Some user, k)
         /\ apiKey = Some k
         /\ h' = h ++ [EvConfirm question None]).
Proof.
  unfold setApiClientAndCurrentUser.
  destruct getObservableApiKey as [stored|e]; [| discriminate].
  cbn [liftReply]. rewrite bind_ret_l.
  assert (Asked : forall authError,
             (if negb (isTty env)
              then match authError, stored with
                   | Some Unauthenticated, _ | _, None =>
                       throw (cliError "No authentication provided")
                   | _, Some k =>
                       throw (cliError ("Authentication" ++ sourceText k
                                        ++ " was rejected by the server: "
                                        ++ show_authError authError)%string)
                   end
              else
                choice <- confirm env (loginQuestion authError) None ;;
                (match choice with
                 | Answered false => emit (EvOutro (yellow env "Deploy canceled."))
                 | _ => ret tt
                 end) ;;
                match choice with
                | Answered true =>
                    logged <- liftReply loginInner ;;
                    let '(loggedUser, loggedKey) := logged in
                    match loggedUser with
                    | Some user => ret (user, Some loggedKey)
                    | None => throw (cliError required)
                    end
                | _ => throw (userCanceled "User canceled deploy")
                end) h = (Ret (user, apiKey), h') ->
             exists question k,
               isTty env = true
               /\ confirm_at env (List.length h) question = Answered true
               /\ loginInner = Resolves (Some user, k)
               /\ apiKey = Some k
               /\ h' = h ++ [EvConfirm question None]).
  { intros authError. destruct (isTty env).
    - cbn [negb]. unfold bind at 1. unfold confirm, perform.
      destruct (confirm_at env (List.length h) (loginQuestion authError)) as [[|]|] eqn:Choice;
        [| discriminate | discriminate].
      rewrite bind_ret_l.
      destruct loginInner as [[[logged|] k]|e]; [| discriminate | discriminate].
      cbn [liftReply]. rewrite bind_ret_l. intros [= <- <- <-].
      exists (loginQuestion authError), k. auto.
    - cbn [negb]. destruct authError as [[|]|], stored; discriminate. }
  destruct stored as [k|].
  - cbn [fetchCurrentUser]. destruct (getCurrentUser k) as [known|e] eqn:Known.
    + cbn [liftReply]. cbv [bind tryCatch ret]. intros [= <- <- <-].
      left. exists k, known. auto.
    + unfold bind at 1. unfold tryCatch, bind at 1. cbn [liftReply]. unfold throw at 1.
      destruct (isHttpError e); [| discriminate].
      destruct (statusCode_is e 401); [intros Run; right; exact (Asked _ Run)|].
      destruct (statusCode_is e 403); [intros Run; right; exact (Asked _ Run)|].
      discriminate.
  - cbn [fetchCurrentUser]. rewrite bind_ret_l. intros Run. right. exact (Asked _ Run).
Qed.

Lemma authenticated_by_key_or_by_consent_witness :
  exists question k,
    confirm_at world_agrees_to_log_in 0 question = Answered true
    /\ Some fileKey = Some k.
Proof.
  destruct (authenticated_by_key_or_by_consent
              world_agrees_to_log_in string (Resolves None)
              (fun _ => Rejects (JsError "no key"))
              (fun user => user) (Resolves (Some "amaya", fileKey)) "" []
              [EvConfirm (loginQuestion None) None] "amaya" (Some fileKey) eq_refl)
    as [(k & known & Stored & _) | (question & k & _ & Yes & _ & Key & _)].
  - discriminate Stored.
  - exists question, k. split; [exact Yes | exact Key].
Defined.


(** ** [promptDeployTarget]: the app the user chooses *)





